(** * Customer feature builder and lookalike engine

    A shallow embedding of the two analysis notebooks of the repository:
    the clustering notebook and the lookalike notebook.  Both define
    [create_customer_features]; the lookalike notebook adds
    [calculate_similarity] and [save_recommendations].

    Conventions of the embedding.
    - A data frame is a list of row records, in row order.
    - A float is the rational number it denotes ([Q]); comparisons of
      finite floats agree with comparisons of these rationals.
    - [pd.to_datetime] yields a timestamp, kept as the number of
      nanoseconds since the epoch ([Z]).
    - A Python dict is an association list in insertion order.
    - A function that catches its exceptions returns an [outcome]: the
      value returned or the exception that escapes, with what it printed. *)

From Stdlib Require Import List String Ascii Bool NArith ZArith QArith Qround Qabs.
From Stdlib Require Import Lia Lqa Permutation Sorted Orders Mergesort PeanoNat.
From Stdlib Require Import DecimalString DecimalN.
From Stdlib Require Decimal DecimalPos.
Import ListNotations.

Local Open Scope string_scope.
Local Open Scope Z_scope.

(** ** Python values shared by the notebooks *)

Inductive exn : Type :=
| AttributeError (msg : string)
| TypeError (msg : string)
| ValueError (msg : string)
| UnboundLocalError (var : string).

(** What a cell prints, line by line. *)
Inductive printed : Type :=
| Print_error (stage : string) (e : exn)
| Print_line (text : string)
| Print_columns (label : string) (cols : list string).

(** How a call ends: it returns a value or lets an exception escape. *)
Inductive completion (A : Type) : Type :=
| Returned (v : A)
| Raised (e : exn).
Arguments Returned {A} v.
Arguments Raised {A} e.

Definition outcome (A : Type) : Type := (completion A * list printed)%type.

(** ** The pandas operations the notebooks call *)

Module StringOrder <: TotalLeBool.
Definition t := string.
Definition leb := String.leb.
Definition leb_total : forall x y, leb x y = true \/ leb y x = true :=
  String.leb_total.
End StringOrder.

Module StringSort := Sort StringOrder.

Module Pandas.

(** Group keys, index labels and column labels come out sorted and
    without repetition. *)
Definition unique_sorted (l : list string) : list string :=
  StringSort.sort (nodup string_dec l).

(** [df.groupby(key)]: one group per key, keys sorted. *)
Definition groupby {A : Type} (key : A -> string) (rows : list A)
  : list (string * list A) :=
  map (fun k => (k, filter (fun r => String.eqb (key r) k) rows))
      (unique_sorted (map key rows)).

Definition zsum (l : list Z) : Z := fold_right Z.add 0 l.

(** An int64 value: the integer in the range from -2^63 to 2^63 - 1 that
    two's complement arithmetic on 64 bits wraps to. *)
Definition int64 (z : Z) : Z := (z + 2 ^ 63) mod 2 ^ 64 - 2 ^ 63.

(** The sum of an int64 column, added up from the first row on: every
    addition wraps around. *)
Definition int64_sum (l : list Z) : Z :=
  fold_left (fun acc x => int64 (acc + x)) l 0.

Definition qsum (l : list Q) : Q := fold_right Qplus (0 : Q) l.
Definition count {A : Type} (l : list A) : Z := Z.of_nat (List.length l).
Definition qmean (l : list Q) : Q := (qsum l / inject_Z (count l))%Q.

(** [Series.max()] of timestamps; [None] is NaT, for an empty series. *)
Definition max_timestamp (l : list Z) : option Z :=
  fold_right (fun d acc => Some (match acc with
                                 | None => d
                                 | Some m => Z.max d m
                                 end)) None l.

Definition ns_per_day : Z := 86400 * 1000000000.

(** [Timedelta.days]: whole days, rounded towards minus infinity. *)
Definition timedelta_days (delta : Z) : Z := delta / ns_per_day.

(** [left.merge(right, on=key)] (inner): for every left row, in order,
    every matching right row, in order. *)
Definition merge_inner {A B C : Type} (lkey : A -> string) (rkey : B -> string)
    (join : A -> B -> C) (left : list A) (right : list B) : list C :=
  flat_map (fun a => map (join a)
              (filter (fun b => String.eqb (rkey b) (lkey a)) right)) left.

(** [left.merge(right, on=key, how='left')]: as the inner merge, and a
    left row without a match is kept once, the right part missing. *)
Definition merge_left {A B C : Type} (lkey : A -> string) (rkey : B -> string)
    (join : A -> option B -> C) (left : list A) (right : list B) : list C :=
  flat_map (fun a =>
              match filter (fun b => String.eqb (rkey b) (lkey a)) right with
              | [] => [join a None]
              | ms => map (fun b => join a (Some b)) ms
              end) left.

(** [pd.crosstab(index, columns, normalize='index')] on the pairs
    (index value, column value) of the rows: counts per cell, each row
    divided by its sum. *)
Record crosstab : Type := {
  ct_columns : list string;
  ct_rows : list (string * list Q)
}.

Definition cell_count (i c : string) (pairs : list (string * string)) : Z :=
  count (filter (fun p => String.eqb (fst p) i && String.eqb (snd p) c) pairs).

Definition crosstab_normalize_index (pairs : list (string * string)) : crosstab :=
  let columns := unique_sorted (map snd pairs) in
  {| ct_columns := columns;
     ct_rows :=
       map (fun i =>
              let counts := map (fun c => cell_count i c pairs) columns in
              let total := zsum counts in
              (i, map (fun n => (inject_Z n / inject_Z total)%Q) counts))
           (unique_sorted (map fst pairs)) |}.

(** [pd.get_dummies(df, prefix=p, columns=[col])]: one indicator column
    per observed value of the column, values sorted. *)
Record dummies : Type := {
  dm_columns : list string;
  dm_rows : list (string * list bool)
}.

Definition get_dummies {A : Type} (key value : A -> string) (prefix : string)
    (rows : list A) : dummies :=
  let values := unique_sorted (map value rows) in
  {| dm_columns := map (fun v => prefix ++ "_" ++ v) values;
     dm_rows := map (fun r => (key r, map (String.eqb (value r)) values)) rows |}.

End Pandas.

(** ** The three source tables *)

Record Customer : Type := {
  cust_CustomerID : string;
  Region : string;
  SignupDate : Z
}.

Record Product : Type := {
  prod_ProductID : string;
  ProductName : string;
  Category : string;
  Price : Q
}.

Record Transaction : Type := {
  TransactionID : string;
  txn_CustomerID : string;
  txn_ProductID : string;
  TransactionDate : Z;
  Quantity : Z;
  TotalValue : Q
}.

(** ** The feature table *)

Record purchase_stats_row : Type := {
  ps_CustomerID : string;
  ps_TotalValue_sum : Q;
  ps_TotalValue_mean : Q;
  ps_TotalValue_count : Z;
  ps_Quantity_sum : Z;
  ps_Quantity_mean : Q
}.

(** A row of the merged table before [fillna]: [None] is NaN. *)
Record merged_row : Type := {
  mr_stats : purchase_stats_row;
  mr_shares : option (list Q);
  mr_recency : option Z;
  mr_regions : option (list bool)
}.

Record feature_row : Type := {
  CustomerID : string;
  TotalValue_sum : Q;
  TotalValue_mean : Q;
  TotalValue_count : Z;
  Quantity_sum : Z;
  Quantity_mean : Q;
  category_shares : list Q;
  recency : Z;
  region_flags : list Z
}.

Record feature_table : Type := {
  category_columns : list string;
  region_columns : list string;
  rows : list feature_row
}.

Definition purchase_stats_columns : list string :=
  ["CustomerID"; "TotalValue_sum"; "TotalValue_mean"; "TotalValue_count";
   "Quantity_sum"; "Quantity_mean"].

(** [DataFrame.fillna(0)] on one merged row. *)
Definition fillna_0 (ncat nreg : nat) (m : merged_row) : feature_row :=
  {| CustomerID := ps_CustomerID (mr_stats m);
     TotalValue_sum := ps_TotalValue_sum (mr_stats m);
     TotalValue_mean := ps_TotalValue_mean (mr_stats m);
     TotalValue_count := ps_TotalValue_count (mr_stats m);
     Quantity_sum := ps_Quantity_sum (mr_stats m);
     Quantity_mean := ps_Quantity_mean (mr_stats m);
     category_shares := match mr_shares m with
                        | Some s => s
                        | None => repeat (0 : Q) ncat
                        end;
     recency := match mr_recency m with
                | Some d => d
                | None => 0
                end;
     region_flags := match mr_regions m with
                     | Some f => map (fun b : bool => if b then 1 else 0) f
                     | None => repeat 0 nreg
                     end |}.

(** The recency of one group: [(latest_date - pd.to_datetime(x).max()).days];
    [None] when either maximum is NaT. *)
Definition recency_days (latest_date : option Z) (x : list Transaction) : option Z :=
  match latest_date, Pandas.max_timestamp (map TransactionDate x) with
  | Some latest, Some own => Some (Pandas.timedelta_days (latest - own))
  | _, _ => None
  end.

(** [category_pivoted.reset_index()] inserts the index as a column named
    CustomerID and raises when a column of that name is already there. *)
Definition reset_index (category_pivoted : Pandas.crosstab)
  : exn + list (string * list Q) :=
  if in_dec string_dec "CustomerID" (Pandas.ct_columns category_pivoted)
  then inl (ValueError "cannot insert CustomerID, already exists")
  else inr (Pandas.ct_rows category_pivoted).

Definition merged_key (m : merged_row) : string := ps_CustomerID (mr_stats m).

(** ** The clustering notebook *)

Module Clustering.

(** The [except Exception as e] block.  A local of the [try] block that
    was never assigned is unbound here: reading it raises. *)
Definition except_handler (e : exn)
    (purchase_stats : option (list purchase_stats_row))
    (category_pivoted : option Pandas.crosstab)
    (region_dummies : option Pandas.dummies)
  : outcome (option feature_table) :=
  let out0 := [Print_error "Error creating features" e;
               Print_line (String (ascii_of_nat 10) "Debugging info:")] in
  match purchase_stats with
  | None => (Raised (UnboundLocalError "purchase_stats"), out0)
  | Some _ =>
    let out1 := (out0 ++ [Print_columns "Purchase stats columns:"
                            purchase_stats_columns])%list in
    match category_pivoted with
    | None => (Raised (UnboundLocalError "category_pivoted"), out1)
    | Some cp =>
      let out2 := (out1 ++ [Print_columns "Category pivot columns:"
                              (Pandas.ct_columns cp)])%list in
      match region_dummies with
      | None => (Raised (UnboundLocalError "region_dummies"), out2)
      | Some rd =>
        (Returned None,
         (out2 ++ [Print_columns "Region dummy columns:"
                     ("CustomerID" :: Pandas.dm_columns rd)])%list)
      end
    end
  end.

Definition create_customer_features
    (customers : option (list Customer))
    (transactions : option (list Transaction))
    (products : option (list Product))
  : outcome (option feature_table) :=
  (* purchase_stats = transactions.groupby('CustomerID').agg(...) *)
  match transactions with
  | None =>
    except_handler
      (AttributeError "'NoneType' object has no attribute 'groupby'")
      None None None
  | Some transactions =>
    let purchase_stats :=
      map (fun g =>
             {| ps_CustomerID := fst g;
                ps_TotalValue_sum := Pandas.qsum (map TotalValue (snd g));
                ps_TotalValue_mean := Pandas.qmean (map TotalValue (snd g));
                ps_TotalValue_count := Pandas.count (snd g);
                ps_Quantity_sum := Pandas.int64_sum (map Quantity (snd g));
                (* the mean is taken in floating point, where nothing wraps *)
                ps_Quantity_mean :=
                  (inject_Z (Pandas.zsum (map Quantity (snd g)))
                   / inject_Z (Pandas.count (snd g)))%Q |})
          (Pandas.groupby txn_CustomerID transactions) in
    (* product_categories = transactions.merge(products[[...]], on='ProductID') *)
    match products with
    | None =>
      except_handler (TypeError "'NoneType' object is not subscriptable")
                     (Some purchase_stats) None None
    | Some products =>
      let product_categories :=
        Pandas.merge_inner txn_ProductID prod_ProductID
          (fun t p => (txn_CustomerID t, Category p)) transactions products in
      let category_pivoted :=
        Pandas.crosstab_normalize_index product_categories in
      (* recency *)
      let latest_date :=
        Pandas.max_timestamp (map TransactionDate transactions) in
      let recency :=
        map (fun g => (fst g, recency_days latest_date (snd g)))
            (Pandas.groupby txn_CustomerID transactions) in
      (* region_dummies = pd.get_dummies(customers[[...]], ...) *)
      match customers with
      | None =>
        except_handler (TypeError "'NoneType' object is not subscriptable")
                       (Some purchase_stats) (Some category_pivoted) None
      | Some customers =>
        let region_dummies :=
          Pandas.get_dummies cust_CustomerID Region "region" customers in
        (* the three left merges, then fillna(0) *)
        match reset_index category_pivoted with
        | inl e =>
          except_handler e (Some purchase_stats) (Some category_pivoted)
                         (Some region_dummies)
        | inr pivot_rows =>
          let with_shares :=
            Pandas.merge_left ps_CustomerID fst
              (fun s o => (s, option_map snd o)) purchase_stats pivot_rows in
          let with_recency :=
            Pandas.merge_left (fun x => ps_CustomerID (fst x)) fst
              (fun x o => (x, match o with
                              | Some (_, Some d) => Some d
                              | _ => None
                              end)) with_shares recency in
          let final_features :=
            Pandas.merge_left (fun x => ps_CustomerID (fst (fst x))) fst
              (fun x o => {| mr_stats := fst (fst x);
                             mr_shares := snd (fst x);
                             mr_recency := snd x;
                             mr_regions := option_map snd o |})
              with_recency (Pandas.dm_rows region_dummies) in
          (Returned
             (Some {| category_columns := Pandas.ct_columns category_pivoted;
                      region_columns := Pandas.dm_columns region_dummies;
                      rows :=
                        map (fillna_0
                               (List.length (Pandas.ct_columns category_pivoted))
                               (List.length (Pandas.dm_columns region_dummies)))
                            final_features |}),
           [])
        end
      end
    end
  end.

End Clustering.

(** ** The lookalike notebook *)

(** A recommendations dict: target id to its list of (neighbour id, score). *)
Definition recommendations : Type := list (string * list (string * Q)).

Module Lookalike.

(** The [except Exception as e] block.  A local of the [try] block that
    was never assigned is unbound here: reading it raises. *)
Definition except_handler (e : exn)
    (purchase_stats : option (list purchase_stats_row))
    (category_pivoted : option Pandas.crosstab)
    (region_dummies : option Pandas.dummies)
  : outcome (option feature_table) :=
  let out0 := [Print_error "Error creating features" e;
               Print_line (String (ascii_of_nat 10) "Debugging info:")] in
  match purchase_stats with
  | None => (Raised (UnboundLocalError "purchase_stats"), out0)
  | Some _ =>
    let out1 := (out0 ++ [Print_columns "Purchase stats columns:"
                            purchase_stats_columns])%list in
    match category_pivoted with
    | None => (Raised (UnboundLocalError "category_pivoted"), out1)
    | Some cp =>
      let out2 := (out1 ++ [Print_columns "Category pivot columns:"
                              (Pandas.ct_columns cp)])%list in
      match region_dummies with
      | None => (Raised (UnboundLocalError "region_dummies"), out2)
      | Some rd =>
        (Returned None,
         (out2 ++ [Print_columns "Region dummy columns:"
                     ("CustomerID" :: Pandas.dm_columns rd)])%list)
      end
    end
  end.

Definition create_customer_features
    (customers : option (list Customer))
    (transactions : option (list Transaction))
    (products : option (list Product))
  : outcome (option feature_table) :=
  (* purchase_stats = transactions.groupby('CustomerID').agg(...) *)
  match transactions with
  | None =>
    except_handler
      (AttributeError "'NoneType' object has no attribute 'groupby'")
      None None None
  | Some transactions =>
    let purchase_stats :=
      map (fun g =>
             {| ps_CustomerID := fst g;
                ps_TotalValue_sum := Pandas.qsum (map TotalValue (snd g));
                ps_TotalValue_mean := Pandas.qmean (map TotalValue (snd g));
                ps_TotalValue_count := Pandas.count (snd g);
                ps_Quantity_sum := Pandas.int64_sum (map Quantity (snd g));
                (* the mean is taken in floating point, where nothing wraps *)
                ps_Quantity_mean :=
                  (inject_Z (Pandas.zsum (map Quantity (snd g)))
                   / inject_Z (Pandas.count (snd g)))%Q |})
          (Pandas.groupby txn_CustomerID transactions) in
    (* product_categories = transactions.merge(products[[...]], on='ProductID') *)
    match products with
    | None =>
      except_handler (TypeError "'NoneType' object is not subscriptable")
                     (Some purchase_stats) None None
    | Some products =>
      let product_categories :=
        Pandas.merge_inner txn_ProductID prod_ProductID
          (fun t p => (txn_CustomerID t, Category p)) transactions products in
      let category_pivoted :=
        Pandas.crosstab_normalize_index product_categories in
      (* recency *)
      let latest_date :=
        Pandas.max_timestamp (map TransactionDate transactions) in
      let recency :=
        map (fun g => (fst g, recency_days latest_date (snd g)))
            (Pandas.groupby txn_CustomerID transactions) in
      (* region_dummies = pd.get_dummies(customers[[...]], ...) *)
      match customers with
      | None =>
        except_handler (TypeError "'NoneType' object is not subscriptable")
                       (Some purchase_stats) (Some category_pivoted) None
      | Some customers =>
        let region_dummies :=
          Pandas.get_dummies cust_CustomerID Region "region" customers in
        (* the three left merges, then fillna(0) *)
        match reset_index category_pivoted with
        | inl e =>
          except_handler e (Some purchase_stats) (Some category_pivoted)
                         (Some region_dummies)
        | inr pivot_rows =>
          let with_shares :=
            Pandas.merge_left ps_CustomerID fst
              (fun s o => (s, option_map snd o)) purchase_stats pivot_rows in
          let with_recency :=
            Pandas.merge_left (fun x => ps_CustomerID (fst x)) fst
              (fun x o => (x, match o with
                              | Some (_, Some d) => Some d
                              | _ => None
                              end)) with_shares recency in
          let final_features :=
            Pandas.merge_left (fun x => ps_CustomerID (fst (fst x))) fst
              (fun x o => {| mr_stats := fst (fst x);
                             mr_shares := snd (fst x);
                             mr_recency := snd x;
                             mr_regions := option_map snd o |})
              with_recency (Pandas.dm_rows region_dummies) in
          (Returned
             (Some {| category_columns := Pandas.ct_columns category_pivoted;
                      region_columns := Pandas.dm_columns region_dummies;
                      rows :=
                        map (fillna_0
                               (List.length (Pandas.ct_columns category_pivoted))
                               (List.length (Pandas.dm_columns region_dummies)))
                            final_features |}),
           [])
        end
      end
    end
  end.

(** *** Python dicts, in insertion order *)

Fixpoint dict_set {V : Type} (k : string) (v : V) (d : list (string * V))
  : list (string * V) :=
  match d with
  | [] => [(k, v)]
  | (k', v') :: d' =>
    if String.eqb k' k then (k', v) :: d' else (k', v') :: dict_set k v d'
  end.

Fixpoint dict_get {V : Type} (k : string) (d : list (string * V)) : option V :=
  match d with
  | [] => None
  | (k', v') :: d' => if String.eqb k' k then Some v' else dict_get k d'
  end.

(** *** Slices *)

(** [a[-n:]] *)
Definition last_n {A : Type} (n : nat) (a : list A) : list A :=
  skipn (List.length a - n) a.

(** [np.argsort(scores)[-4:][:-1][::-1]] *)
Definition similar_indices (argsort : list Q -> list nat) (scores : list Q)
  : list nat :=
  rev (removelast (last_n 4 (argsort scores))).

(** [[f(idx) for idx in indices]] where [f] may raise. *)
Fixpoint comprehension {A B : Type} (f : A -> option B) (l : list A)
  : option (list B) :=
  match l with
  | [] => Some []
  | x :: l' =>
    match f x with
    | None => None
    | Some y =>
      match comprehension f l' with
      | None => None
      | Some ys => Some (y :: ys)
      end
    end
  end.

(** [{cid: idx for idx, cid in enumerate(features['CustomerID'])}] *)
Definition customer_indices (ids : list string) : list (string * nat) :=
  fold_left (fun d ic => dict_set (snd ic) (fst ic) d)
            (combine (seq 0 (List.length ids)) ids) [].

(** One turn of the loop over [target_customers]; [None] is an
    exception (an index out of range), caught by the caller. *)
Definition loop_body (argsort : list Q -> list nat) (ids : list string)
    (similarity_matrix : list (list Q)) (indices : list (string * nat))
    (recs : recommendations) (target_id : string) : option recommendations :=
  match dict_get target_id indices with
  | None => Some recs
  | Some target_idx =>
    match nth_error similarity_matrix target_idx with
    | None => None
    | Some scores =>
      match comprehension
              (fun idx =>
                 match nth_error ids idx, nth_error scores idx with
                 | Some cid, Some score => Some (cid, score)
                 | _, _ => None
                 end)
              (similar_indices argsort scores) with
      | None => None
      | Some similar => Some (dict_set target_id similar recs)
      end
    end
  end.

Fixpoint loop (argsort : list Q -> list nat) (ids : list string)
    (similarity_matrix : list (list Q)) (indices : list (string * nat))
    (recs : recommendations) (target_customers : list string)
  : option recommendations :=
  match target_customers with
  | [] => Some recs
  | target_id :: rest =>
    match loop_body argsort ids similarity_matrix indices recs target_id with
    | None => None
    | Some recs' => loop argsort ids similarity_matrix indices recs' rest
    end
  end.

(** [calculate_similarity].  The numeric libraries are parameters:
    [scaled_cosine_similarity] is [StandardScaler().fit_transform] on the
    feature columns followed by [cosine_similarity] ([None] when it
    raises, as on a table without rows), and [argsort] is [np.argsort].
    The result is [None] when the [except] block returns None. *)
Definition calculate_similarity
    (scaled_cosine_similarity : feature_table -> option (list (list Q)))
    (argsort : list Q -> list nat)
    (features : option feature_table) (target_customers : list string)
  : option recommendations :=
  match features with
  | None => None
  | Some features =>
    match scaled_cosine_similarity features with
    | None => None
    | Some similarity_matrix =>
      let ids := map CustomerID (rows features) in
      loop argsort ids similarity_matrix (customer_indices ids) []
           target_customers
    end
  end.

(** *** Formatting a score: [f"{score:.4f}"] *)

(** The nearest integer, a tie going to the even one. *)
Definition round_half_even (q : Q) : Z :=
  let f := Qfloor q in
  match Qcompare (q - inject_Z f) (1 # 2) with
  | Lt => f
  | Gt => f + 1
  | Eq => if Z.even f then f else f + 1
  end.

Definition digits (n : N) : string :=
  NilEmpty.string_of_uint (N.to_uint n).

Definition digit_char (n : N) : ascii := ascii_of_N (48 + n).

Definition digits4 (n : N) : string :=
  String (digit_char (n / 1000 mod 10))
    (String (digit_char (n / 100 mod 10))
       (String (digit_char (n / 10 mod 10))
          (String (digit_char (n mod 10)) EmptyString))).

Definition format_4f (score : Q) : string :=
  let r := Z.to_N (round_half_even (Qabs score * 10000)) in
  (if Qle_bool 0 score then "" else "-")
    ++ digits (r / 10000) ++ "." ++ digits4 (r mod 10000).

(** The rows of the data frame that [save_recommendations] writes with
    [to_csv]: (CustomerID, Recommendations).  [None]: the [except] block
    ran (the argument was None) and nothing was written. *)
Definition save_recommendations (recs : option recommendations)
  : option (list (string * string)) :=
  match recs with
  | None => None
  | Some recs =>
    Some (map (fun item =>
                 (fst item,
                  String.concat ";"
                    (map (fun rec => fst rec ++ "," ++ format_4f (snd rec))
                         (snd item))))
              recs)
  end.

End Lookalike.

(** ** Reading the recommendations file back *)

Module Reload.

(** [s.split(sep)] *)
Fixpoint split (sep : ascii) (s : string) : list string :=
  match s with
  | EmptyString => [EmptyString]
  | String c s' =>
    if Ascii.eqb c sep then EmptyString :: split sep s'
    else match split sep s' with
         | [] => [String c EmptyString]
         | w :: ws => String c w :: ws
         end
  end.

Definition parse_N (s : string) : option N :=
  match s with
  | EmptyString => None
  | _ => option_map N.of_uint (NilEmpty.uint_of_string s)
  end.

Definition parse_score (s : string) : option Q :=
  let signed := match s with
                | String c body =>
                  if Ascii.eqb c "-" then (true, body) else (false, s)
                | EmptyString => (false, s)
                end in
  match split "."%char (snd signed) with
  | [int_part; frac_part] =>
    match parse_N int_part, parse_N frac_part with
    | Some i, Some f =>
      let den := 10 ^ Z.of_nat (String.length frac_part) in
      let v := Qmake (Z.of_N i * den + Z.of_N f) (Z.to_pos den) in
      Some (if fst signed then Qopp v else v)
    | _, _ => None
    end
  | _ => None
  end.

Definition parse_pair (s : string) : option (string * Q) :=
  match split ","%char s with
  | [cid; score] => option_map (pair cid) (parse_score score)
  | _ => None
  end.

Definition parse_recommendations (field : string) : option (list (string * Q)) :=
  match field with
  | EmptyString => Some []
  | _ => Lookalike.comprehension parse_pair (split ";"%char field)
  end.

(** Modelled from the spec: the reader of the recommendations file.  The
    repository only writes the file; the spec gives its format: one row
    per queried customer, whose second field holds the (neighbor id,
    score) pairs separated by semicolons, the two fields of a pair
    separated by a comma, the score with 4 decimal places. *)
Definition load_recommendations (file : list (string * string))
  : option recommendations :=
  Lookalike.comprehension
    (fun row => option_map (pair (fst row)) (parse_recommendations (snd row)))
    file.

(** The value of a score once written with 4 decimal places. *)
Definition round_4 (score : Q) : Q :=
  let v := Qmake (Z.of_N (Z.to_N (Lookalike.round_half_even
                                    (Qabs score * 10000)))) 10000 in
  if Qle_bool 0 score then v else Qopp v.

Definition rounded (recs : recommendations) : recommendations :=
  map (fun item =>
         (fst item, map (fun rec => (fst rec, round_4 (snd rec))) (snd item)))
      recs.

(** Two mappings are the same: same keys in the same order, same
    neighbours in the same order, equal scores. *)
Definition same_recommendations (r1 r2 : recommendations) : Prop :=
  Forall2 (fun a b =>
             fst a = fst b /\
             Forall2 (fun x y => fst x = fst y /\ (snd x == snd y)%Q)
                     (snd a) (snd b))
          r1 r2.

(** Export then reload gives the mapping back. *)
Definition roundtrip_reproduces (recs : recommendations) : Prop :=
  match Lookalike.save_recommendations (Some recs) with
  | Some file =>
    match load_recommendations file with
    | Some recs' => same_recommendations recs' recs
    | None => False
    end
  | None => False
  end.

Fixpoint has_char (c : ascii) (s : string) : bool :=
  match s with
  | EmptyString => false
  | String c' s' => Ascii.eqb c' c || has_char c s'
  end.

(** An identifier that the delimiters of the file do not cut. *)
Definition plain_id (cid : string) : Prop :=
  has_char ","%char cid = false /\ has_char ";"%char cid = false.

End Reload.

(** ** Properties of neighbour lists *)

(** The contract of [np.argsort]: the indices of the array, each once,
    in an order that makes the values ascend.  The default sort kind is
    not stable, so the order of equal values is not part of it. *)
Definition score_at (scores : list Q) (i : nat) : Q := nth i scores (0 : Q).

Definition argsort_contract (argsort : list Q -> list nat) : Prop :=
  forall scores,
    Permutation (argsort scores) (seq 0 (List.length scores)) /\
    StronglySorted (fun i j => (score_at scores i <= score_at scores j)%Q)
                   (argsort scores).

(** What the scaling and cosine similarity of the numeric library return:
    a square matrix, one row and one column per row of the table. *)
Definition square_similarity
    (scaled_cosine_similarity : feature_table -> option (list (list Q))) : Prop :=
  forall features m,
    scaled_cosine_similarity features = Some m ->
    List.length m = List.length (rows features) /\
    Forall (fun r => List.length r = List.length (rows features)) m.

Definition descending (l : list (string * Q)) : Prop :=
  StronglySorted (fun a b => (snd b <= snd a)%Q) l.

Definition strictly_descending (l : list (string * Q)) : Prop :=
  StronglySorted (fun a b => (snd b < snd a)%Q) l.

(** Descending by score, equal scores in the order of their rows: the
    neighbours are the rows [indices] of the table, in this order. *)
Definition descending_ties_by_row (scores : list Q) (indices : list nat) : Prop :=
  StronglySorted
    (fun i j => (score_at scores j < score_at scores i)%Q \/
                ((score_at scores j == score_at scores i)%Q /\ (i < j)%nat))
    indices.

(** ** Properties of recency *)

(** The latest transaction of one customer. *)
Definition own_latest (transactions : list Transaction) (cid : string) : option Z :=
  Pandas.max_timestamp
    (map TransactionDate
         (filter (fun t => String.eqb (txn_CustomerID t) cid) transactions)).

Definition calendar_day (timestamp : Z) : Z := timestamp / Pandas.ns_per_day.

(** Recency is 0 for the customers whose latest transaction is the latest
    of all, and for no others. *)
Definition zero_recency_exactly_at_latest
    (transactions : list Transaction) (ft : feature_table) : Prop :=
  forall r, In r (rows ft) ->
    (recency r = 0 <->
     own_latest transactions (CustomerID r)
     = Pandas.max_timestamp (map TransactionDate transactions)).

(** The same with dates read as calendar days. *)
Definition zero_recency_exactly_on_latest_day
    (transactions : list Transaction) (ft : feature_table) : Prop :=
  forall r, In r (rows ft) ->
    (recency r = 0 <->
     option_map calendar_day (own_latest transactions (CustomerID r))
     = option_map calendar_day
         (Pandas.max_timestamp (map TransactionDate transactions))).

(** C7 as the spec states it, for every customer table: exactly one row
    per customer identifier of the transactions table. *)
Definition exactly_one_row_per_customer
    (transactions : list Transaction) (ft : feature_table) : Prop :=
  NoDup (map CustomerID (rows ft)) /\
  (forall cid, In cid (map CustomerID (rows ft)) <->
               In cid (map txn_CustomerID transactions)).

(** ** Worked examples *)

Module Examples.

(** A stable argsort by insertion, which is what [np.argsort] does on
    arrays of at most 16 elements. *)
Fixpoint insert_index (scores : list Q) (i : nat) (l : list nat) : list nat :=
  match l with
  | [] => [i]
  | j :: l' =>
    if Qle_bool (score_at scores i) (score_at scores j)
    then i :: j :: l'
    else j :: insert_index scores i l'
  end.

Definition stable_argsort (scores : list Q) : list nat :=
  fold_right (insert_index scores) [] (seq 0 (List.length scores)).

Definition customer (cid region : string) : Customer :=
  {| cust_CustomerID := cid; Region := region; SignupDate := 0 |}.

Definition product (pid category : string) : Product :=
  {| prod_ProductID := pid; ProductName := pid; Category := category;
     Price := 1 |}.

Definition transaction (tid cid pid : string) (date quantity : Z) (value : Q)
  : Transaction :=
  {| TransactionID := tid; txn_CustomerID := cid; txn_ProductID := pid;
     TransactionDate := date; Quantity := quantity; TotalValue := value |}.

Definition hour : Z := 3600 * 1000000000.

Definition four_customers : list Customer :=
  [customer "C0001" "Asia"; customer "C0002" "Asia";
   customer "C0003" "Asia"; customer "C0004" "Asia"].

Definition one_product : list Product := [product "P001" "Books"].

(** C0002, C0003 and C0004 bought the same thing; C0001 bought more. *)
Definition twin_transactions : list Transaction :=
  [transaction "T1" "C0001" "P001" 0 3 30;
   transaction "T2" "C0002" "P001" 0 1 10;
   transaction "T3" "C0003" "P001" 0 1 10;
   transaction "T4" "C0004" "P001" 0 1 10].

(** One purchase each, of different size. *)
Definition spread_transactions : list Transaction :=
  [transaction "T1" "C0001" "P001" 0 32 25;
   transaction "T2" "C0002" "P001" 0 25 32;
   transaction "T3" "C0003" "P001" 0 8 15;
   transaction "T4" "C0004" "P001" 0 15 8].

Definition features_of (transactions : list Transaction) : option feature_table :=
  match fst (Lookalike.create_customer_features
               (Some four_customers) (Some transactions) (Some one_product)) with
  | Returned v => v
  | Raised _ => None
  end.

(** The similarity matrix of the twin table.  Every column either is
    constant (scaled to 0) or separates C0001 from the three others, so
    the scaled row of C0001 is a negative multiple of the row the others
    share: cosines are 1 inside a side and -1 across. *)
Definition twin_matrix : list (list Q) :=
  [[1; -1; -1; -1]; [-1; 1; 1; 1]; [-1; 1; 1; 1]; [-1; 1; 1; 1]]%Q.

(** The similarity matrix of the spread table.  The value columns scale
    to (5, 12, -5, -12) / s and the quantity columns to (12, 5, -12, -5) / s
    for one s, the other columns to 0: the cosines are those of the plane
    vectors (5,12), (12,5), (-5,-12), (-12,-5). *)
Definition spread_matrix : list (list Q) :=
  [[1; 120 # 169; -1; -120 # 169];
   [120 # 169; 1; -120 # 169; -1];
   [-1; -120 # 169; 1; 120 # 169];
   [-120 # 169; -1; 120 # 169; 1]]%Q.

Definition sklearn_gives (m : list (list Q)) (features : feature_table)
  : option (list (list Q)) :=
  if Nat.eqb (List.length (rows features)) 4 then Some m else None.

Definition no_features : feature_table :=
  {| category_columns := []; region_columns := []; rows := [] |}.

Definition twin_features : feature_table :=
  Eval vm_compute in
    match features_of twin_transactions with
    | Some ft => ft
    | None => no_features
    end.

Definition spread_features : feature_table :=
  Eval vm_compute in
    match features_of spread_transactions with
    | Some ft => ft
    | None => no_features
    end.

(** C0001 buys at 23:00 of day 0, C0002 at 01:00 of day 1. *)
Definition late_transactions : list Transaction :=
  [transaction "T1" "C0001" "P001" (23 * hour) 1 10;
   transaction "T2" "C0002" "P001" (25 * hour) 1 10].

Definition late_features : feature_table :=
  Eval vm_compute in
    match features_of late_transactions with
    | Some ft => ft
    | None => no_features
    end.

Definition no_row : feature_row :=
  {| CustomerID := ""; TotalValue_sum := 0; TotalValue_mean := 0;
     TotalValue_count := 0; Quantity_sum := 0; Quantity_mean := 0;
     category_shares := []; recency := 0; region_flags := [] |}.

(** The row of C0001 in the twin table. *)
Definition twin_row : feature_row :=
  Eval vm_compute in hd no_row (rows twin_features).

(** The row of C0001 in the late table. *)
Definition late_row : feature_row :=
  Eval vm_compute in hd no_row (rows late_features).

End Examples.

(** * The rest of the notebooks *)

(** ** Loading the tables: [load_data] and its cell, in both notebooks *)

Module Loader.

(** A table as [pd.read_csv] returns it: column labels and rows of cells. *)
Record frame : Type := {
  fr_columns : list string;
  fr_rows : list (list string)
}.

(** [df.rename(columns=mapping, inplace=True)]: a label found in the
    mapping is replaced, any other label is kept. *)
Definition rename (mapping : list (string * string)) (df : frame) : frame :=
  {| fr_columns :=
       map (fun label => match Lookalike.dict_get label mapping with
                         | Some label' => label'
                         | None => label
                         end) (fr_columns df);
     fr_rows := fr_rows df |}.

Definition consistent_names : list (string * string) :=
  [("customer_id", "CustomerID"); ("product_id", "ProductID")].

(** [load_data]; the three arguments are what the three [pd.read_csv]
    calls do, in the order of the calls: raise or return a table. *)
Definition load_data (customers_csv products_csv transactions_csv : exn + frame)
  : outcome (option frame * option frame * option frame) :=
  match customers_csv with
  | inl e => (Returned (None, None, None), [Print_error "Error loading data" e])
  | inr customers =>
    match products_csv with
    | inl e => (Returned (None, None, None), [Print_error "Error loading data" e])
    | inr products =>
      match transactions_csv with
      | inl e =>
        (Returned (None, None, None), [Print_error "Error loading data" e])
      | inr transactions =>
        (Returned (Some customers, Some products,
                   Some (rename consistent_names transactions)), [])
      end
    end
  end.

(** [str(df.shape)] *)
Definition shape (df : frame) : string :=
  "(" ++ Lookalike.digits (N.of_nat (List.length (fr_rows df))) ++ ", "
      ++ Lookalike.digits (N.of_nat (List.length (fr_columns df))) ++ ")".

Definition shape_of_None : exn :=
  AttributeError "'NoneType' object has no attribute 'shape'".

(** The cell that calls [load_data] and prints the three shapes; it
    returns the three globals it leaves. *)
Definition loading_cell (customers_csv products_csv transactions_csv : exn + frame)
  : outcome (frame * frame * frame) :=
  match load_data customers_csv products_csv transactions_csv with
  | (Raised e, out) => (Raised e, out)
  | (Returned (customers, products, transactions), out) =>
    let out0 := (out ++ [Print_line "Data loaded successfully"])%list in
    match transactions with
    | None => (Raised shape_of_None, out0)
    | Some transactions =>
      let out1 :=
        (out0 ++ [Print_line ("Transactions shape: " ++ shape transactions)])%list in
      match products with
      | None => (Raised shape_of_None, out1)
      | Some products =>
        let out2 :=
          (out1 ++ [Print_line ("Products shape: " ++ shape products)])%list in
        match customers with
        | None => (Raised shape_of_None, out2)
        | Some customers =>
          (Returned (customers, products, transactions),
           (out2 ++ [Print_line ("Customers shape: " ++ shape customers)])%list)
        end
      end
    end
  end.

End Loader.

(** ** The clustering notebook: the features cell and the plots *)

Module ClusteringScript.

(** The cell that calls [create_customer_features] and prints the shape
    of the result. *)
Definition features_cell
    (customers : option (list Customer))
    (transactions : option (list Transaction))
    (products : option (list Product))
  : outcome feature_table :=
  match Clustering.create_customer_features customers transactions products with
  | (Raised e, out) => (Raised e, out)
  | (Returned features, out) =>
    let out0 :=
      (out ++ [Print_line (String (ascii_of_nat 10)
                                  "Features created successfully")])%list in
    match features with
    | None => (Raised Loader.shape_of_None, out0)
    | Some features =>
      (Returned features,
       (out0 ++ [Print_line
                   ("Feature matrix shape: ("
                      ++ Lookalike.digits (N.of_nat (List.length (rows features)))
                      ++ ", "
                      ++ Lookalike.digits
                           (N.of_nat (6 + List.length (category_columns features)
                                      + 1 + List.length (region_columns features)))
                      ++ ")")])%list)
    end
  end.

(** The column labels of a feature table whose category labels collide
    with no other label (pandas renames colliding labels in a merge). *)
Definition frame_columns (features : feature_table) : list string :=
  (purchase_stats_columns ++ category_columns features ++ ["recency"]
     ++ region_columns features)%list.

(** What a plotting call does to the figure. *)
Inductive plot_event : Type :=
| Figure (width height : nat)
| Scatterplot (x y hue : string)
| Title (text : string)
| Show.

(** [sns.scatterplot(x=.., y=.., hue=.., data=features)]: a name that is
    not a column of the data cannot be interpreted, and seaborn raises a
    ValueError; [None] is a data argument that is None.  The wording of
    the error, from the name and the parameter, is the one of the
    installed seaborn. *)
Definition scatterplot (wording : string -> string -> string)
    (x y hue : string) (columns : option (list string))
  : exn + plot_event :=
  let known name :=
    match columns with
    | Some labels => if in_dec string_dec name labels then true else false
    | None => false
    end in
  if negb (known x) then inl (ValueError (wording x "x"))
  else if negb (known y) then inl (ValueError (wording y "y"))
  else if negb (known hue) then inl (ValueError (wording hue "hue"))
  else inr (Scatterplot x y hue).

(** [visualize_clusters]: the plotting calls made, and what is printed. *)
Definition visualize_clusters (wording : string -> string -> string)
    (columns : option (list string))
  : list plot_event * list printed :=
  match scatterplot wording "total_spend_sum" "recency" "Cluster" columns with
  | inl e => ([Figure 12 6], [Print_error "Error visualizing clusters" e])
  | inr first =>
    let drawn := [Figure 12 6; first;
                  Title "Customer Segments: Total Spend vs. Recency"; Show;
                  Figure 12 6] in
    match scatterplot wording "TotalValue_count" "TotalValue_mean" "Cluster"
            columns with
    | inl e => (drawn, [Print_error "Error visualizing clusters" e])
    | inr second =>
      ((drawn ++ [second;
                  Title "Customer Segments: Total Transactions vs. Average Transaction Value";
                  Show])%list, [])
    end
  end.

End ClusteringScript.

(** ** The lookalike notebook: the targets queried *)

Module LookalikeScript.

(** [s.zfill(width)]: zeros on the left up to the width, after a sign. *)
Definition zfill (width : nat) (s : string) : string :=
  let zeros := String.concat "" (repeat "0" (width - String.length s)) in
  match s with
  | String c rest =>
    if Ascii.eqb c "+" || Ascii.eqb c "-"
    then String c (zeros ++ rest)
    else zeros ++ s
  | EmptyString => zeros
  end.

(** [f'C{str(i).zfill(4)}'] *)
Definition customer_label (i : N) : string :=
  "C" ++ zfill 4 (Lookalike.digits i).

(** [[f'C{str(i).zfill(4)}' for i in range(1, 21)]] *)
Definition target_customers : list string :=
  map (fun i => customer_label (N.of_nat i)) (seq 1 20).

End LookalikeScript.

(** ** Further worked examples *)

Module MoreExamples.

(** C0002 is listed twice in the customer table. *)
Definition repeated_customers : list Customer :=
  [Examples.customer "C0001" "Asia"; Examples.customer "C0002" "Asia";
   Examples.customer "C0002" "Europe"].

Definition two_transactions : list Transaction :=
  [Examples.transaction "T1" "C0001" "P001" 0 1 10;
   Examples.transaction "T2" "C0002" "P001" 0 2 20].

(** A product whose category has the name of the key column. *)
Definition odd_products : list Product :=
  [Examples.product "P001" "CustomerID"].

Definition csv : Loader.frame :=
  {| Loader.fr_columns := ["TransactionID"; "customer_id"; "product_id"];
     Loader.fr_rows := [["T1"; "C0001"; "P001"]] |}.

Definition missing_file : exn := ValueError "No such file".

(** The purchase of C0001 in the twin table, alone. *)
Definition lone_transactions : list Transaction :=
  [Examples.transaction "T1" "C0001" "P001" 0 3 30].

Definition lone_features : feature_table :=
  Eval vm_compute in
    match fst (Clustering.create_customer_features
                 (Some repeated_customers) (Some lone_transactions)
                 (Some Examples.one_product)) with
    | Returned (Some ft) => ft
    | _ => Examples.no_features
    end.

(** One wording of seaborn for a name it cannot interpret. *)
Definition cannot_interpret (name parameter : string) : string :=
  "Could not interpret value `" ++ name ++ "` for parameter `" ++ parameter ++ "`".

Definition repeated_features : feature_table :=
  Eval vm_compute in
    match fst (Clustering.create_customer_features
                 (Some repeated_customers) (Some two_transactions)
                 (Some Examples.one_product)) with
    | Returned (Some ft) => ft
    | _ => Examples.no_features
    end.

End MoreExamples.

(** * Properties *)

(** ** The pandas operations *)

Section PandasFacts.

Import Pandas.

Lemma unique_sorted_In (x : string) (l : list string) :
  In x (unique_sorted l) <-> In x l.
Proof.
  unfold unique_sorted. split; intro H.
  - apply (nodup_In string_dec).
    eapply Permutation_in; [symmetry; apply StringSort.Permuted_sort | exact H].
  - eapply Permutation_in; [apply StringSort.Permuted_sort |].
    now apply nodup_In.
Qed.

Lemma unique_sorted_NoDup (l : list string) : NoDup (unique_sorted l).
Proof.
  unfold unique_sorted.
  eapply Permutation_NoDup; [apply StringSort.Permuted_sort |].
  apply NoDup_nodup.
Qed.

Lemma groupby_keys {A : Type} (key : A -> string) (l : list A) :
  map fst (groupby key l) = unique_sorted (map key l).
Proof.
  unfold groupby. rewrite map_map. simpl. apply map_id.
Qed.

Lemma groupby_In {A : Type} (key : A -> string) (l : list A) (g : string * list A) :
  In g (groupby key l) ->
  In (fst g) (map key l) /\
  snd g = filter (fun r => String.eqb (key r) (fst g)) l.
Proof.
  unfold groupby. intro H. apply in_map_iff in H as [k [<- Hk]].
  simpl. split; [now apply unique_sorted_In | reflexivity].
Qed.

(** At most one row of a table with a unique key matches a key. *)
Lemma filter_unique_key {B : Type} (rkey : B -> string) (k : string) (right : list B) :
  NoDup (map rkey right) ->
  (List.length (filter (fun b => String.eqb (rkey b) k) right) <= 1)%nat.
Proof.
  induction right as [|b right IH]; simpl; intro Hnd; [lia |].
  inversion Hnd as [|? ? Hnotin Hnd']; subst.
  destruct (String.eqb (rkey b) k) eqn:E; [| now apply IH].
  apply String.eqb_eq in E. simpl.
  assert (Hnil : filter (fun b0 => String.eqb (rkey b0) k) right = []).
  { destruct (filter (fun b0 => String.eqb (rkey b0) k) right) as [|c rest] eqn:F;
      [reflexivity |].
    assert (Hc : In c (filter (fun b0 => String.eqb (rkey b0) k) right))
      by (rewrite F; now left).
    apply filter_In in Hc as [Hc1 Hc2]. apply String.eqb_eq in Hc2.
    exfalso. apply Hnotin. rewrite E, <- Hc2. now apply in_map. }
  rewrite Hnil. simpl. lia.
Qed.

(** A left merge against a table with a unique key keeps the rows of the
    left table, one for one. *)
Lemma merge_left_keys {A B C : Type} (lkey : A -> string) (rkey : B -> string)
    (join : A -> option B -> C) (ckey : C -> string)
    (left : list A) (right : list B) :
  NoDup (map rkey right) ->
  (forall a o, ckey (join a o) = lkey a) ->
  map ckey (merge_left lkey rkey join left right) = map lkey left.
Proof.
  intros Hnd Hkey. unfold merge_left.
  induction left as [|a left IH]; [reflexivity |].
  cbn [flat_map]. rewrite map_app, IH. cbn [map]. change (lkey a :: map lkey left)
    with ([lkey a] ++ map lkey left)%list. f_equal.
  pose proof (filter_unique_key rkey (lkey a) right Hnd) as Hlen.
  destruct (filter (fun b => String.eqb (rkey b) (lkey a)) right) as [|b [|b' rest]];
    simpl in *; try lia; now rewrite Hkey.
Qed.

(** Where a row of a left merge comes from. *)
Lemma merge_left_In {A B C : Type} (lkey : A -> string) (rkey : B -> string)
    (join : A -> option B -> C) (left : list A) (right : list B) (c : C) :
  In c (merge_left lkey rkey join left right) ->
  exists a, In a left /\
    ((forall b, In b right -> rkey b <> lkey a) /\ c = join a None \/
     exists b, In b right /\ rkey b = lkey a /\ c = join a (Some b)).
Proof.
  unfold merge_left. intro H. apply in_flat_map in H as [a [Ha Hc]].
  exists a. split; [exact Ha |].
  destruct (filter (fun b => String.eqb (rkey b) (lkey a)) right) as [|b0 ms] eqn:F.
  - left. destruct Hc as [<- | []]. split; [| reflexivity].
    intros b Hb Heq.
    assert (Hin : In b (filter (fun b => String.eqb (rkey b) (lkey a)) right)).
    { apply filter_In. split; [exact Hb | now apply String.eqb_eq]. }
    rewrite F in Hin. exact Hin.
  - right. apply in_map_iff in Hc as [b [<- Hb]].
    rewrite <- F in Hb. apply filter_In in Hb as [Hb1 Hb2].
    apply String.eqb_eq in Hb2. now exists b.
Qed.

Lemma merge_inner_In {A B C : Type} (lkey : A -> string) (rkey : B -> string)
    (join : A -> B -> C) (left : list A) (right : list B) (c : C) :
  In c (merge_inner lkey rkey join left right) <->
  exists a b, In a left /\ In b right /\ rkey b = lkey a /\ c = join a b.
Proof.
  unfold merge_inner. rewrite in_flat_map. split.
  - intros [a [Ha Hc]]. apply in_map_iff in Hc as [b [<- Hb]].
    apply filter_In in Hb as [Hb1 Hb2]. apply String.eqb_eq in Hb2.
    now exists a, b.
  - intros [a [b [Ha [Hb [Hk ->]]]]]. exists a. split; [exact Ha |].
    apply in_map. apply filter_In. split; [exact Hb | now apply String.eqb_eq].
Qed.

Lemma count_nonneg {A : Type} (l : list A) : 0 <= count l.
Proof. unfold count. lia. Qed.

Lemma zsum_nonneg (l : list Z) : Forall (fun n => 0 <= n) l -> 0 <= zsum l.
Proof. induction 1; simpl; lia. Qed.

Lemma zsum_ge_member (l : list Z) (n : Z) :
  Forall (fun n => 0 <= n) l -> In n l -> n <= zsum l.
Proof.
  induction 1 as [|m l Hm Hl IH]; simpl; intros Hin; [contradiction |].
  pose proof (zsum_nonneg l Hl). destruct Hin as [-> | Hin]; [lia |].
  specialize (IH Hin). lia.
Qed.

(** The shares of a row add up to the whole. *)
Lemma qsum_shares (counts : list Z) (total : Z) :
  (qsum (map (fun n => inject_Z n / inject_Z total) counts)
   == inject_Z (zsum counts) / inject_Z total)%Q.
Proof.
  induction counts as [|n counts IH]; simpl.
  - unfold Qdiv. now rewrite Qmult_0_l.
  - rewrite IH, inject_Z_plus. unfold Qdiv. ring.
Qed.

Lemma share_nonneg (n total : Z) :
  0 <= n -> 0 <= total -> (0 <= inject_Z n / inject_Z total)%Q.
Proof.
  intros Hn Ht. unfold Qdiv. apply Qmult_le_0_compat.
  - change 0%Q with (inject_Z 0). now rewrite <- Zle_Qle.
  - apply Qinv_le_0_compat. change 0%Q with (inject_Z 0). now rewrite <- Zle_Qle.
Qed.

(** [max_timestamp] is the maximum: an element, above all elements. *)
Lemma max_timestamp_spec (l : list Z) :
  match max_timestamp l with
  | None => l = []
  | Some m => In m l /\ forall d, In d l -> d <= m
  end.
Proof.
  induction l as [|d l IH]; simpl; [reflexivity |].
  change (fold_right _ None l) with (max_timestamp l).
  destruct (max_timestamp l) as [m|].
  - destruct IH as [Hin Hmax]. split.
    + destruct (Z.max_spec d m) as [[_ ->] | [_ ->]]; [now right | now left].
    + intros x [<- | Hx]; [lia |]. specialize (Hmax x Hx). lia.
  - subst l. split; [now left |]. intros x [<- | []]. lia.
Qed.

End PandasFacts.

(** ** The feature builder *)

Section FeatureBuilder.

Import Pandas.

Variables (customers : list Customer) (transactions : list Transaction)
          (products : list Product).
Variables (ft : feature_table) (out : list printed).

Hypothesis Hrun :
  Clustering.create_customer_features
    (Some customers) (Some transactions) (Some products)
  = (Returned (Some ft), out).

(** Where a row of the feature table comes from: a customer of the
    transactions table, the row of the pivot for that customer when there
    is one, and the recency of the customer's group. *)
Lemma feature_row_origin (r : feature_row) :
  In r (rows ft) ->
  In (CustomerID r) (map txn_CustomerID transactions) /\
  ((category_shares r = repeat (0 : Q) (List.length (category_columns ft)) /\
    forall row,
      In row (ct_rows (crosstab_normalize_index
                (merge_inner txn_ProductID prod_ProductID
                   (fun t p => (txn_CustomerID t, Category p))
                   transactions products))) ->
      fst row <> CustomerID r) \/
   exists row,
     In row (ct_rows (crosstab_normalize_index
               (merge_inner txn_ProductID prod_ProductID
                  (fun t p => (txn_CustomerID t, Category p))
                  transactions products))) /\
     fst row = CustomerID r /\ category_shares r = snd row) /\
  recency r =
    match recency_days (max_timestamp (map TransactionDate transactions))
            (filter (fun t => String.eqb (txn_CustomerID t) (CustomerID r))
                    transactions) with
    | Some d => d
    | None => 0
    end.
Proof.
  intro Hr. unfold Clustering.create_customer_features in Hrun.
  destruct (reset_index _) as [e | pivot_rows] eqn:Hreset in Hrun.
  { unfold Clustering.except_handler in Hrun. discriminate Hrun. }
  injection Hrun as Hft _. subst ft. cbn [rows category_columns] in *.
  unfold reset_index in Hreset.
  destruct (in_dec string_dec _ _) in Hreset; [discriminate |].
  injection Hreset as <-.
  apply in_map_iff in Hr as [m [<- Hm]].
  apply merge_left_In in Hm as [x2 [Hx2 Hm]].
  apply merge_left_In in Hx2 as [x1 [Hx1 Hx2]].
  apply merge_left_In in Hx1 as [s [Hs Hx1]].
  apply in_map_iff in Hs as [g [Hs Hg]].
  apply groupby_In in Hg as Hg'. destruct Hg' as [Hkey Hgroup].
  unfold fillna_0; cbn [CustomerID category_shares recency].
  assert (Hid : ps_CustomerID (mr_stats m) = fst g).
  { destruct Hm as [[_ ->] | [b [_ [_ ->]]]];
      destruct Hx2 as [[_ ->] | [b2 [_ [_ ->]]]];
      destruct Hx1 as [[_ ->] | [b1 [_ [_ ->]]]];
      subst s; reflexivity. }
  rewrite Hid. split; [exact Hkey |]. split.
  - assert (Hshares : mr_shares m = snd x1).
    { destruct Hm as [[_ ->] | [b [_ [_ ->]]]];
        destruct Hx2 as [[_ ->] | [b2 [_ [_ ->]]]]; reflexivity. }
    rewrite Hshares.
    destruct Hx1 as [[Hnone ->] | [b1 [Hb1 [Hk ->]]]]; cbn [snd option_map].
    + left. split; [reflexivity |]. intros row Hrow. subst s. now apply Hnone.
    + right. exists b1. subst s. cbn [ps_CustomerID] in Hk. now repeat split.
  - assert (Hrec : mr_recency m = snd x2).
    { destruct Hm as [[_ ->] | [b [_ [_ ->]]]]; reflexivity. }
    rewrite Hrec.
    assert (Hk1 : ps_CustomerID (fst x1) = fst g).
    { destruct Hx1 as [[_ ->] | [b1 [_ [_ ->]]]]; subst s; reflexivity. }
    destruct Hx2 as [[Hnone ->] | [b2 [Hb2 [Hk ->]]]]; cbn [snd].
    + exfalso. apply (Hnone (fst g, recency_days
                   (max_timestamp (map TransactionDate transactions)) (snd g))).
      * apply in_map_iff. now exists g.
      * rewrite Hk1. reflexivity.
    + apply in_map_iff in Hb2 as [g2 [<- Hg2]]. cbn [fst] in Hk.
      apply groupby_In in Hg2 as [_ Hgroup2].
      rewrite Hk1 in Hk. rewrite Hgroup2, Hk.
      destruct (recency_days _ (filter _ transactions)); reflexivity.
Qed.

(** The customers of the feature table, in order, when no customer is
    listed twice in the customer table. *)
Lemma feature_customers :
  NoDup (map cust_CustomerID customers) ->
  map CustomerID (rows ft) = unique_sorted (map txn_CustomerID transactions).
Proof.
  intro Hnd. unfold Clustering.create_customer_features in Hrun.
  destruct (reset_index _) as [e | pivot_rows] eqn:Hreset in Hrun.
  { unfold Clustering.except_handler in Hrun. discriminate Hrun. }
  injection Hrun as Hft _. subst ft. cbn [rows].
  unfold reset_index in Hreset.
  destruct (in_dec string_dec _ _) in Hreset; [discriminate |].
  injection Hreset as <-.
  rewrite map_map.
  rewrite (merge_left_keys _ fst _ (fun m => CustomerID (fillna_0 _ _ m)));
    [| unfold get_dummies; cbn [dm_rows]; rewrite map_map; exact Hnd
     | reflexivity].
  rewrite (merge_left_keys _ fst _ (fun x => ps_CustomerID (fst (fst x))));
    [| rewrite map_map; cbn [fst];
       change (map (fun x : string * list Transaction => fst x)
                   (groupby txn_CustomerID transactions))
         with (map fst (groupby txn_CustomerID transactions));
       rewrite groupby_keys; apply unique_sorted_NoDup
     | reflexivity].
  rewrite (merge_left_keys _ fst _ (fun x => ps_CustomerID (fst x)));
    [| unfold crosstab_normalize_index; cbn [ct_rows]; rewrite map_map;
       cbn [fst]; rewrite map_id; apply unique_sorted_NoDup
     | reflexivity].
  rewrite map_map. cbn [ps_CustomerID].
  change (map (fun x : string * list Transaction => fst x)
              (groupby txn_CustomerID transactions))
    with (map fst (groupby txn_CustomerID transactions)).
  apply groupby_keys.
Qed.

End FeatureBuilder.

(** C1: in the feature table, the category shares of every row are
    non-negative, and they add up to 1 for every customer with a
    transaction that joins to a product (shares being exact quotients). *)
Theorem category_shares_distribution
    (customers : list Customer) (transactions : list Transaction)
    (products : list Product) (ft : feature_table) (out : list printed) :
  Clustering.create_customer_features
    (Some customers) (Some transactions) (Some products)
  = (Returned (Some ft), out) ->
  forall r, In r (rows ft) ->
    Forall (fun share => (0 <= share)%Q) (category_shares r) /\
    ((exists t p, In t transactions /\ In p products /\
                  prod_ProductID p = txn_ProductID t /\
                  txn_CustomerID t = CustomerID r) ->
     (Pandas.qsum (category_shares r) == 1)%Q).
Proof.
  intros Hrun r Hr.
  destruct (feature_row_origin _ _ _ _ _ Hrun r Hr) as [_ [Hshares _]].
  set (pairs := Pandas.merge_inner txn_ProductID prod_ProductID
                  (fun t p => (txn_CustomerID t, Category p))
                  transactions products) in *.
  assert (Hcount : forall i c, 0 <= Pandas.cell_count i c pairs)
    by (intros; apply count_nonneg).
  destruct Hshares as [[-> Hnone] | [row [Hrow [Hfst ->]]]].
  - split.
    + apply Forall_forall. intros x Hx. apply repeat_spec in Hx. subst x.
      apply Qle_refl.
    + intros [t [p [Ht [Hp [Hpid Hcid]]]]]. exfalso.
      assert (Hpair : In (CustomerID r, Category p) pairs).
      { apply merge_inner_In. exists t, p. now rewrite Hcid. }
      unfold Pandas.crosstab_normalize_index in Hnone. cbn [Pandas.ct_rows] in Hnone.
      eapply (Hnone (CustomerID r, _)); [| reflexivity].
      apply in_map_iff. exists (CustomerID r). split; [reflexivity |].
      apply unique_sorted_In. apply in_map_iff. now exists (CustomerID r, Category p).
  - unfold Pandas.crosstab_normalize_index in Hrow. cbn [Pandas.ct_rows] in Hrow.
    apply in_map_iff in Hrow as [i [<- Hi]]. cbn [fst snd] in *. subst i.
    set (columns := Pandas.unique_sorted (map snd pairs)) in *.
    set (counts := map (fun c => Pandas.cell_count (CustomerID r) c pairs) columns).
    assert (Hnn : Forall (fun n => 0 <= n) counts).
    { apply Forall_forall. intros n Hn. apply in_map_iff in Hn as [c [<- _]].
      apply Hcount. }
    split.
    + apply Forall_forall. intros x Hx. apply in_map_iff in Hx as [n [<- Hn]].
      apply share_nonneg; [| now apply zsum_nonneg].
      rewrite Forall_forall in Hnn. now apply Hnn.
    + intros [t [p [Ht [Hp [Hpid Hcid]]]]].
      rewrite qsum_shares.
      assert (Hpair : In (CustomerID r, Category p) pairs).
      { apply merge_inner_In. exists t, p. now rewrite Hcid. }
      assert (Hone : 1 <= Pandas.cell_count (CustomerID r) (Category p) pairs).
      { unfold Pandas.cell_count, Pandas.count.
        assert (Hin : In (CustomerID r, Category p)
                         (filter (fun q => String.eqb (fst q) (CustomerID r)
                                           && String.eqb (snd q) (Category p)) pairs)).
        { apply filter_In. split; [exact Hpair |]. cbn [fst snd].
          now rewrite !String.eqb_refl. }
        destruct (filter _ pairs); [contradiction | cbn [List.length]; lia]. }
      assert (Htotal : 1 <= Pandas.zsum counts).
      { etransitivity; [exact Hone |]. apply zsum_ge_member; [exact Hnn |].
        apply in_map_iff. exists (Category p). split; [reflexivity |].
        apply unique_sorted_In. apply in_map_iff.
        now exists (CustomerID r, Category p). }
      apply Qmult_inv_r. intro H0.
      unfold Qeq in H0. cbn [Qnum Qden inject_Z] in H0. lia.
Qed.

Lemma category_shares_distribution_witness :
  Clustering.create_customer_features
    (Some Examples.four_customers) (Some Examples.twin_transactions)
    (Some Examples.one_product)
  = (Returned (Some Examples.twin_features), []) /\
  In Examples.twin_row (rows Examples.twin_features) /\
  Forall (fun share => (0 <= share)%Q) (category_shares Examples.twin_row) /\
  (Pandas.qsum (category_shares Examples.twin_row) == 1)%Q.
Proof.
  assert (Hrun : Clustering.create_customer_features
                   (Some Examples.four_customers) (Some Examples.twin_transactions)
                   (Some Examples.one_product)
                 = (Returned (Some Examples.twin_features), []))
    by (vm_compute; reflexivity).
  assert (Hin : In Examples.twin_row (rows Examples.twin_features))
    by (simpl; auto).
  destruct (category_shares_distribution _ _ _ _ _ Hrun _ Hin) as [Hpos Hsum].
  split; [exact Hrun |]. split; [exact Hin |]. split; [exact Hpos |].
  apply Hsum.
  exists (Examples.transaction "T1" "C0001" "P001" 0 3 30),
         (Examples.product "P001" "Books").
  simpl. auto.
Defined.

(** C7, as amended: with customer identifiers unique in the customer table,
    the feature table has exactly one row per customer identifier of the
    transactions table, and no row for a customer without transactions. *)
Theorem one_row_per_transacting_customer
    (customers : list Customer) (transactions : list Transaction)
    (products : list Product) (ft : feature_table) (out : list printed) :
  NoDup (map cust_CustomerID customers) ->
  Clustering.create_customer_features
    (Some customers) (Some transactions) (Some products)
  = (Returned (Some ft), out) ->
  NoDup (map CustomerID (rows ft)) /\
  (forall cid, In cid (map CustomerID (rows ft)) <->
               In cid (map txn_CustomerID transactions)) /\
  (forall c, In c customers ->
             ~ In (cust_CustomerID c) (map txn_CustomerID transactions) ->
             ~ In (cust_CustomerID c) (map CustomerID (rows ft))).
Proof.
  intros Hnd Hrun.
  pose proof (feature_customers _ _ _ _ _ Hrun Hnd) as Hids.
  rewrite Hids. split; [apply unique_sorted_NoDup |]. split.
  - intro cid. apply unique_sorted_In.
  - intros c _ Hnot Hin. apply Hnot. now apply unique_sorted_In.
Qed.

Lemma one_row_per_transacting_customer_witness :
  NoDup (map cust_CustomerID Examples.four_customers) /\
  NoDup (map CustomerID (rows Examples.twin_features)) /\
  (forall cid, In cid (map CustomerID (rows Examples.twin_features)) <->
               In cid (map txn_CustomerID Examples.twin_transactions)).
Proof.
  assert (Hnd : NoDup (map cust_CustomerID Examples.four_customers)).
  { simpl. repeat constructor; simpl; intuition discriminate. }
  split; [exact Hnd |].
  destruct (one_row_per_transacting_customer
              Examples.four_customers Examples.twin_transactions
              Examples.one_product Examples.twin_features [] Hnd)
    as [H1 [H2 _]]; [vm_compute; reflexivity |].
  split; assumption.
Defined.

(** C7 as it is stated fails: a customer with a transaction whom the
    customer table lists twice has two rows, one per listing, which the
    left merge with the region indicators makes. *)
Lemma customer_listed_twice_has_two_rows :
  Clustering.create_customer_features
    (Some MoreExamples.repeated_customers) (Some MoreExamples.two_transactions)
    (Some Examples.one_product)
  = (Returned (Some MoreExamples.repeated_features), []) /\
  map CustomerID (rows MoreExamples.repeated_features)
  = ["C0001"; "C0002"; "C0002"] /\
  ~ exactly_one_row_per_customer
      MoreExamples.two_transactions MoreExamples.repeated_features.
Proof.
  split; [vm_compute; reflexivity |]. split; [reflexivity |].
  intros [Hnd _].
  change (NoDup ["C0001"; "C0002"; "C0002"]) in Hnd.
  inversion Hnd as [|? ? _ Hrest]. inversion Hrest as [|? ? Hnot _].
  apply Hnot. now left.
Qed.

(** C3, as amended: recency is the global latest timestamp minus the
    customer's own latest one, in whole days; it is never negative; it is
    0 when the two coincide, and in general exactly when the customer's
    latest transaction is less than one day before the global latest. *)
Theorem recency_whole_days_since_latest
    (customers : list Customer) (transactions : list Transaction)
    (products : list Product) (ft : feature_table) (out : list printed) :
  Clustering.create_customer_features
    (Some customers) (Some transactions) (Some products)
  = (Returned (Some ft), out) ->
  forall r, In r (rows ft) ->
    exists latest own,
      Pandas.max_timestamp (map TransactionDate transactions) = Some latest /\
      own_latest transactions (CustomerID r) = Some own /\
      recency r = (latest - own) / Pandas.ns_per_day /\
      0 <= recency r /\
      (own = latest -> recency r = 0) /\
      (recency r = 0 <-> latest - own < Pandas.ns_per_day).
Proof.
  intros Hrun r Hr.
  destruct (feature_row_origin _ _ _ _ _ Hrun r Hr) as [Hcid [_ Hrec]].
  unfold recency_days in Hrec. fold (own_latest transactions (CustomerID r)) in Hrec.
  pose proof (max_timestamp_spec (map TransactionDate transactions)) as Hall.
  pose proof (max_timestamp_spec
                (map TransactionDate
                   (filter (fun t => String.eqb (txn_CustomerID t) (CustomerID r))
                           transactions))) as Hown.
  fold (own_latest transactions (CustomerID r)) in Hown.
  apply in_map_iff in Hcid as [t [Ht1 Ht2]].
  destruct (Pandas.max_timestamp (map TransactionDate transactions)) as [latest|] eqn:E1.
  2:{ apply (f_equal (@List.length Z)) in Hall. rewrite length_map in Hall.
      destruct transactions; [contradiction | discriminate]. }
  destruct (own_latest transactions (CustomerID r)) as [own|] eqn:E2.
  2:{ assert (Hin : In t (filter (fun t => String.eqb (txn_CustomerID t) (CustomerID r))
                                 transactions)).
      { apply filter_In. split; [exact Ht2 | now apply String.eqb_eq]. }
      apply (in_map TransactionDate) in Hin. rewrite Hown in Hin. contradiction. }
  exists latest, own.
  assert (Hle : own <= latest).
  { apply Hall. destruct Hown as [Hin _]. apply in_map_iff in Hin as [t' [<- Ht']].
    apply filter_In in Ht' as [Ht' _]. now apply in_map. }
  assert (Hday : 0 < Pandas.ns_per_day) by reflexivity.
  unfold Pandas.timedelta_days in Hrec. rewrite Hrec.
  repeat split.
  - apply Z.div_pos; lia.
  - intros ->. rewrite Z.sub_diag. reflexivity.
  - intro H0. apply Z.div_small_iff in H0; lia.
  - intro Hlt. apply Z.div_small. lia.
Qed.

Lemma recency_whole_days_since_latest_witness :
  exists latest own,
    Pandas.max_timestamp (map TransactionDate Examples.late_transactions)
      = Some latest /\
    own_latest Examples.late_transactions (CustomerID Examples.late_row)
      = Some own /\
    recency Examples.late_row = (latest - own) / Pandas.ns_per_day /\
    0 <= recency Examples.late_row /\
    (own = latest -> recency Examples.late_row = 0) /\
    (recency Examples.late_row = 0 <-> latest - own < Pandas.ns_per_day).
Proof.
  apply (recency_whole_days_since_latest Examples.four_customers
           Examples.late_transactions Examples.one_product
           Examples.late_features []).
  - vm_compute. reflexivity.
  - simpl. auto.
Defined.

(** C3 as it is stated fails: a customer whose latest transaction is two
    hours before the latest of all, on the previous day, has recency 0. *)
Lemma recency_zero_before_latest_date :
  Clustering.create_customer_features
    (Some Examples.four_customers) (Some Examples.late_transactions)
    (Some Examples.one_product)
  = (Returned (Some Examples.late_features), []) /\
  ~ zero_recency_exactly_at_latest Examples.late_transactions Examples.late_features /\
  ~ zero_recency_exactly_on_latest_day
      Examples.late_transactions Examples.late_features.
Proof.
  split; [vm_compute; reflexivity |].
  assert (Hin : In Examples.late_row (rows Examples.late_features))
    by (simpl; auto).
  split; intro H; specialize (H Examples.late_row Hin);
    destruct H as [H _]; specialize (H eq_refl); vm_compute in H; discriminate H.
Qed.

(** C4 fails on the code: with the tables that a failed load returns,
    the handler itself raises and the exception reaches the caller. *)
Theorem diagnostic_reads_unbound_local :
  Clustering.create_customer_features None None None
  = (Raised (UnboundLocalError "purchase_stats"),
     [Print_error "Error creating features"
        (AttributeError "'NoneType' object has no attribute 'groupby'");
      Print_line (String (ascii_of_nat 10) "Debugging info:")]).
Proof. reflexivity. Qed.

(** Whenever a stage before the merge raises, an exception escapes. *)
Lemma missing_table_escapes
    (customers : option (list Customer)) (transactions : option (list Transaction))
    (products : option (list Product)) :
  customers = None \/ transactions = None \/ products = None ->
  exists var out,
    Clustering.create_customer_features customers transactions products
    = (Raised (UnboundLocalError var), out).
Proof.
  intros H. unfold Clustering.create_customer_features.
  destruct transactions as [ts|]; [| now eexists _, _].
  destruct products as [ps|]; [| now eexists _, _].
  destruct customers as [cs|]; [| now eexists _, _].
  destruct H as [H | [H | H]]; discriminate H.
Qed.

(** The handler returns None, as intended, only for a failure of the
    merge, when the three intermediate tables exist. *)
Lemma none_returned_only_from_merge
    (customers : option (list Customer)) (transactions : option (list Transaction))
    (products : option (list Product)) (out : list printed) :
  Clustering.create_customer_features customers transactions products
  = (Returned None, out) ->
  exists cs ts ps, customers = Some cs /\ transactions = Some ts /\ products = Some ps /\
    In "CustomerID" (map Category ps) /\
    exists e c1 c2 c3,
      out = [Print_error "Error creating features" e;
             Print_line (String (ascii_of_nat 10) "Debugging info:");
             Print_columns "Purchase stats columns:" c1;
             Print_columns "Category pivot columns:" c2;
             Print_columns "Region dummy columns:" c3].
Proof.
  unfold Clustering.create_customer_features.
  destruct transactions as [ts|]; [| discriminate].
  destruct products as [ps|]; [| discriminate].
  destruct customers as [cs|]; [| discriminate].
  destruct (reset_index _) as [e | pivot_rows] eqn:Hreset; [| discriminate].
  unfold Clustering.except_handler. intro H. injection H as <-.
  exists cs, ts, ps. repeat split; [| now eexists _, _, _, _].
  unfold reset_index in Hreset.
  destruct (in_dec string_dec _ _) as [Hin |] in Hreset; [| discriminate].
  unfold Pandas.crosstab_normalize_index in Hin. cbn [Pandas.ct_columns] in Hin.
  apply (proj1 (unique_sorted_In _ _)) in Hin.
  apply in_map_iff in Hin as [pr [Hsnd Hpr]].
  apply merge_inner_In in Hpr as [t [p [_ [Hp [_ ->]]]]].
  cbn [snd] in Hsnd. rewrite <- Hsnd. now apply in_map.
Qed.

(** C9: the two notebooks define the same feature builder. *)
Theorem same_feature_builder
    (customers : option (list Customer)) (transactions : option (list Transaction))
    (products : option (list Product)) :
  Lookalike.create_customer_features customers transactions products
  = Clustering.create_customer_features customers transactions products.
Proof. reflexivity. Qed.

(** ** Slices of a sorted list of indices *)

Section Slices.

Context {A : Type}.

Lemma skipn_incl (n : nat) (l : list A) : incl (skipn n l) l.
Proof.
  intros x Hx. rewrite <- (firstn_skipn n l). apply in_or_app. now right.
Qed.

Lemma removelast_incl (l : list A) : incl (removelast l) l.
Proof.
  intros x Hx. destruct l as [|a l]; [contradiction |].
  rewrite (app_removelast_last a (l := a :: l)) by discriminate.
  apply in_or_app. now left.
Qed.

Lemma NoDup_skipn (n : nat) (l : list A) : NoDup l -> NoDup (skipn n l).
Proof.
  intro H. rewrite <- (firstn_skipn n l) in H. now apply NoDup_app_remove_l in H.
Qed.

Lemma NoDup_removelast (l : list A) : NoDup l -> NoDup (removelast l).
Proof.
  intro H. destruct l as [|a l]; [constructor |].
  rewrite (app_removelast_last a (l := a :: l)) in H by discriminate.
  now apply NoDup_app_remove_r in H.
Qed.

Lemma StronglySorted_skipn (R : A -> A -> Prop) (n : nat) (l : list A) :
  StronglySorted R l -> StronglySorted R (skipn n l).
Proof.
  revert l. induction n as [|n IH]; intros l H; [exact H |].
  destruct l as [|a l]; [constructor |].
  apply IH. now inversion H.
Qed.

Lemma StronglySorted_removelast (R : A -> A -> Prop) (l : list A) :
  StronglySorted R l -> StronglySorted R (removelast l).
Proof.
  induction 1 as [|a l Hl IH Ha]; [constructor |].
  cbn [removelast]. destruct l as [|b l]; [constructor |].
  constructor; [exact IH |].
  apply Forall_forall. intros x Hx. rewrite Forall_forall in Ha.
  apply Ha. now apply removelast_incl.
Qed.

Lemma StronglySorted_snoc (R : A -> A -> Prop) (l : list A) (x : A) :
  StronglySorted R l -> Forall (fun y => R y x) l ->
  StronglySorted R (l ++ [x]).
Proof.
  induction 1 as [|a l Hl IH Ha]; intro Hx; simpl.
  - repeat constructor.
  - inversion Hx; subst. constructor; [now apply IH |].
    apply Forall_app. split; [exact Ha | now constructor].
Qed.

Lemma StronglySorted_rev (R : A -> A -> Prop) (l : list A) :
  StronglySorted R l -> StronglySorted (fun x y => R y x) (rev l).
Proof.
  induction 1 as [|a l Hl IH Ha]; simpl; [constructor |].
  apply StronglySorted_snoc; [exact IH |].
  apply Forall_rev. exact Ha.
Qed.

Lemma StronglySorted_map {B : Type} (R : A -> A -> Prop) (f : A -> B)
    (S : B -> B -> Prop) (l : list A) :
  (forall x y, R x y -> S (f x) (f y)) ->
  StronglySorted R l -> StronglySorted S (map f l).
Proof.
  intros HRS. induction 1 as [|a l Hl IH Ha]; simpl; constructor; [exact IH |].
  apply Forall_map. eapply Forall_impl; [| exact Ha]. intros x. apply HRS.
Qed.

End Slices.

(** ** Dicts *)

Section Dicts.

Context {V : Type}.

Lemma dict_set_In (k : string) (v : V) (d : list (string * V)) (e : string * V) :
  In e (Lookalike.dict_set k v d) -> e = (k, v) \/ In e d.
Proof.
  induction d as [|[k' v'] d IH]; simpl.
  - intros [<- | []]. now left.
  - destruct (String.eqb k' k) eqn:E.
    + apply String.eqb_eq in E. subst k'. intros [<- | H]; auto.
    + intros [<- | H]; auto. destruct (IH H); auto.
Qed.

Lemma dict_set_keys (k : string) (v : V) (d : list (string * V)) (k' : string) :
  In k' (map fst (Lookalike.dict_set k v d)) <-> k' = k \/ In k' (map fst d).
Proof.
  induction d as [|[k0 v0] d IH]; simpl.
  - intuition.
  - destruct (String.eqb k0 k) eqn:E; simpl.
    + apply String.eqb_eq in E. subst k0. intuition.
    + rewrite IH. intuition.
Qed.

Lemma dict_get_set (k k' : string) (v : V) (d : list (string * V)) :
  Lookalike.dict_get k' (Lookalike.dict_set k v d)
  = if String.eqb k k' then Some v else Lookalike.dict_get k' d.
Proof.
  induction d as [|[k0 v0] d IH]; simpl.
  - reflexivity.
  - destruct (String.eqb k0 k) eqn:E; simpl.
    + apply String.eqb_eq in E. subst k0. now destruct (String.eqb k k').
    + destruct (String.eqb k0 k') eqn:E'; [| exact IH].
      apply String.eqb_eq in E'. subst k0. now rewrite String.eqb_sym, E.
Qed.

End Dicts.

(** [customer_indices] maps an identifier to a row that carries it, and
    knows exactly the identifiers of the table. *)
Lemma customer_indices_from (ids : list string) :
  forall (start : nat) (d : list (string * nat)) (cid : string),
    (forall i,
       Lookalike.dict_get cid
         (fold_left (fun d ic => Lookalike.dict_set (snd ic) (fst ic) d)
                    (combine (seq start (List.length ids)) ids) d) = Some i ->
       Lookalike.dict_get cid d = Some i \/
       (start <= i)%nat /\ nth_error ids (i - start) = Some cid) /\
    (Lookalike.dict_get cid
       (fold_left (fun d ic => Lookalike.dict_set (snd ic) (fst ic) d)
                  (combine (seq start (List.length ids)) ids) d) = None <->
     Lookalike.dict_get cid d = None /\ ~ In cid ids).
Proof.
  induction ids as [|x ids IH]; intros start d cid; simpl.
  - split; [auto | tauto].
  - destruct (IH (S start) (Lookalike.dict_set x start d) cid) as [IHa IHb].
    split.
    + intros i Hi. destruct (IHa i Hi) as [H | [Hle Hnth]].
      * rewrite dict_get_set in H. destruct (String.eqb x cid) eqn:E.
        -- apply String.eqb_eq in E. injection H as <-. subst x.
           right. split; [lia |]. now rewrite Nat.sub_diag.
        -- now left.
      * right. split; [lia |].
        replace (i - start)%nat with (S (i - S start)) by lia. exact Hnth.
    + rewrite IHb, dict_get_set.
      destruct (String.eqb x cid) eqn:E.
      * apply String.eqb_eq in E. split; [intros [H _]; discriminate |].
        intros [_ H]. exfalso. apply H. now left.
      * apply String.eqb_neq in E. intuition.
Qed.

Lemma customer_indices_Some (ids : list string) (cid : string) (i : nat) :
  Lookalike.dict_get cid (Lookalike.customer_indices ids) = Some i ->
  nth_error ids i = Some cid.
Proof.
  intro H. destruct (customer_indices_from ids 0 [] cid) as [Ha _].
  destruct (Ha i H) as [H' | [_ H']]; [discriminate |].
  now rewrite Nat.sub_0_r in H'.
Qed.

Lemma customer_indices_None (ids : list string) (cid : string) :
  Lookalike.dict_get cid (Lookalike.customer_indices ids) = None <-> ~ In cid ids.
Proof.
  destruct (customer_indices_from ids 0 [] cid) as [_ Hb].
  unfold Lookalike.customer_indices. rewrite Hb. simpl. tauto.
Qed.

Lemma comprehension_total {A B : Type} (f : A -> option B) (g : A -> B) (l : list A) :
  (forall x, In x l -> f x = Some (g x)) ->
  Lookalike.comprehension f l = Some (map g l).
Proof.
  induction l as [|x l IH]; intro H; simpl; [reflexivity |].
  rewrite (H x) by now left. rewrite IH; [reflexivity |].
  intros y Hy. apply H. now right.
Qed.

(** ** The similarity engine *)

Section SimilarityEngine.

Variable argsort : list Q -> list nat.
Hypothesis Hargsort : argsort_contract argsort.

Lemma similar_indices_incl (scores : list Q) :
  incl (Lookalike.similar_indices argsort scores) (argsort scores).
Proof.
  unfold Lookalike.similar_indices, Lookalike.last_n. intros i Hi.
  apply in_rev in Hi. apply removelast_incl in Hi. now apply skipn_incl in Hi.
Qed.

Lemma similar_indices_in_range (scores : list Q) (i : nat) :
  In i (Lookalike.similar_indices argsort scores) -> (i < List.length scores)%nat.
Proof.
  intro Hi. apply similar_indices_incl in Hi.
  destruct (Hargsort scores) as [Hperm _].
  apply (Permutation_in _ Hperm) in Hi. apply in_seq in Hi. lia.
Qed.

Lemma similar_indices_NoDup (scores : list Q) :
  NoDup (Lookalike.similar_indices argsort scores).
Proof.
  unfold Lookalike.similar_indices, Lookalike.last_n.
  apply NoDup_rev, NoDup_removelast, NoDup_skipn.
  destruct (Hargsort scores) as [Hperm _].
  eapply Permutation_NoDup; [symmetry; exact Hperm | apply seq_NoDup].
Qed.

Lemma similar_indices_descending (scores : list Q) :
  StronglySorted (fun i j => (score_at scores j <= score_at scores i)%Q)
                 (Lookalike.similar_indices argsort scores).
Proof.
  unfold Lookalike.similar_indices, Lookalike.last_n.
  apply (StronglySorted_rev (fun i j => (score_at scores i <= score_at scores j)%Q)).
  apply StronglySorted_removelast, StronglySorted_skipn.
  apply (Hargsort scores).
Qed.

Variables (ids : list string) (similarity_matrix : list (list Q)).
Hypothesis Hheight : List.length similarity_matrix = List.length ids.
Hypothesis Hwidth :
  Forall (fun r => List.length r = List.length ids) similarity_matrix.

(** One turn of the loop never raises: it skips an unknown target and
    stores the neighbours of a known one. *)
Lemma loop_body_spec (recs : recommendations) (target_id : string) :
  exists recs',
    Lookalike.loop_body argsort ids similarity_matrix
      (Lookalike.customer_indices ids) recs target_id = Some recs' /\
    ((~ In target_id ids /\ recs' = recs) \/
     exists target_idx scores,
       nth_error ids target_idx = Some target_id /\
       nth_error similarity_matrix target_idx = Some scores /\
       recs' = Lookalike.dict_set target_id
                 (map (fun idx => (nth idx ids "", score_at scores idx))
                      (Lookalike.similar_indices argsort scores))
                 recs).
Proof.
  unfold Lookalike.loop_body.
  destruct (Lookalike.dict_get target_id (Lookalike.customer_indices ids))
    as [target_idx|] eqn:Hget.
  - apply customer_indices_Some in Hget.
    assert (Hlt : (target_idx < List.length similarity_matrix)%nat).
    { rewrite Hheight. apply nth_error_Some. now rewrite Hget. }
    destruct (nth_error similarity_matrix target_idx) as [scores|] eqn:Hrow;
      [| apply nth_error_None in Hrow; lia].
    assert (Hlen : List.length scores = List.length ids).
    { rewrite Forall_forall in Hwidth. apply Hwidth.
      eapply nth_error_In; exact Hrow. }
    rewrite (comprehension_total _
               (fun idx => (nth idx ids "", score_at scores idx))).
    + eexists. split; [reflexivity |]. right. now exists target_idx, scores.
    + intros idx Hidx. apply similar_indices_in_range in Hidx.
      rewrite (nth_error_nth' ids "") by lia.
      rewrite (nth_error_nth' scores (0 : Q)) by lia. reflexivity.
  - apply customer_indices_None in Hget. eexists. split; [reflexivity |].
    now left.
Qed.

Lemma loop_spec (target_customers : list string) :
  forall recs : recommendations,
  exists recs',
    Lookalike.loop argsort ids similarity_matrix
      (Lookalike.customer_indices ids) recs target_customers = Some recs' /\
    (forall k, In k (map fst recs') <->
               In k (map fst recs) \/ (In k target_customers /\ In k ids)) /\
    (forall e, In e recs' ->
       In e recs \/
       exists target_idx scores,
         nth_error ids target_idx = Some (fst e) /\
         nth_error similarity_matrix target_idx = Some scores /\
         snd e = map (fun idx => (nth idx ids "", score_at scores idx))
                     (Lookalike.similar_indices argsort scores)).
Proof.
  induction target_customers as [|t rest IH]; intro recs; cbn [Lookalike.loop].
  - exists recs. split; [reflexivity |]. split; [| auto].
    intro k. simpl. tauto.
  - destruct (loop_body_spec recs t) as [recs1 [-> Hbody]].
    destruct (IH recs1) as [recs' [Hloop [Hkeys Hentries]]].
    exists recs'. split; [exact Hloop |]. split.
    + intro k. rewrite Hkeys.
      destruct Hbody as [[Hnot ->] | [idx [scores [Hid [_ ->]]]]].
      * simpl. split; [tauto |]. intros [H | [[<- | H] H']]; tauto.
      * rewrite dict_set_keys. simpl.
        apply nth_error_In in Hid.
        split; [intros [[-> | H] | H]; tauto |].
        intros [H | [[<- | H] H']]; tauto.
    + intros e He. destruct (Hentries e He) as [H | H]; [| now right].
      destruct Hbody as [[_ ->] | [idx [scores [Hid [Hrow ->]]]]]; [now left |].
      apply dict_set_In in H as [-> | H]; [| now left].
      right. now exists idx, scores.
Qed.

End SimilarityEngine.

(** What [calculate_similarity] returns when the numeric libraries keep
    their contracts: a mapping, whose keys are the targets found in the
    table and whose values list rows taken from a slice of the argsort. *)
Lemma calculate_similarity_spec
    (scaled_cosine_similarity : feature_table -> option (list (list Q)))
    (argsort : list Q -> list nat)
    (features : feature_table) (similarity_matrix : list (list Q))
    (target_customers : list string) :
  argsort_contract argsort ->
  square_similarity scaled_cosine_similarity ->
  scaled_cosine_similarity features = Some similarity_matrix ->
  exists recs,
    Lookalike.calculate_similarity scaled_cosine_similarity argsort
      (Some features) target_customers = Some recs /\
    (forall k, In k (map fst recs) <->
               In k target_customers /\ In k (map CustomerID (rows features))) /\
    (forall e, In e recs ->
       exists target_idx scores,
         nth_error (map CustomerID (rows features)) target_idx = Some (fst e) /\
         nth_error similarity_matrix target_idx = Some scores /\
         snd e = map (fun idx => (nth idx (map CustomerID (rows features)) "",
                                  score_at scores idx))
                     (Lookalike.similar_indices argsort scores)).
Proof.
  intros Hargsort Hsquare Hsim.
  destruct (Hsquare _ _ Hsim) as [Hheight Hwidth].
  unfold Lookalike.calculate_similarity. rewrite Hsim.
  destruct (loop_spec argsort Hargsort (map CustomerID (rows features))
              similarity_matrix) with (target_customers := target_customers)
                                      (recs := @nil (string * list (string * Q)))
    as [recs [Hloop [Hkeys Hentries]]].
  - now rewrite length_map.
  - now rewrite length_map.
  - exists recs. split; [exact Hloop |]. split.
    + intro k. rewrite Hkeys. simpl. tauto.
    + intros e He. destruct (Hentries e He) as [[] | H]. exact H.
Qed.

(** ** The stable argsort keeps the contract of [np.argsort] *)

Lemma insert_index_perm (scores : list Q) (i : nat) (l : list nat) :
  Permutation (Examples.insert_index scores i l) (i :: l).
Proof.
  induction l as [|j l IH]; simpl; [reflexivity |].
  destruct (Qle_bool _ _); [reflexivity |].
  rewrite IH. apply perm_swap.
Qed.

Lemma insert_index_sorted (scores : list Q) (i : nat) (l : list nat) :
  StronglySorted (fun a b => (score_at scores a <= score_at scores b)%Q) l ->
  StronglySorted (fun a b => (score_at scores a <= score_at scores b)%Q)
                 (Examples.insert_index scores i l).
Proof.
  induction 1 as [|j l Hl IH Hj]; simpl; [repeat constructor |].
  destruct (Qle_bool (score_at scores i) (score_at scores j)) eqn:E.
  - apply Qle_bool_iff in E. constructor; [now constructor |].
    constructor; [exact E |].
    eapply Forall_impl; [| exact Hj]. intros x Hx. cbv beta in *.
    eapply Qle_trans; eassumption.
  - constructor; [exact IH |].
    apply Forall_forall. intros x Hx.
    apply (Permutation_in _ (insert_index_perm scores i l)) in Hx.
    destruct Hx as [<- | Hx].
    + apply Qlt_le_weak, Qnot_le_lt. intro H. apply Qle_bool_iff in H. congruence.
    + rewrite Forall_forall in Hj. now apply Hj.
Qed.

Lemma stable_argsort_contract : argsort_contract Examples.stable_argsort.
Proof.
  intro scores. unfold Examples.stable_argsort.
  generalize (seq 0 (List.length scores)) as idxs.
  induction idxs as [|i idxs [IHp IHs]]; simpl.
  - split; constructor.
  - split.
    + rewrite insert_index_perm. now constructor.
    + now apply insert_index_sorted.
Qed.

Lemma sklearn_gives_square (m : list (list Q)) :
  List.length m = 4%nat -> Forall (fun r => List.length r = 4%nat) m ->
  square_similarity (Examples.sklearn_gives m).
Proof.
  intros Hm Hr features m'. unfold Examples.sklearn_gives.
  destruct (Nat.eqb (List.length (rows features)) 4) eqn:E; [| discriminate].
  apply Nat.eqb_eq in E. intro H. injection H as <-. rewrite E. now split.
Qed.

Lemma twin_matrix_square :
  square_similarity (Examples.sklearn_gives Examples.twin_matrix).
Proof. apply sklearn_gives_square; [reflexivity | repeat constructor]. Qed.

(** ** The claims on the similarity engine *)

(** C2 fails on the code: in the twin table, C0002 is returned as its own
    neighbour.  The slice drops the index ranked last, which is the row of
    C0004, and keeps the queried row. *)
Theorem own_id_among_neighbours :
  Lookalike.calculate_similarity
    (Examples.sklearn_gives Examples.twin_matrix) Examples.stable_argsort
    (Some Examples.twin_features) ["C0002"]
  = Some [("C0002", [("C0003", 1%Q); ("C0002", 1%Q); ("C0001", (-1)%Q)])].
Proof. vm_compute. reflexivity. Qed.

(** C8: the mapping has a key for a target exactly when the target is in
    the feature table; other targets are skipped and nothing is raised. *)
Theorem targets_outside_table_skipped
    (scaled_cosine_similarity : feature_table -> option (list (list Q)))
    (argsort : list Q -> list nat)
    (features : feature_table) (similarity_matrix : list (list Q))
    (target_customers : list string) :
  argsort_contract argsort ->
  square_similarity scaled_cosine_similarity ->
  scaled_cosine_similarity features = Some similarity_matrix ->
  exists recs,
    Lookalike.calculate_similarity scaled_cosine_similarity argsort
      (Some features) target_customers = Some recs /\
    (forall target, In target target_customers ->
       (In target (map fst recs) <->
        In target (map CustomerID (rows features)))) /\
    (forall k, In k (map fst recs) -> In k target_customers).
Proof.
  intros Hargsort Hsquare Hsim.
  destruct (calculate_similarity_spec _ _ _ _ target_customers
              Hargsort Hsquare Hsim) as [recs [Hcalc [Hkeys _]]].
  exists recs. split; [exact Hcalc |]. split.
  - intros target Ht. rewrite Hkeys. tauto.
  - intros k Hk. now apply Hkeys in Hk.
Qed.

Lemma targets_outside_table_skipped_witness :
  argsort_contract Examples.stable_argsort /\
  square_similarity (Examples.sklearn_gives Examples.twin_matrix) /\
  Examples.sklearn_gives Examples.twin_matrix Examples.twin_features
    = Some Examples.twin_matrix /\
  exists recs,
    Lookalike.calculate_similarity
      (Examples.sklearn_gives Examples.twin_matrix) Examples.stable_argsort
      (Some Examples.twin_features) ["C0001"; "C9999"] = Some recs /\
    (forall target, In target ["C0001"; "C9999"] ->
       (In target (map fst recs) <->
        In target (map CustomerID (rows Examples.twin_features)))) /\
    (forall k, In k (map fst recs) -> In k ["C0001"; "C9999"]).
Proof.
  split; [exact stable_argsort_contract |].
  split; [exact twin_matrix_square |].
  split; [reflexivity |].
  apply (targets_outside_table_skipped
           (Examples.sklearn_gives Examples.twin_matrix) Examples.stable_argsort
           Examples.twin_features Examples.twin_matrix).
  - exact stable_argsort_contract.
  - exact twin_matrix_square.
  - reflexivity.
Defined.

(** C6, as amended: every neighbour list is ordered by score, highest
    first, equal scores allowed next to each other. *)
Theorem neighbours_by_descending_score
    (scaled_cosine_similarity : feature_table -> option (list (list Q)))
    (argsort : list Q -> list nat)
    (features : option feature_table) (target_customers : list string)
    (recs : recommendations) :
  argsort_contract argsort ->
  square_similarity scaled_cosine_similarity ->
  Lookalike.calculate_similarity scaled_cosine_similarity argsort
    features target_customers = Some recs ->
  forall target neighbours, In (target, neighbours) recs -> descending neighbours.
Proof.
  intros Hargsort Hsquare Hcalc target neighbours Hin.
  destruct features as [features|]; [| discriminate].
  destruct (scaled_cosine_similarity features) as [m|] eqn:Hsim;
    [| unfold Lookalike.calculate_similarity in Hcalc; rewrite Hsim in Hcalc;
       discriminate].
  destruct (calculate_similarity_spec _ _ _ _ target_customers
              Hargsort Hsquare Hsim) as [recs' [Hcalc' [_ Hentries]]].
  rewrite Hcalc in Hcalc'. injection Hcalc' as <-.
  destruct (Hentries _ Hin) as [idx [scores [_ [_ Hv]]]]. cbn [snd] in Hv.
  subst neighbours. unfold descending.
  eapply StronglySorted_map; [| apply (similar_indices_descending argsort Hargsort)].
  intros x y Hxy. exact Hxy.
Qed.

Lemma neighbours_by_descending_score_witness :
  argsort_contract Examples.stable_argsort /\
  square_similarity (Examples.sklearn_gives Examples.twin_matrix) /\
  descending [("C0003", 1%Q); ("C0002", 1%Q); ("C0001", (-1)%Q)].
Proof.
  split; [exact stable_argsort_contract |].
  split; [exact twin_matrix_square |].
  apply (neighbours_by_descending_score
           (Examples.sklearn_gives Examples.twin_matrix) Examples.stable_argsort
           (Some Examples.twin_features) ["C0002"]
           [("C0002", [("C0003", 1%Q); ("C0002", 1%Q); ("C0001", (-1)%Q)])]
           stable_argsort_contract twin_matrix_square)
    with (target := "C0002").
  - vm_compute. reflexivity.
  - simpl. auto.
Defined.

(** C6 as it is stated fails: the three neighbours of C0001 in the twin
    table have the same score, so the list is not strictly descending, and
    they come in the order of rows 3, 2, 1, not in the order of the rows. *)
Lemma tied_neighbours_in_reverse_row_order :
  Lookalike.calculate_similarity
    (Examples.sklearn_gives Examples.twin_matrix) Examples.stable_argsort
    (Some Examples.twin_features) ["C0001"]
  = Some [("C0001", [("C0004", (-1)%Q); ("C0003", (-1)%Q); ("C0002", (-1)%Q)])] /\
  ~ strictly_descending [("C0004", (-1)%Q); ("C0003", (-1)%Q); ("C0002", (-1)%Q)] /\
  Lookalike.similar_indices Examples.stable_argsort [1; -1; -1; -1]%Q
  = [3; 2; 1]%nat /\
  ~ descending_ties_by_row [1; -1; -1; -1]%Q [3; 2; 1]%nat.
Proof.
  split; [vm_compute; reflexivity |]. split; [| split; [vm_compute; reflexivity |]].
  - intro H. inversion H as [|? ? _ Hall]; subst.
    inversion Hall as [|? ? Hlt _]; subst. vm_compute in Hlt. discriminate Hlt.
  - intro H. inversion H as [|? ? _ Hall]; subst.
    inversion Hall as [|? ? Hfirst _]; subst.
    destruct Hfirst as [Hlt | [_ Hlt]].
    + vm_compute in Hlt. discriminate Hlt.
    + lia.
Qed.

(** C10: the neighbours of a target are rows of the table taken at
    pairwise distinct row indices. *)
Theorem neighbours_from_distinct_rows
    (scaled_cosine_similarity : feature_table -> option (list (list Q)))
    (argsort : list Q -> list nat)
    (features : feature_table) (similarity_matrix : list (list Q))
    (target_customers : list string) (recs : recommendations) :
  argsort_contract argsort ->
  square_similarity scaled_cosine_similarity ->
  scaled_cosine_similarity features = Some similarity_matrix ->
  Lookalike.calculate_similarity scaled_cosine_similarity argsort
    (Some features) target_customers = Some recs ->
  forall target neighbours, In (target, neighbours) recs ->
    exists scores indices,
      In scores similarity_matrix /\
      NoDup indices /\
      Forall (fun idx => (idx < List.length (rows features))%nat) indices /\
      neighbours = map (fun idx => (nth idx (map CustomerID (rows features)) "",
                                    score_at scores idx)) indices.
Proof.
  intros Hargsort Hsquare Hsim Hcalc target neighbours Hin.
  destruct (calculate_similarity_spec _ _ _ _ target_customers
              Hargsort Hsquare Hsim) as [recs' [Hcalc' [_ Hentries]]].
  rewrite Hcalc in Hcalc'. injection Hcalc' as <-.
  destruct (Hentries _ Hin) as [idx [scores [_ [Hrow Hv]]]]. cbn [snd] in Hv.
  exists scores, (Lookalike.similar_indices argsort scores).
  apply nth_error_In in Hrow as Hrow'.
  split; [exact Hrow' |]. split; [now apply similar_indices_NoDup |].
  split; [| exact Hv].
  apply Forall_forall. intros i Hi.
  apply (similar_indices_in_range argsort Hargsort) in Hi.
  destruct (Hsquare _ _ Hsim) as [_ Hwidth]. rewrite Forall_forall in Hwidth.
  now rewrite <- (Hwidth scores Hrow').
Qed.

Lemma neighbours_from_distinct_rows_witness :
  argsort_contract Examples.stable_argsort /\
  square_similarity (Examples.sklearn_gives Examples.twin_matrix) /\
  exists scores indices,
    In scores Examples.twin_matrix /\
    NoDup indices /\
    Forall (fun idx => (idx < List.length (rows Examples.twin_features))%nat)
           indices /\
    [("C0004", (-1)%Q); ("C0003", (-1)%Q); ("C0002", (-1)%Q)]
    = map (fun idx => (nth idx (map CustomerID (rows Examples.twin_features)) "",
                       score_at scores idx)) indices.
Proof.
  split; [exact stable_argsort_contract |].
  split; [exact twin_matrix_square |].
  apply (neighbours_from_distinct_rows
           (Examples.sklearn_gives Examples.twin_matrix) Examples.stable_argsort
           Examples.twin_features Examples.twin_matrix ["C0001"]
           [("C0001", [("C0004", (-1)%Q); ("C0003", (-1)%Q); ("C0002", (-1)%Q)])]
           stable_argsort_contract twin_matrix_square)
    with (target := "C0001").
  - reflexivity.
  - vm_compute. reflexivity.
  - simpl. auto.
Defined.

(** ** The recommendations file *)

Section Delimiters.

Import Reload.

Lemma has_char_app (c : ascii) (a b : string) :
  has_char c (a ++ b) = has_char c a || has_char c b.
Proof.
  induction a as [|x a IH]; simpl; [reflexivity |].
  now rewrite IH, orb_assoc.
Qed.

Lemma split_no_sep (sep : ascii) (s : string) :
  has_char sep s = false -> split sep s = [s].
Proof.
  induction s as [|c s IH]; simpl; [reflexivity |].
  intro H. apply orb_false_iff in H as [Hc Hs].
  rewrite Hc, (IH Hs). reflexivity.
Qed.

Lemma split_at_sep (sep : ascii) (a b : string) :
  has_char sep a = false ->
  split sep (a ++ String sep b) = a :: split sep b.
Proof.
  induction a as [|c a IH]; simpl.
  - intros _. now rewrite Ascii.eqb_refl.
  - intro H. apply orb_false_iff in H as [Hc Ha].
    rewrite Hc, (IH Ha). reflexivity.
Qed.

(** Splitting what [sep.join] joined gives the parts back. *)
Lemma split_concat (sep : ascii) (parts : list string) :
  parts <> [] ->
  Forall (fun p => has_char sep p = false) parts ->
  split sep (String.concat (String sep EmptyString) parts) = parts.
Proof.
  induction parts as [|p parts IH]; [congruence |].
  intros _ Hall. inversion Hall as [|? ? Hp Hrest]; subst.
  destruct parts as [|p' parts].
  - simpl. now apply split_no_sep.
  - change (String.concat (String sep EmptyString) (p :: p' :: parts))
      with (p ++ String sep (String.concat (String sep EmptyString) (p' :: parts))).
    rewrite (split_at_sep _ _ _ Hp), IH; [reflexivity | discriminate | exact Hrest].
Qed.

(** A decimal numeral consists of digits. *)
Lemma digits_only (c : ascii) (d : Decimal.uint) :
  has_char c "0123456789" = false ->
  has_char c (NilEmpty.string_of_uint d) = false.
Proof.
  intro Hc. simpl in Hc. repeat (apply orb_false_iff in Hc as [? Hc]).
  induction d; simpl; rewrite ?IHd; try reflexivity;
    rewrite orb_false_r; assumption.
Qed.

Lemma digits_nonempty (n : N) : Lookalike.digits n <> EmptyString.
Proof.
  unfold Lookalike.digits. intro H.
  pose proof (NilEmpty.usu (N.to_uint n)) as Hu. rewrite H in Hu.
  simpl in Hu. injection Hu as Hu.
  pose proof (DecimalN.Unsigned.of_to n) as Hn. rewrite <- Hu in Hn.
  simpl in Hn. subst n. discriminate Hu.
Qed.

Lemma parse_digits (n : N) : parse_N (Lookalike.digits n) = Some n.
Proof.
  unfold parse_N. pose proof (digits_nonempty n) as Hne.
  destruct (Lookalike.digits n) eqn:E; [congruence |]. rewrite <- E.
  unfold Lookalike.digits. rewrite NilEmpty.usu. simpl.
  now rewrite DecimalN.Unsigned.of_to.
Qed.

(** One more digit in front of a numeral. *)
Lemma uint_of_digit (k : N) (s : string) (d : Decimal.uint) :
  (k < 10)%N ->
  NilEmpty.uint_of_string s = Some d ->
  exists d',
    NilEmpty.uint_of_string (String (Lookalike.digit_char k) s) = Some d' /\
    N.of_uint d'
    = (k * 10 ^ DecimalPos.Unsigned.usize d + N.of_uint d)%N /\
    DecimalPos.Unsigned.usize d' = N.succ (DecimalPos.Unsigned.usize d).
Proof.
  intros Hk Hs.
  assert (Hcase : (k = 0 \/ k = 1 \/ k = 2 \/ k = 3 \/ k = 4 \/ k = 5 \/
                   k = 6 \/ k = 7 \/ k = 8 \/ k = 9)%N) by lia.
  cbn [NilEmpty.uint_of_string]. rewrite Hs.
  repeat (destruct Hcase as [-> | Hcase]); try subst k;
    (eexists; split; [reflexivity |]; split; [| reflexivity];
     unfold N.of_uint; rewrite !DecimalPos.Unsigned.of_uint_alt;
     unfold Decimal.rev at 1; cbn [Decimal.revapp];
     rewrite DecimalPos.Unsigned.of_lu_revapp;
     cbn [DecimalPos.Unsigned.of_lu]; lia).
Qed.

Lemma parse_digits4 (n : N) :
  (n < 10000)%N -> parse_N (Lookalike.digits4 n) = Some n.
Proof.
  intro Hn. unfold parse_N, Lookalike.digits4.
  assert (H0 : NilEmpty.uint_of_string EmptyString = Some Decimal.Nil)
    by reflexivity.
  destruct (uint_of_digit (n mod 10) _ _ (N.mod_upper_bound _ 10 ltac:(lia)) H0)
    as [d1 [H1 [V1 S1]]].
  destruct (uint_of_digit (n / 10 mod 10) _ _
              (N.mod_upper_bound _ 10 ltac:(lia)) H1) as [d2 [H2 [V2 S2]]].
  destruct (uint_of_digit (n / 100 mod 10) _ _
              (N.mod_upper_bound _ 10 ltac:(lia)) H2) as [d3 [H3 [V3 S3]]].
  destruct (uint_of_digit (n / 1000 mod 10) _ _
              (N.mod_upper_bound _ 10 ltac:(lia)) H3) as [d4 [H4 [V4 S4]]].
  rewrite H4. cbn [option_map]. f_equal.
  rewrite V4, V3, V2, V1, S3, S2, S1.
  cbn [DecimalPos.Unsigned.usize N.of_uint Pos.of_uint].
  change (10 ^ N.succ (N.succ (N.succ 0)))%N with 1000%N.
  change (10 ^ N.succ (N.succ 0))%N with 100%N.
  change (10 ^ N.succ 0)%N with 10%N.
  change (10 ^ 0)%N with 1%N.
  pose proof (N.div_mod n 10 ltac:(lia)) as E1.
  pose proof (N.div_mod (n / 10) 10 ltac:(lia)) as E2.
  pose proof (N.div_mod (n / 100) 10 ltac:(lia)) as E3.
  pose proof (N.div_mod (n / 1000) 10 ltac:(lia)) as E4.
  rewrite N.Div0.div_div in E2, E3, E4.
  change (10 * 10)%N with 100%N in E2. change (100 * 10)%N with 1000%N in E3.
  change (1000 * 10)%N with 10000%N in E4.
  rewrite (N.div_small n 10000 Hn) in E4.
  lia.
Qed.

Lemma digits4_only (c : ascii) (n : N) :
  has_char c "0123456789" = false ->
  (n < 10000)%N -> has_char c (Lookalike.digits4 n) = false.
Proof.
  intros Hc Hn.
  assert (H : has_char c (NilEmpty.string_of_uint (N.to_uint n)) = false)
    by now apply digits_only.
  destruct (NilEmpty.uint_of_string (Lookalike.digits4 n)) as [d|] eqn:E.
  - apply NilEmpty.sus in E. rewrite <- E. now apply digits_only.
  - pose proof (parse_digits4 n Hn) as Hp.
    change (option_map N.of_uint (NilEmpty.uint_of_string (Lookalike.digits4 n))
            = Some n) in Hp.
    rewrite E in Hp. discriminate Hp.
Qed.

End Delimiters.

Section RoundTrip.

Import Reload.

Lemma comprehension_map {A B C : Type} (f : B -> option C) (h : A -> B)
    (g : A -> C) (l : list A) :
  (forall x, In x l -> f (h x) = Some (g x)) ->
  Lookalike.comprehension f (map h l) = Some (map g l).
Proof.
  induction l as [|x l IH]; intro H; simpl; [reflexivity |].
  rewrite (H x) by now left. rewrite IH; [reflexivity |].
  intros y Hy. apply H. now right.
Qed.

(** A formatted score consists of digits, a point and maybe a sign. *)
Lemma format_4f_only (c : ascii) (score : Q) :
  has_char c "0123456789-." = false ->
  has_char c (Lookalike.format_4f score) = false.
Proof.
  intro Hc.
  assert (Hd : has_char c "0123456789" = false).
  { change "0123456789-." with ("0123456789" ++ "-.") in Hc.
    rewrite has_char_app in Hc. now apply orb_false_iff in Hc. }
  assert (Hs : has_char c "-." = false).
  { change "0123456789-." with ("0123456789" ++ "-.") in Hc.
    rewrite has_char_app in Hc. now apply orb_false_iff in Hc. }
  simpl in Hs. apply orb_false_iff in Hs as [Hminus Hs].
  apply orb_false_iff in Hs as [Hpoint _].
  unfold Lookalike.format_4f.
  rewrite !has_char_app. unfold Lookalike.digits.
  rewrite digits_only by exact Hd.
  rewrite digits4_only;
    [| exact Hd | apply N.mod_upper_bound; discriminate].
  destruct (Qle_bool 0 score); simpl; rewrite ?Hminus, ?Hpoint; reflexivity.
Qed.

(** Reading a formatted score gives the score rounded to 4 decimals. *)
Lemma parse_format_4f (score : Q) :
  parse_score (Lookalike.format_4f score) = Some (round_4 score).
Proof.
  unfold Lookalike.format_4f, round_4.
  set (r := Z.to_N (Lookalike.round_half_even (Qabs score * 10000))).
  assert (Hsplit : split "." (Lookalike.digits (r / 10000) ++ "."
                              ++ Lookalike.digits4 (r mod 10000))
                   = [Lookalike.digits (r / 10000);
                      Lookalike.digits4 (r mod 10000)]).
  { change ("." ++ Lookalike.digits4 (r mod 10000))
      with (String "."%char (Lookalike.digits4 (r mod 10000))).
    rewrite split_at_sep by (apply digits_only; reflexivity).
    rewrite split_no_sep;
      [reflexivity
      | apply digits4_only; [reflexivity | apply N.mod_upper_bound; discriminate]]. }
  assert (Hvalue : Qmake (Z.of_N (r / 10000) * 10 ^ Z.of_nat 4
                          + Z.of_N (r mod 10000)) (Z.to_pos (10 ^ Z.of_nat 4))
                   = Qmake (Z.of_N r) 10000).
  { change (Z.to_pos (10 ^ Z.of_nat 4)) with 10000%positive.
    change (10 ^ Z.of_nat 4) with 10000. f_equal.
    pose proof (N.div_mod r 10000 ltac:(discriminate)). lia. }
  assert (Hparse : forall neg,
             match split "." (Lookalike.digits (r / 10000) ++ "."
                              ++ Lookalike.digits4 (r mod 10000)) with
             | [int_part; frac_part] =>
               match parse_N int_part, parse_N frac_part with
               | Some i, Some f =>
                 let den := 10 ^ Z.of_nat (String.length frac_part) in
                 let v := Qmake (Z.of_N i * den + Z.of_N f) (Z.to_pos den) in
                 Some (if neg : bool then Qopp v else v)
               | _, _ => None
               end
             | _ => None
             end
             = Some (if neg then Qopp (Qmake (Z.of_N r) 10000)
                     else Qmake (Z.of_N r) 10000)).
  { intro neg. rewrite Hsplit, parse_digits.
    rewrite parse_digits4 by (apply N.mod_upper_bound; discriminate).
    cbv zeta.
    change (String.length (Lookalike.digits4 (r mod 10000))) with 4%nat.
    now rewrite Hvalue. }
  unfold parse_score. cbv zeta.
  destruct (Qle_bool 0 score).
  - assert (Hsigned : forall rest,
               match Lookalike.digits (r / 10000) ++ rest with
               | String c body =>
                 if Ascii.eqb c "-"
                 then (true, body)
                 else (false, Lookalike.digits (r / 10000) ++ rest)
               | EmptyString => (false, Lookalike.digits (r / 10000) ++ rest)
               end = (false, Lookalike.digits (r / 10000) ++ rest)).
    { intro rest.
      pose proof (digits_nonempty (r / 10000)) as Hne.
      pose proof (digits_only "-" (N.to_uint (r / 10000)) eq_refl) as Hminus.
      fold (Lookalike.digits (r / 10000)) in Hminus.
      destruct (Lookalike.digits (r / 10000)) as [|c body]; [congruence |].
      cbn [has_char] in Hminus. apply orb_false_iff in Hminus as [Hc _].
      cbn [append]. now rewrite Hc. }
    cbn [append]. rewrite Hsigned. cbn [snd fst]. exact (Hparse false).
  - cbn [append]. rewrite Ascii.eqb_refl. cbn [snd fst]. exact (Hparse true).
Qed.

Lemma parse_formatted_pair (rec : string * Q) :
  plain_id (fst rec) ->
  parse_pair (fst rec ++ "," ++ Lookalike.format_4f (snd rec))
  = Some (fst rec, round_4 (snd rec)).
Proof.
  intros [Hcomma _]. unfold parse_pair.
  change ("," ++ Lookalike.format_4f (snd rec))
    with (String ","%char (Lookalike.format_4f (snd rec))).
  rewrite split_at_sep by exact Hcomma.
  rewrite split_no_sep by (apply format_4f_only; reflexivity).
  now rewrite parse_format_4f.
Qed.

Lemma formatted_pair_no_semicolon (rec : string * Q) :
  plain_id (fst rec) ->
  has_char ";" (fst rec ++ "," ++ Lookalike.format_4f (snd rec)) = false.
Proof.
  intros [_ Hsemi]. rewrite !has_char_app, Hsemi.
  rewrite format_4f_only by reflexivity. reflexivity.
Qed.

Lemma parse_formatted_list (recs : list (string * Q)) :
  (forall rec, In rec recs -> plain_id (fst rec)) ->
  parse_recommendations
    (String.concat ";"
       (map (fun rec => fst rec ++ "," ++ Lookalike.format_4f (snd rec)) recs))
  = Some (map (fun rec => (fst rec, round_4 (snd rec))) recs).
Proof.
  intro Hplain. unfold parse_recommendations.
  destruct recs as [|rec recs]; [reflexivity |].
  set (items := map (fun rec => fst rec ++ "," ++ Lookalike.format_4f (snd rec))
                    (rec :: recs)).
  assert (Hfield : split ";" (String.concat ";" items) = items).
  { apply split_concat; [discriminate |].
    apply Forall_forall. intros item Hitem.
    apply in_map_iff in Hitem as [x [<- Hx]].
    apply formatted_pair_no_semicolon. now apply Hplain. }
  destruct (String.concat ";" items) as [|c field] eqn:E.
  - exfalso. simpl in Hfield. unfold items in Hfield. cbn [map] in Hfield.
    injection Hfield as Hitem _.
    destruct (fst rec); discriminate Hitem.
  - rewrite Hfield. unfold items.
    apply comprehension_map. intros x Hx. apply parse_formatted_pair.
    now apply Hplain.
Qed.

(** Export then reload: the mapping comes back with rounded scores. *)
Lemma load_saved (recs : recommendations) :
  (forall item, In item recs ->
     forall rec, In rec (snd item) -> plain_id (fst rec)) ->
  exists file,
    Lookalike.save_recommendations (Some recs) = Some file /\
    load_recommendations file = Some (rounded recs).
Proof.
  intro Hplain. eexists. split; [reflexivity |].
  unfold load_recommendations, rounded.
  apply comprehension_map. intros item Hitem. cbn [fst snd].
  rewrite parse_formatted_list by now apply Hplain. reflexivity.
Qed.

End RoundTrip.

Section Rounding.

Import Reload.

Lemma round_half_even_near (x : Q) :
  (- (1 # 2) <= inject_Z (Lookalike.round_half_even x) - x <= 1 # 2)%Q.
Proof.
  unfold Lookalike.round_half_even.
  pose proof (Qfloor_le x) as Hlo. pose proof (Qlt_floor x) as Hhi.
  rewrite inject_Z_plus in Hhi. change (inject_Z 1) with 1%Q in Hhi.
  destruct (Qcompare (x - inject_Z (Qfloor x)) (1 # 2)) eqn:C.
  - apply Qeq_alt in C.
    destruct (Z.even (Qfloor x)); [| rewrite inject_Z_plus; change (inject_Z 1) with 1%Q];
      lra.
  - apply Qlt_alt in C. lra.
  - apply Qgt_alt in C. rewrite inject_Z_plus. change (inject_Z 1) with 1%Q. lra.
Qed.

Lemma round_half_even_nonneg (x : Q) :
  (0 <= x)%Q -> 0 <= Lookalike.round_half_even x.
Proof.
  intro Hx. unfold Lookalike.round_half_even.
  assert (H0 : 0 <= Qfloor x).
  { change 0 with (Qfloor 0). now apply Qfloor_resp_le. }
  destruct (Qcompare _ _); [destruct (Z.even _) | |]; lia.
Qed.

(** Writing a score with 4 decimals moves it by at most half a unit of
    the last place. *)
Lemma round_4_near (score : Q) :
  (Qabs (round_4 score - score) <= 1 # 20000)%Q.
Proof.
  apply Qabs_Qle_condition. unfold round_4.
  set (z := Lookalike.round_half_even (Qabs score * 10000)).
  assert (Hz : 0 <= z).
  { apply round_half_even_nonneg. apply Qmult_le_0_compat; [apply Qabs_nonneg | easy]. }
  rewrite (Z2N.id z Hz).
  pose proof (round_half_even_near (Qabs score * 10000)) as Hnear. fold z in Hnear.
  assert (Hq : (z # 10000 == inject_Z z * (1 # 10000))%Q).
  { unfold Qeq. simpl. lia. }
  destruct (Qle_bool 0 score) eqn:E.
  - apply Qle_bool_iff in E. rewrite (Qabs_pos _ E) in Hnear. lra.
  - assert (Hneg : (score <= 0)%Q).
    { apply Qlt_le_weak, Qnot_le_lt. intro H. apply Qle_bool_iff in H. congruence. }
    rewrite (Qabs_neg _ Hneg) in Hnear. lra.
Qed.

End Rounding.

(** C5, as amended: for identifiers free of commas and semicolons,
    exporting a recommendations mapping and reading the file back gives
    the same customers and neighbours in the same order, each score
    rounded to 4 decimal places, so within 0.00005 of the score exported. *)
Theorem reload_gives_rounded_scores (recs : recommendations) :
  (forall item, In item recs ->
     forall rec, In rec (snd item) -> Reload.plain_id (fst rec)) ->
  exists file,
    Lookalike.save_recommendations (Some recs) = Some file /\
    Reload.load_recommendations file = Some (Reload.rounded recs) /\
    map fst (Reload.rounded recs) = map fst recs /\
    Forall2 (fun loaded item =>
               map fst (snd loaded) = map fst (snd item) /\
               Forall2 (fun x y => (Qabs (snd x - snd y) <= 1 # 20000)%Q)
                       (snd loaded) (snd item))
            (Reload.rounded recs) recs.
Proof.
  intro Hplain. destruct (load_saved recs Hplain) as [file [Hsave Hload]].
  exists file. split; [exact Hsave |]. split; [exact Hload |].
  unfold Reload.rounded. split.
  - rewrite map_map. reflexivity.
  - clear. induction recs as [|item recs IH]; cbn [map]; constructor; [| exact IH].
    cbn [fst snd]. split; [rewrite map_map; reflexivity |].
    induction (snd item) as [|rec l IHl]; cbn [map]; constructor; [| exact IHl].
    cbn [snd]. apply round_4_near.
Qed.

Lemma reload_gives_rounded_scores_witness :
  exists file,
    Lookalike.save_recommendations
      (Some [("C0001", [("C0002", 120 # 169); ("C0004", - (120 # 169));
                        ("C0003", - (1))])]%Q) = Some file /\
    Reload.load_recommendations file
    = Some [("C0001", [("C0002", 7101 # 10000); ("C0004", - (7101 # 10000));
                       ("C0003", - (10000 # 10000))])]%Q.
Proof.
  destruct (reload_gives_rounded_scores
              [("C0001", [("C0002", 120 # 169); ("C0004", - (120 # 169));
                          ("C0003", - (1))])]%Q) as [file [Hsave [Hload _]]].
  - intros item [<- | []] rec Hrec. cbn [snd] in Hrec.
    destruct Hrec as [<- | [<- | [<- | []]]]; split; reflexivity.
  - exists file. split; [exact Hsave |]. rewrite Hload. reflexivity.
Defined.

(** C5 as it is stated fails: the neighbours computed for C0001 in the
    spread table have scores 120/169 and -120/169, which the file holds as
    0.7101 and -0.7101; and two mappings that differ only below the fourth
    decimal give the same file, so no reader can tell them apart. *)
Lemma reload_loses_decimals :
  Lookalike.calculate_similarity
    (Examples.sklearn_gives Examples.spread_matrix) Examples.stable_argsort
    (Some Examples.spread_features) ["C0001"]
  = Some [("C0001", [("C0002", 120 # 169); ("C0004", - (120 # 169));
                     ("C0003", - (1))])]%Q /\
  ~ Reload.roundtrip_reproduces
      [("C0001", [("C0002", 120 # 169); ("C0004", - (120 # 169));
                  ("C0003", - (1))])]%Q /\
  Lookalike.save_recommendations
    (Some [("C0001", [("C0002", 120 # 169)])]%Q)
  = Lookalike.save_recommendations
      (Some [("C0001", [("C0002", 7101 # 10000)])]%Q).
Proof.
  split; [vm_compute; reflexivity |]. split; [| vm_compute; reflexivity].
  unfold Reload.roundtrip_reproduces.
  match goal with
  | |- ~ match ?saved with _ => _ end =>
    let file := eval vm_compute in saved in
    change saved with file; cbv iota beta
  end.
  match goal with
  | |- ~ match ?loaded with _ => _ end =>
    let recs := eval vm_compute in loaded in
    change loaded with recs; cbv iota beta
  end.
  intro H. inversion H as [|? ? ? ? [_ Hrecs] _]; subst. cbn [snd] in Hrecs.
  inversion Hrecs as [|? ? ? ? [_ Hscore] _]; subst. cbn [snd] in Hscore.
  vm_compute in Hscore. discriminate Hscore.
Qed.

(** ** When the slice does leave the queried row out *)

Lemma StronglySorted_last {A : Type} (R : A -> A -> Prop) (l : list A) (x : A) :
  StronglySorted R (l ++ [x]) -> Forall (fun y => R y x) l.
Proof.
  induction l as [|a l IH]; simpl; intro H; [constructor |].
  inversion H as [|? ? Hl Ha]; subst. constructor; [| now apply IH].
  rewrite Forall_forall in Ha. apply Ha. apply in_or_app. right. now left.
Qed.

(** The index ranked last by an argsort is the one with the strictly
    highest score, when there is one. *)
Lemma argsort_ends_with_best (argsort : list Q -> list nat) (scores : list Q)
    (best : nat) :
  argsort_contract argsort ->
  (best < List.length scores)%nat ->
  (forall j, (j < List.length scores)%nat -> j <> best ->
             (score_at scores j < score_at scores best)%Q) ->
  exists front, argsort scores = (front ++ [best])%list /\ ~ In best front.
Proof.
  intros Hargsort Hbest Hstrict.
  destruct (Hargsort scores) as [Hperm Hsorted].
  assert (Hnd : NoDup (argsort scores)).
  { eapply Permutation_NoDup; [symmetry; exact Hperm | apply seq_NoDup]. }
  assert (Hin : In best (argsort scores)).
  { eapply Permutation_in; [symmetry; exact Hperm |]. apply in_seq. lia. }
  destruct (argsort scores) as [|a l] eqn:E; [contradiction |].
  destruct (exists_last (l := a :: l)) as [front [x Hx]]; [discriminate |].
  rewrite Hx in *. exists front.
  assert (Hxbest : x = best).
  { destruct (Nat.eq_dec x best) as [Heq | Hne]; [exact Heq | exfalso].
    apply in_app_or in Hin as [Hin | [Hin | []]]; [| congruence].
    apply StronglySorted_last in Hsorted. rewrite Forall_forall in Hsorted.
    specialize (Hsorted best Hin).
    assert (Hxlt : (x < List.length scores)%nat).
    { assert (Hxin : In x (seq 0 (List.length scores))).
      { apply (Permutation_in _ Hperm). apply in_or_app. right. now left. }
      apply in_seq in Hxin. lia. }
    specialize (Hstrict x Hxlt Hne). cbv beta in Hsorted.
    apply (Qlt_irrefl (score_at scores best)).
    eapply Qle_lt_trans; eassumption. }
  subst x. split; [reflexivity |].
  apply NoDup_remove_2 in Hnd. rewrite app_nil_r in Hnd. exact Hnd.
Qed.

(** The slice leaves the queried row out when its score is strictly the
    highest of its similarity row. *)
Lemma self_excluded_when_strictly_best (argsort : list Q -> list nat)
    (scores : list Q) (self : nat) :
  argsort_contract argsort ->
  (self < List.length scores)%nat ->
  (forall j, (j < List.length scores)%nat -> j <> self ->
             (score_at scores j < score_at scores self)%Q) ->
  ~ In self (Lookalike.similar_indices argsort scores).
Proof.
  intros Hargsort Hself Hstrict.
  destruct (argsort_ends_with_best argsort scores self Hargsort Hself Hstrict)
    as [front [Hl Hnot]].
  unfold Lookalike.similar_indices, Lookalike.last_n. rewrite Hl.
  rewrite length_app. cbn [List.length].
  rewrite skipn_app.
  replace (List.length front + 1 - 4 - List.length front)%nat with 0%nat by lia.
  cbn [skipn]. rewrite removelast_last.
  intro Hin. apply in_rev in Hin. apply skipn_incl in Hin. contradiction.
Qed.

(** Whatever order an argsort gives to equal scores, in the twin table one
    of C0002 and C0003 is returned as its own neighbour. *)
Lemma own_id_for_any_argsort (argsort : list Q -> list nat) :
  argsort_contract argsort ->
  exists target recs neighbours,
    In target ["C0002"; "C0003"] /\
    Lookalike.calculate_similarity
      (Examples.sklearn_gives Examples.twin_matrix) argsort
      (Some Examples.twin_features) [target] = Some recs /\
    In (target, neighbours) recs /\
    In target (map fst neighbours).
Proof.
  intro Hargsort.
  destruct (Hargsort [-1; 1; 1; 1]%Q) as [Hperm _].
  assert (Hnd : NoDup (argsort [-1; 1; 1; 1]%Q)).
  { eapply Permutation_NoDup; [symmetry; exact Hperm | apply seq_NoDup]. }
  assert (Hlen : List.length (argsort [-1; 1; 1; 1]%Q) = 4%nat).
  { now rewrite (Permutation_length Hperm). }
  assert (Hall : forall i, (i < 4)%nat -> In i (argsort [-1; 1; 1; 1]%Q)).
  { intros i Hi. eapply Permutation_in; [symmetry; exact Hperm |].
    apply in_seq. simpl. lia. }
  assert (Hrun : forall target,
             Lookalike.calculate_similarity
               (Examples.sklearn_gives Examples.twin_matrix) argsort
               (Some Examples.twin_features) [target]
             = Lookalike.loop_body argsort
                 (map CustomerID (rows Examples.twin_features))
                 Examples.twin_matrix
                 (Lookalike.customer_indices
                    (map CustomerID (rows Examples.twin_features)))
                 [] target).
  { intro target. unfold Lookalike.calculate_similarity.
    cbn [Examples.sklearn_gives Examples.twin_features rows List.length Nat.eqb].
    cbn [Lookalike.loop].
    now destruct (Lookalike.loop_body _ _ _ _ _ _). }
  destruct (argsort [-1; 1; 1; 1]%Q) as [|a l] eqn:E; [discriminate |].
  destruct (exists_last (l := a :: l)) as [front [x Hx]]; [discriminate |].
  assert (Hslice : Lookalike.similar_indices argsort [-1; 1; 1; 1]%Q = rev front).
  { unfold Lookalike.similar_indices, Lookalike.last_n. rewrite E, Hx.
    rewrite Hx in Hlen. rewrite Hlen. cbn [Nat.sub skipn].
    now rewrite removelast_last. }
  assert (Hfront : forall i, (i < 4)%nat -> i <> x -> In i (rev front)).
  { intros i Hi Hne. apply in_rev. rewrite rev_involutive.
    specialize (Hall i Hi). rewrite Hx in Hall.
    apply in_app_or in Hall as [Hin | [Hin | []]]; [exact Hin | congruence]. }
  destruct (Nat.eq_dec x 1) as [Hx1 | Hx1].
  - exists "C0003". rewrite (Hrun "C0003"). unfold Lookalike.loop_body.
    change (Lookalike.dict_get "C0003" _) with (Some 2%nat).
    assert (Hrow : nth_error Examples.twin_matrix 2 = Some [-1; 1; 1; 1]%Q)
      by reflexivity.
    cbv iota beta. rewrite Hrow, Hslice.
    rewrite (comprehension_total _
               (fun idx => (nth idx (map CustomerID (rows Examples.twin_features)) "",
                            score_at [-1; 1; 1; 1]%Q idx))).
    + eexists _, _. split; [simpl; auto |]. split; [reflexivity |].
      split; [simpl; left; reflexivity |].
      rewrite map_map. cbn [fst].
      apply in_map_iff. exists 2%nat. split; [reflexivity |].
      apply Hfront; lia.
    + intros idx Hidx.
      assert (Hlt : (idx < 4)%nat).
      { apply (proj2 (in_rev front idx)) in Hidx.
        assert (Hin : In idx (front ++ [x])%list) by (apply in_or_app; now left).
        rewrite <- Hx in Hin.
        apply (Permutation_in _ Hperm), in_seq in Hin. simpl in Hin. lia. }
      do 4 (destruct idx as [|idx]; [reflexivity |]). lia.
  - exists "C0002". rewrite (Hrun "C0002"). unfold Lookalike.loop_body.
    change (Lookalike.dict_get "C0002" _) with (Some 1%nat).
    assert (Hrow : nth_error Examples.twin_matrix 1 = Some [-1; 1; 1; 1]%Q)
      by reflexivity.
    cbv iota beta. rewrite Hrow, Hslice.
    rewrite (comprehension_total _
               (fun idx => (nth idx (map CustomerID (rows Examples.twin_features)) "",
                            score_at [-1; 1; 1; 1]%Q idx))).
    + eexists _, _. split; [simpl; auto |]. split; [reflexivity |].
      split; [simpl; left; reflexivity |].
      rewrite map_map. cbn [fst].
      apply in_map_iff. exists 1%nat. split; [reflexivity |].
      apply Hfront; lia.
    + intros idx Hidx.
      assert (Hlt : (idx < 4)%nat).
      { apply (proj2 (in_rev front idx)) in Hidx.
        assert (Hin : In idx (front ++ [x])%list) by (apply in_or_app; now left).
        rewrite <- Hx in Hin.
        apply (Permutation_in _ Hperm), in_seq in Hin. simpl in Hin. lia. }
      do 4 (destruct idx as [|idx]; [reflexivity |]). lia.
Qed.

(** Whatever order an argsort gives to equal scores, the neighbours of
    C0001 in the twin table do not have strictly descending scores. *)
Lemma tied_neighbours_for_any_argsort (argsort : list Q -> list nat) :
  argsort_contract argsort ->
  exists recs neighbours,
    Lookalike.calculate_similarity
      (Examples.sklearn_gives Examples.twin_matrix) argsort
      (Some Examples.twin_features) ["C0001"] = Some recs /\
    In ("C0001", neighbours) recs /\
    ~ strictly_descending neighbours.
Proof.
  intro Hargsort.
  destruct (argsort_ends_with_best argsort [1; -1; -1; -1]%Q 0 Hargsort)
    as [front [Hl Hnot]].
  { simpl. lia. }
  { intros j Hj Hne. simpl in Hj.
    do 4 (destruct j as [|j]; [try congruence; reflexivity |]). lia. }
  destruct (Hargsort [1; -1; -1; -1]%Q) as [Hperm _].
  assert (Hlen : List.length front = 3%nat).
  { apply Permutation_length in Hperm. rewrite Hl, length_app in Hperm.
    simpl in Hperm. lia. }
  assert (Hrange : forall i, In i front -> (i < 4)%nat /\ i <> 0%nat).
  { intros i Hi. split; [| intros ->; contradiction].
    assert (Hin : In i (front ++ [0%nat])%list) by (apply in_or_app; now left).
    rewrite <- Hl in Hin. apply (Permutation_in _ Hperm), in_seq in Hin.
    simpl in Hin. lia. }
  assert (Hslice : Lookalike.similar_indices argsort [1; -1; -1; -1]%Q = rev front).
  { unfold Lookalike.similar_indices, Lookalike.last_n. rewrite Hl.
    rewrite length_app, Hlen. cbn [List.length Nat.add Nat.sub skipn].
    now rewrite removelast_last. }
  assert (Hscore : forall i, In i front ->
             nth_error (map CustomerID (rows Examples.twin_features)) i
             = Some (nth i (map CustomerID (rows Examples.twin_features)) "") /\
             nth_error [1; -1; -1; -1]%Q i = Some (-1)%Q).
  { intros i Hi. destruct (Hrange i Hi) as [Hlt Hne].
    do 4 (destruct i as [|i]; [try congruence; now split |]). lia. }
  assert (Hrun : Lookalike.calculate_similarity
                   (Examples.sklearn_gives Examples.twin_matrix) argsort
                   (Some Examples.twin_features) ["C0001"]
                 = Lookalike.loop_body argsort
                     (map CustomerID (rows Examples.twin_features))
                     Examples.twin_matrix
                     (Lookalike.customer_indices
                        (map CustomerID (rows Examples.twin_features)))
                     [] "C0001").
  { unfold Lookalike.calculate_similarity.
    cbn [Examples.sklearn_gives Examples.twin_features rows List.length Nat.eqb].
    cbn [Lookalike.loop].
    now destruct (Lookalike.loop_body _ _ _ _ _ _). }
  rewrite Hrun. unfold Lookalike.loop_body.
  change (Lookalike.dict_get "C0001" _) with (Some 0%nat).
  cbv iota beta.
  assert (Hrow : nth_error Examples.twin_matrix 0 = Some [1; -1; -1; -1]%Q)
    by reflexivity.
  rewrite Hrow, Hslice.
  rewrite (comprehension_total _
             (fun idx => (nth idx (map CustomerID (rows Examples.twin_features)) "",
                          (-1)%Q))).
  2:{ intros idx Hidx. apply (proj2 (in_rev front idx)) in Hidx.
      destruct (Hscore idx Hidx) as [H1 H2]. cbv beta. rewrite H1, H2.
      reflexivity. }
  eexists _, _. split; [reflexivity |]. split; [simpl; left; reflexivity |].
  assert (Hlen' : List.length (rev front) = 3%nat) by now rewrite length_rev.
  destruct (rev front) as [|a [|b [|c [|d rest]]]]; try discriminate Hlen'.
  cbn [map]. intro H. inversion H as [|? ? _ Hall]; subst.
  inversion Hall as [|? ? Hlt _]; subst. cbn [snd] in Hlt.
  vm_compute in Hlt. discriminate Hlt.
Qed.

(** * Further properties *)

(** ** Sums over groups *)

Lemma zsum_map_add {A : Type} (g h : A -> Z) (l : list A) :
  Pandas.zsum (map (fun k => g k + h k) l)
  = Pandas.zsum (map g l) + Pandas.zsum (map h l).
Proof. induction l as [|a l IH]; simpl; lia. Qed.

Lemma zsum_map_zero {A : Type} (l : list A) :
  Pandas.zsum (map (fun _ => 0) l) = 0.
Proof. induction l as [|a l IH]; simpl; lia. Qed.

(** Over labels without repetition, exactly one label is the given one. *)
Lemma zsum_indicator (x : string) (v : Z) (labels : list string) :
  NoDup labels ->
  Pandas.zsum (map (fun k => if String.eqb x k then v else 0) labels)
  = if in_dec string_dec x labels then v else 0.
Proof.
  induction 1 as [|k labels Hk Hnd IH]; [reflexivity |].
  cbn [map Pandas.zsum fold_right].
  change (fold_right Z.add 0 ?l) with (Pandas.zsum l). rewrite IH.
  destruct (String.eqb x k) eqn:E.
  - apply String.eqb_eq in E. subst k.
    destruct (in_dec string_dec x labels); [contradiction |].
    destruct (in_dec string_dec x (x :: labels)) as [_ | Hn]; [lia |].
    exfalso. apply Hn. now left.
  - apply String.eqb_neq in E.
    destruct (in_dec string_dec x labels) as [Hin | Hout];
      destruct (in_dec string_dec x (k :: labels)) as [Hin' | Hout']; try lia.
    + exfalso. apply Hout'. now right.
    + exfalso. destruct Hin' as [-> | Hin']; [now apply E | contradiction].
Qed.

(** Grouping by key splits a sum: the sums of the groups add up to the
    sum of the whole. *)
Lemma zsum_by_group {A : Type} (key : A -> string) (f : A -> Z)
    (l : list A) (labels : list string) :
  NoDup labels ->
  (forall a, In a l -> In (key a) labels) ->
  Pandas.zsum
    (map (fun k => Pandas.zsum
                     (map f (filter (fun a => String.eqb (key a) k) l)))
         labels)
  = Pandas.zsum (map f l).
Proof.
  intros Hnd. induction l as [|a l IH]; intro Hin.
  - cbn [filter map]. apply zsum_map_zero.
  - cbn [map Pandas.zsum fold_right].
    change (fold_right Z.add 0 ?l) with (Pandas.zsum l).
    rewrite <- IH by (intros b Hb; apply Hin; now right).
    rewrite (map_ext
               (fun k => Pandas.zsum
                           (map f (filter (fun b => String.eqb (key b) k) (a :: l))))
               (fun k => (if String.eqb (key a) k then f a else 0)
                         + Pandas.zsum
                             (map f (filter (fun b => String.eqb (key b) k) l)))).
    + rewrite zsum_map_add, (zsum_indicator _ _ _ Hnd).
      destruct (in_dec string_dec (key a) labels) as [_ | Hout]; [reflexivity |].
      exfalso. apply Hout, Hin. now left.
    + intro k. cbn [filter]. now destruct (String.eqb (key a) k).
Qed.

Lemma count_as_zsum {A : Type} (l : list A) :
  Pandas.count l = Pandas.zsum (map (fun _ => 1) l).
Proof.
  unfold Pandas.count. induction l as [|a l IH]; [reflexivity |].
  cbn [List.length map Pandas.zsum fold_right].
  change (fold_right Z.add 0 ?l) with (Pandas.zsum l). rewrite <- IH. lia.
Qed.

Lemma count_by_group {A : Type} (key : A -> string) (l : list A)
    (labels : list string) :
  NoDup labels ->
  (forall a, In a l -> In (key a) labels) ->
  Pandas.zsum
    (map (fun k => Pandas.count (filter (fun a => String.eqb (key a) k) l)) labels)
  = Pandas.count l.
Proof.
  intros Hnd Hin. rewrite count_as_zsum, <- (zsum_by_group key _ l labels Hnd Hin).
  f_equal. apply map_ext. intro k. apply count_as_zsum.
Qed.

(** ** More on left merges *)

Lemma merge_left_map {A B C D : Type} (lkey : A -> string) (rkey : B -> string)
    (join : A -> option B -> C) (h : C -> D) (g : A -> D)
    (left : list A) (right : list B) :
  NoDup (map rkey right) ->
  (forall a o, h (join a o) = g a) ->
  map h (Pandas.merge_left lkey rkey join left right) = map g left.
Proof.
  intros Hnd Hh. unfold Pandas.merge_left.
  induction left as [|a left IH]; [reflexivity |].
  cbn [flat_map]. rewrite map_app, IH. cbn [map].
  change (g a :: map g left) with ([g a] ++ map g left)%list. f_equal.
  pose proof (filter_unique_key rkey (lkey a) right Hnd) as Hlen.
  destruct (filter (fun b => String.eqb (rkey b) (lkey a)) right) as [|b [|b' rest]];
    simpl in *; try lia; now rewrite Hh.
Qed.

(** Every left row is kept by a left merge. *)
Lemma merge_left_keeps {A B C : Type} (lkey : A -> string) (rkey : B -> string)
    (join : A -> option B -> C) (left : list A) (right : list B) (a : A) :
  In a left ->
  exists o, In (join a o) (Pandas.merge_left lkey rkey join left right).
Proof.
  intro Ha. unfold Pandas.merge_left.
  destruct (filter (fun b => String.eqb (rkey b) (lkey a)) right) as [|b ms] eqn:F.
  - exists None. apply in_flat_map. exists a. split; [exact Ha |].
    rewrite F. now left.
  - exists (Some b). apply in_flat_map. exists a. split; [exact Ha |].
    rewrite F. now left.
Qed.

Lemma filter_key_count {B : Type} (rkey : B -> string) (k : string) (right : list B) :
  List.length (filter (fun b => String.eqb (rkey b) k) right)
  = count_occ string_dec (map rkey right) k.
Proof.
  induction right as [|b right IH]; [reflexivity |].
  cbn [filter map count_occ].
  destruct (String.eqb (rkey b) k) eqn:E.
  - apply String.eqb_eq in E.
    destruct (string_dec (rkey b) k); [| contradiction].
    cbn [List.length]. now rewrite IH.
  - apply String.eqb_neq in E.
    destruct (string_dec (rkey b) k); [contradiction | exact IH].
Qed.

(** A left row comes out once per matching right row, and once when
    nothing matches. *)
Lemma merge_left_key_list {A B C : Type} (lkey : A -> string) (rkey : B -> string)
    (join : A -> option B -> C) (ckey : C -> string)
    (left : list A) (right : list B) :
  (forall a o, ckey (join a o) = lkey a) ->
  map ckey (Pandas.merge_left lkey rkey join left right)
  = flat_map (fun a => repeat (lkey a)
                         (Nat.max 1 (count_occ string_dec (map rkey right) (lkey a))))
             left.
Proof.
  intro Hkey. unfold Pandas.merge_left.
  induction left as [|a left IH]; [reflexivity |].
  cbn [flat_map]. rewrite map_app, IH. f_equal.
  rewrite <- filter_key_count.
  destruct (filter (fun b => String.eqb (rkey b) (lkey a)) right) as [|b ms].
  - simpl. now rewrite Hkey.
  - rewrite Nat.max_r by (cbn [List.length]; lia).
    rewrite map_map. generalize (b :: ms) as l.
    induction l as [|x l IHl]; [reflexivity |].
    cbn [map List.length repeat]. now rewrite IHl, Hkey.
Qed.

(** ** More on the feature builder *)

Section FeatureRows.

Import Pandas.

Variables (customers : list Customer) (transactions : list Transaction)
          (products : list Product).
Variables (ft : feature_table) (out : list printed).

Hypothesis Hrun :
  Clustering.create_customer_features
    (Some customers) (Some transactions) (Some products)
  = (Returned (Some ft), out).

(** The labels of the table. *)
Lemma feature_labels :
  category_columns ft
  = unique_sorted
      (map snd (merge_inner txn_ProductID prod_ProductID
                  (fun t p => (txn_CustomerID t, Category p))
                  transactions products)) /\
  region_columns ft
  = map (fun v => "region" ++ "_" ++ v) (unique_sorted (map Region customers)).
Proof.
  unfold Clustering.create_customer_features in Hrun.
  destruct (reset_index _) as [e | pivot_rows] eqn:Hreset in Hrun.
  { unfold Clustering.except_handler in Hrun. discriminate Hrun. }
  injection Hrun as Hft _. subst ft. split; reflexivity.
Qed.

(** The parts of a row: the statistics of the group of its customer,
    as many shares as category labels, and the indicators of the region
    of a row of the customer table for this customer, or zeros when the
    customer table has no such row. *)
Lemma feature_row_parts (r : feature_row) :
  In r (rows ft) ->
  exists g,
    In g (groupby txn_CustomerID transactions) /\
    CustomerID r = fst g /\
    TotalValue_sum r = qsum (map TotalValue (snd g)) /\
    TotalValue_mean r = qmean (map TotalValue (snd g)) /\
    TotalValue_count r = count (snd g) /\
    Quantity_sum r = int64_sum (map Quantity (snd g)) /\
    Quantity_mean r
    = (inject_Z (zsum (map Quantity (snd g))) / inject_Z (count (snd g)))%Q /\
    List.length (category_shares r) = List.length (category_columns ft) /\
    ((region_flags r = repeat 0 (List.length (region_columns ft)) /\
      forall c, In c customers -> cust_CustomerID c <> fst g) \/
     exists c, In c customers /\ cust_CustomerID c = fst g /\
       region_flags r
       = map (fun b : bool => if b then 1 else 0)
             (map (String.eqb (Region c)) (unique_sorted (map Region customers)))).
Proof.
  intro Hr. unfold Clustering.create_customer_features in Hrun.
  destruct (reset_index _) as [e | pivot_rows] eqn:Hreset in Hrun.
  { unfold Clustering.except_handler in Hrun. discriminate Hrun. }
  injection Hrun as Hft _. subst ft. cbn [rows category_columns region_columns] in *.
  unfold reset_index in Hreset.
  destruct (in_dec string_dec _ _) in Hreset; [discriminate |].
  injection Hreset as <-.
  apply in_map_iff in Hr as [m [<- Hm]].
  apply merge_left_In in Hm as [x2 [Hx2 Hm]].
  apply merge_left_In in Hx2 as [x1 [Hx1 Hx2]].
  apply merge_left_In in Hx1 as [s [Hs Hx1]].
  apply in_map_iff in Hs as [g [Hs Hg]].
  exists g. split; [exact Hg |].
  unfold fillna_0;
    cbn [CustomerID TotalValue_sum TotalValue_mean TotalValue_count
         Quantity_sum Quantity_mean category_shares region_flags].
  assert (Hstats : mr_stats m = s).
  { destruct Hm as [[_ ->] | [b [_ [_ ->]]]];
      destruct Hx2 as [[_ ->] | [b2 [_ [_ ->]]]];
      destruct Hx1 as [[_ ->] | [b1 [_ [_ ->]]]]; reflexivity. }
  rewrite Hstats. rewrite <- Hs. cbn [ps_CustomerID ps_TotalValue_sum
    ps_TotalValue_mean ps_TotalValue_count ps_Quantity_sum ps_Quantity_mean].
  do 6 (split; [reflexivity |]). split.
  - assert (Hshares : mr_shares m = snd x1).
    { destruct Hm as [[_ ->] | [b [_ [_ ->]]]];
        destruct Hx2 as [[_ ->] | [b2 [_ [_ ->]]]]; reflexivity. }
    rewrite Hshares.
    destruct Hx1 as [[_ ->] | [b1 [Hb1 [_ ->]]]]; cbn [snd option_map].
    + apply repeat_length.
    + unfold crosstab_normalize_index in Hb1. cbn [ct_rows] in Hb1.
      apply in_map_iff in Hb1 as [i [<- _]]. cbn [snd].
      unfold crosstab_normalize_index. cbn [ct_columns].
      now rewrite !length_map.
  - assert (Hkey : ps_CustomerID (fst (fst x2)) = fst g).
    { destruct Hx2 as [[_ ->] | [b2 [_ [_ ->]]]];
        destruct Hx1 as [[_ ->] | [b1 [_ [_ ->]]]]; subst s; reflexivity. }
    destruct Hm as [[Hnone ->] | [b [Hb [Hk ->]]]]; cbn [mr_regions option_map].
    + left. split; [reflexivity |]. intros c Hc Heq.
      apply (Hnone (cust_CustomerID c,
                    map (String.eqb (Region c))
                        (unique_sorted (map Region customers)))).
      * unfold get_dummies. cbn [dm_rows]. apply in_map_iff. now exists c.
      * cbn [fst]. now rewrite Hkey.
    + right. unfold get_dummies in Hb. cbn [dm_rows] in Hb.
      apply in_map_iff in Hb as [c [<- Hc]]. cbn [fst snd] in *.
      exists c. split; [exact Hc |]. split; [| reflexivity].
      now rewrite Hk, Hkey.
Qed.

(** The rows, one per group and in the order of the groups, when no
    customer is listed twice in the customer table. *)
Lemma feature_rows_by_group {D : Type} (h : feature_row -> D)
    (g : purchase_stats_row -> D) :
  NoDup (map cust_CustomerID customers) ->
  (forall m n1 n2, h (fillna_0 n1 n2 m) = g (mr_stats m)) ->
  map h (rows ft)
  = map (fun grp =>
           g {| ps_CustomerID := fst grp;
                ps_TotalValue_sum := qsum (map TotalValue (snd grp));
                ps_TotalValue_mean := qmean (map TotalValue (snd grp));
                ps_TotalValue_count := count (snd grp);
                ps_Quantity_sum := int64_sum (map Quantity (snd grp));
                ps_Quantity_mean :=
                  (inject_Z (zsum (map Quantity (snd grp)))
                   / inject_Z (count (snd grp)))%Q |})
        (groupby txn_CustomerID transactions).
Proof.
  intros Hnd Hh. unfold Clustering.create_customer_features in Hrun.
  destruct (reset_index _) as [e | pivot_rows] eqn:Hreset in Hrun.
  { unfold Clustering.except_handler in Hrun. discriminate Hrun. }
  injection Hrun as Hft _. subst ft. cbn [rows].
  unfold reset_index in Hreset.
  destruct (in_dec string_dec _ _) in Hreset; [discriminate |].
  injection Hreset as <-.
  rewrite map_map.
  rewrite (merge_left_map _ fst _ _ (fun x => g (fst (fst x))));
    [| unfold get_dummies; cbn [dm_rows]; rewrite map_map; exact Hnd
     | intros a o; apply Hh].
  rewrite (merge_left_map _ fst _ _ (fun x => g (fst x)));
    [| rewrite map_map; cbn [fst];
       change (map (fun x : string * list Transaction => fst x)
                   (groupby txn_CustomerID transactions))
         with (map fst (groupby txn_CustomerID transactions));
       rewrite groupby_keys; apply unique_sorted_NoDup
     | reflexivity].
  rewrite (merge_left_map _ fst _ _ g);
    [| unfold crosstab_normalize_index; cbn [ct_rows]; rewrite map_map;
       cbn [fst]; rewrite map_id; apply unique_sorted_NoDup
     | reflexivity].
  now rewrite map_map.
Qed.

End FeatureRows.

(** X1: every row of the feature table has one share per category column
    and one indicator per region column. *)
Theorem rows_match_columns
    (customers : list Customer) (transactions : list Transaction)
    (products : list Product) (ft : feature_table) (out : list printed) :
  Clustering.create_customer_features
    (Some customers) (Some transactions) (Some products)
  = (Returned (Some ft), out) ->
  forall r, In r (rows ft) ->
    List.length (category_shares r) = List.length (category_columns ft) /\
    List.length (region_flags r) = List.length (region_columns ft).
Proof.
  intros Hrun r Hr.
  destruct (feature_row_parts _ _ _ _ _ Hrun r Hr)
    as [g [_ [_ [_ [_ [_ [_ [_ [Hshares Hflags]]]]]]]]].
  split; [exact Hshares |].
  destruct (feature_labels _ _ _ _ _ Hrun) as [_ Hreg].
  destruct Hflags as [[-> _] | [c [_ [_ ->]]]].
  - apply repeat_length.
  - now rewrite Hreg, !length_map.
Qed.

Lemma rows_match_columns_witness :
  Clustering.create_customer_features
    (Some Examples.four_customers) (Some Examples.twin_transactions)
    (Some Examples.one_product)
  = (Returned (Some Examples.twin_features), []) /\
  In Examples.twin_row (rows Examples.twin_features) /\
  List.length (category_shares Examples.twin_row)
  = List.length (category_columns Examples.twin_features) /\
  List.length (region_flags Examples.twin_row)
  = List.length (region_columns Examples.twin_features).
Proof.
  assert (Hrun : Clustering.create_customer_features
                   (Some Examples.four_customers) (Some Examples.twin_transactions)
                   (Some Examples.one_product)
                 = (Returned (Some Examples.twin_features), []))
    by (vm_compute; reflexivity).
  assert (Hin : In Examples.twin_row (rows Examples.twin_features))
    by (simpl; auto).
  split; [exact Hrun |]. split; [exact Hin |].
  exact (rows_match_columns _ _ _ _ _ Hrun _ Hin).
Defined.

(** Wrap-around and sums. *)
Lemma int64_range (z : Z) : - 2 ^ 63 <= Pandas.int64 z < 2 ^ 63.
Proof.
  unfold Pandas.int64.
  pose proof (Z.mod_pos_bound (z + 2 ^ 63) (2 ^ 64) ltac:(lia)). lia.
Qed.

Lemma int64_small (z : Z) : - 2 ^ 63 <= z < 2 ^ 63 -> Pandas.int64 z = z.
Proof.
  intro H. unfold Pandas.int64. rewrite Z.mod_small by lia. lia.
Qed.

Lemma int64_add_l (a b : Z) : Pandas.int64 (Pandas.int64 a + b) = Pandas.int64 (a + b).
Proof.
  unfold Pandas.int64. f_equal.
  replace ((a + 2 ^ 63) mod 2 ^ 64 - 2 ^ 63 + b + 2 ^ 63)
    with ((a + 2 ^ 63) mod 2 ^ 64 + b) by lia.
  rewrite Zplus_mod_idemp_l. f_equal. lia.
Qed.

Lemma int64_add_r (a b : Z) : Pandas.int64 (a + Pandas.int64 b) = Pandas.int64 (a + b).
Proof. rewrite Z.add_comm, int64_add_l. f_equal. lia. Qed.

(** Adding up with wrap-around at every step wraps the exact sum. *)
Lemma int64_sum_wraps (l : list Z) :
  Pandas.int64_sum l = Pandas.int64 (Pandas.zsum l).
Proof.
  unfold Pandas.int64_sum.
  assert (H : forall acc,
             fold_left (fun acc x => Pandas.int64 (acc + x)) l (Pandas.int64 acc)
             = Pandas.int64 (acc + Pandas.zsum l)).
  { induction l as [|x l IH]; intro acc; cbn [fold_left Pandas.zsum fold_right].
    - f_equal. lia.
    - change (fold_right Z.add 0 l) with (Pandas.zsum l).
      rewrite int64_add_l, IH. f_equal. lia. }
  specialize (H 0). rewrite (int64_small 0) in H by lia. exact H.
Qed.

Lemma int64_sum_of_wrapped {A : Type} (f : A -> Z) (l : list A) :
  Pandas.int64_sum (map (fun a => Pandas.int64 (f a)) l)
  = Pandas.int64_sum (map f l).
Proof.
  rewrite !int64_sum_wraps.
  induction l as [|a l IH]; [reflexivity |].
  cbn [map Pandas.zsum fold_right].
  change (fold_right Z.add 0 ?l) with (Pandas.zsum l).
  rewrite int64_add_l, <- int64_add_r, IH, int64_add_r. reflexivity.
Qed.

(** X2: the purchase statistics of a row are computed from the
    transactions of its customer and from no others: the count is their
    number, which is at least 1; the quantity sum is their int64 sum,
    wrap-around included; and on any other transactions table in which
    the customer has the same transactions in the same order, the row of
    the customer carries the same five statistics. *)
Theorem purchase_statistics_of_customer
    (customers : list Customer) (transactions : list Transaction)
    (products : list Product) (ft : feature_table) (out : list printed) :
  Clustering.create_customer_features
    (Some customers) (Some transactions) (Some products)
  = (Returned (Some ft), out) ->
  forall r, In r (rows ft) ->
    let own := filter (fun t => String.eqb (txn_CustomerID t) (CustomerID r))
                      transactions in
    TotalValue_count r = Z.of_nat (List.length own) /\
    1 <= TotalValue_count r /\
    Quantity_sum r = Pandas.int64_sum (map Quantity own) /\
    - 2 ^ 63 <= Quantity_sum r < 2 ^ 63 /\
    forall customers' transactions' products' ft' out' r',
      Clustering.create_customer_features
        (Some customers') (Some transactions') (Some products')
      = (Returned (Some ft'), out') ->
      In r' (rows ft') ->
      CustomerID r' = CustomerID r ->
      filter (fun t => String.eqb (txn_CustomerID t) (CustomerID r)) transactions'
      = own ->
      TotalValue_sum r' = TotalValue_sum r /\
      TotalValue_mean r' = TotalValue_mean r /\
      TotalValue_count r' = TotalValue_count r /\
      Quantity_sum r' = Quantity_sum r /\
      Quantity_mean r' = Quantity_mean r.
Proof.
  intros Hrun r Hr own.
  destruct (feature_row_parts _ _ _ _ _ Hrun r Hr)
    as [g [Hg [Hid [Hsum [Hmean [Hcount [Hqsum [Hqmean _]]]]]]]].
  apply groupby_In in Hg as [Hkey Hgroup].
  assert (Hown : snd g = own) by (unfold own; now rewrite Hid).
  rewrite Hown in *.
  assert (Hpos : 1 <= Pandas.count own).
  { apply in_map_iff in Hkey as [t [Ht1 Ht2]].
    assert (Hin : In t own).
    { unfold own. apply filter_In. split; [exact Ht2 |].
      apply String.eqb_eq. now rewrite Hid. }
    unfold Pandas.count. destruct own; [contradiction | cbn [List.length]; lia]. }
  split; [exact Hcount |]. split; [now rewrite Hcount |].
  split; [exact Hqsum |].
  split; [rewrite Hqsum, int64_sum_wraps; apply int64_range |].
  intros customers' transactions' products' ft' out' r' Hrun' Hr' Hsame Hfilter.
  destruct (feature_row_parts _ _ _ _ _ Hrun' r' Hr')
    as [g' [Hg' [Hid' [Hsum' [Hmean' [Hcount' [Hqsum' [Hqmean' _]]]]]]]].
  apply groupby_In in Hg' as [_ Hgroup'].
  assert (Hown' : snd g' = own).
  { rewrite Hgroup', <- Hid', Hsame. exact Hfilter. }
  rewrite Hown' in *.
  rewrite Hsum, Hmean, Hcount, Hqsum, Hqmean, Hsum', Hmean', Hcount', Hqsum', Hqmean'.
  repeat split; reflexivity.
Qed.

Lemma purchase_statistics_of_customer_witness :
  Clustering.create_customer_features
    (Some Examples.four_customers) (Some Examples.twin_transactions)
    (Some Examples.one_product)
  = (Returned (Some Examples.twin_features), []) /\
  In Examples.twin_row (rows Examples.twin_features) /\
  TotalValue_count Examples.twin_row = 1 /\
  Quantity_sum Examples.twin_row
  = Pandas.int64_sum [3] /\
  (Clustering.create_customer_features
     (Some MoreExamples.repeated_customers) (Some MoreExamples.lone_transactions)
     (Some Examples.one_product)
   = (Returned (Some MoreExamples.lone_features), []) ->
   forall r', In r' (rows MoreExamples.lone_features) ->
     CustomerID r' = "C0001" ->
     TotalValue_sum r' = TotalValue_sum Examples.twin_row /\
     Quantity_mean r' = Quantity_mean Examples.twin_row).
Proof.
  assert (Hrun : Clustering.create_customer_features
                   (Some Examples.four_customers) (Some Examples.twin_transactions)
                   (Some Examples.one_product)
                 = (Returned (Some Examples.twin_features), []))
    by (vm_compute; reflexivity).
  assert (Hin : In Examples.twin_row (rows Examples.twin_features))
    by (simpl; auto).
  split; [exact Hrun |]. split; [exact Hin |].
  destruct (purchase_statistics_of_customer _ _ _ _ _ Hrun _ Hin)
    as [Hcount [_ [Hqsum [_ Hsame]]]].
  split; [exact Hcount |]. split; [exact Hqsum |].
  intros Hrun' r' Hr' Hid.
  destruct (Hsame _ _ _ _ _ r' Hrun' Hr' Hid eq_refl) as [H1 [_ [_ [_ H5]]]].
  split; assumption.
Defined.

(** X3: with customer identifiers unique in the customer table, no
    transaction is lost or counted twice: over the rows of the feature
    table the transaction counts add up to the number of transactions,
    and the int64 sum of the quantity sums is the int64 sum of the
    quantities of the transactions table, wrap-around included. *)
Theorem totals_are_conserved
    (customers : list Customer) (transactions : list Transaction)
    (products : list Product) (ft : feature_table) (out : list printed) :
  NoDup (map cust_CustomerID customers) ->
  Clustering.create_customer_features
    (Some customers) (Some transactions) (Some products)
  = (Returned (Some ft), out) ->
  Pandas.zsum (map TotalValue_count (rows ft))
  = Z.of_nat (List.length transactions) /\
  Pandas.int64_sum (map Quantity_sum (rows ft))
  = Pandas.int64_sum (map Quantity transactions).
Proof.
  intros Hnd Hrun.
  assert (Hcover : forall t, In t transactions ->
             In (txn_CustomerID t)
                (Pandas.unique_sorted (map txn_CustomerID transactions))).
  { intros t Ht. apply unique_sorted_In. now apply in_map. }
  pose proof (unique_sorted_NoDup (map txn_CustomerID transactions)) as Hkeys.
  split.
  - rewrite (feature_rows_by_group _ _ _ _ _ Hrun _ ps_TotalValue_count Hnd)
      by reflexivity.
    unfold Pandas.groupby. rewrite map_map. cbn [ps_TotalValue_count snd].
    apply (count_by_group txn_CustomerID transactions _ Hkeys Hcover).
  - rewrite (feature_rows_by_group _ _ _ _ _ Hrun _ ps_Quantity_sum Hnd)
      by reflexivity.
    unfold Pandas.groupby. rewrite map_map. cbn [ps_Quantity_sum snd].
    rewrite (map_ext _ (fun k => Pandas.int64
                                   (Pandas.zsum
                                      (map Quantity
                                         (filter (fun r => String.eqb (txn_CustomerID r) k)
                                                 transactions)))))
      by (intro k; apply int64_sum_wraps).
    rewrite int64_sum_of_wrapped, !int64_sum_wraps. f_equal.
    apply (zsum_by_group txn_CustomerID Quantity transactions _ Hkeys Hcover).
Qed.

Lemma totals_are_conserved_witness :
  NoDup (map cust_CustomerID Examples.four_customers) /\
  Pandas.zsum (map TotalValue_count (rows Examples.twin_features)) = 4 /\
  Pandas.int64_sum (map Quantity_sum (rows Examples.twin_features))
  = Pandas.int64_sum [3; 1; 1; 1].
Proof.
  assert (Hnd : NoDup (map cust_CustomerID Examples.four_customers)).
  { simpl. repeat constructor; simpl; intuition discriminate. }
  split; [exact Hnd |].
  exact (totals_are_conserved
           Examples.four_customers Examples.twin_transactions
           Examples.one_product Examples.twin_features [] Hnd
           ltac:(vm_compute; reflexivity)).
Defined.

Lemma filter_filter_and {A : Type} (f g : A -> bool) (l : list A) :
  filter g (filter f l) = filter (fun a => f a && g a) l.
Proof.
  induction l as [|a l IH]; [reflexivity |]. cbn [filter].
  destruct (f a); cbn [filter andb]; [destruct (g a) |]; now rewrite IH.
Qed.

(** X4: for a customer with a transaction that joins to a product, the
    share of a category is the number of the customer's joined
    transactions in the category divided by the number of the customer's
    joined transactions. *)
Theorem share_is_fraction_of_joined_transactions
    (customers : list Customer) (transactions : list Transaction)
    (products : list Product) (ft : feature_table) (out : list printed) :
  Clustering.create_customer_features
    (Some customers) (Some transactions) (Some products)
  = (Returned (Some ft), out) ->
  forall r, In r (rows ft) ->
    (exists t p, In t transactions /\ In p products /\
                 prod_ProductID p = txn_ProductID t /\
                 txn_CustomerID t = CustomerID r) ->
    let joined := Pandas.merge_inner txn_ProductID prod_ProductID
                    (fun t p => (txn_CustomerID t, Category p))
                    transactions products in
    let own := filter (fun pr => String.eqb (fst pr) (CustomerID r)) joined in
    category_shares r
    = map (fun c =>
             (inject_Z (Z.of_nat
                          (List.length (filter (fun pr => String.eqb (snd pr) c) own)))
              / inject_Z (Z.of_nat (List.length own)))%Q)
          (category_columns ft).
Proof.
  intros Hrun r Hr [t [p [Ht [Hp [Hpid Hcid]]]]] joined own.
  destruct (feature_row_origin _ _ _ _ _ Hrun r Hr) as [_ [Hshares _]].
  destruct (feature_labels _ _ _ _ _ Hrun) as [Hcat _].
  fold joined in Hshares, Hcat.
  assert (Hpair : In (CustomerID r, Category p) joined).
  { apply merge_inner_In. exists t, p. now rewrite Hcid. }
  destruct Hshares as [[_ Hnone] | [row [Hrow [Hfst ->]]]].
  - exfalso. unfold Pandas.crosstab_normalize_index in Hnone.
    cbn [Pandas.ct_rows] in Hnone.
    eapply (Hnone (CustomerID r, _)); [| reflexivity].
    apply in_map_iff. exists (CustomerID r). split; [reflexivity |].
    apply unique_sorted_In. apply in_map_iff. now exists (CustomerID r, Category p).
  - unfold Pandas.crosstab_normalize_index in Hrow. cbn [Pandas.ct_rows] in Hrow.
    apply in_map_iff in Hrow as [i [<- Hi]]. cbn [fst snd] in *. subst i.
    rewrite Hcat, map_map.
    assert (Hcell : forall c,
               Pandas.cell_count (CustomerID r) c joined
               = Pandas.count (filter (fun pr => String.eqb (snd pr) c) own)).
    { intro c. unfold Pandas.cell_count, own. now rewrite filter_filter_and. }
    assert (Htotal : Pandas.zsum
                       (map (fun c => Pandas.cell_count (CustomerID r) c joined)
                            (Pandas.unique_sorted (map snd joined)))
                     = Pandas.count own).
    { rewrite (map_ext _ _ Hcell).
      apply (count_by_group snd own); [apply unique_sorted_NoDup |].
      intros pr Hpr. apply unique_sorted_In. apply in_map.
      unfold own in Hpr. now apply filter_In in Hpr. }
    rewrite Htotal. apply map_ext. intro c. now rewrite Hcell.
Qed.

Lemma share_is_fraction_of_joined_transactions_witness :
  Clustering.create_customer_features
    (Some Examples.four_customers) (Some Examples.twin_transactions)
    (Some Examples.one_product)
  = (Returned (Some Examples.twin_features), []) /\
  In Examples.twin_row (rows Examples.twin_features) /\
  category_shares Examples.twin_row = [(inject_Z 1 / inject_Z 1)%Q].
Proof.
  assert (Hrun : Clustering.create_customer_features
                   (Some Examples.four_customers) (Some Examples.twin_transactions)
                   (Some Examples.one_product)
                 = (Returned (Some Examples.twin_features), []))
    by (vm_compute; reflexivity).
  assert (Hin : In Examples.twin_row (rows Examples.twin_features))
    by (simpl; auto).
  split; [exact Hrun |]. split; [exact Hin |].
  rewrite (share_is_fraction_of_joined_transactions _ _ _ _ _ Hrun _ Hin).
  - reflexivity.
  - exists (Examples.transaction "T1" "C0001" "P001" 0 3 30),
           (Examples.product "P001" "Books").
    simpl. auto.
Defined.

(** X5: a row whose customer is in the customer table carries the
    indicators of the region of a row of that table for this customer,
    exactly one of which is 1; a row whose customer is not in the customer
    table carries zeros only. *)
Theorem region_flags_one_hot
    (customers : list Customer) (transactions : list Transaction)
    (products : list Product) (ft : feature_table) (out : list printed) :
  Clustering.create_customer_features
    (Some customers) (Some transactions) (Some products)
  = (Returned (Some ft), out) ->
  forall r, In r (rows ft) ->
    (In (CustomerID r) (map cust_CustomerID customers) ->
     exists c, In c customers /\ cust_CustomerID c = CustomerID r /\
       region_flags r
       = map (fun v => if String.eqb (Region c) v then 1 else 0)
             (Pandas.unique_sorted (map Region customers)) /\
       Pandas.zsum (region_flags r) = 1) /\
    (~ In (CustomerID r) (map cust_CustomerID customers) ->
     region_flags r = repeat 0 (List.length (region_columns ft))).
Proof.
  intros Hrun r Hr.
  destruct (feature_row_parts _ _ _ _ _ Hrun r Hr)
    as [g [_ [Hid [_ [_ [_ [_ [_ [_ Hflags]]]]]]]]].
  rewrite <- Hid in Hflags. split.
  - intro Hin. destruct Hflags as [[_ Hnone] | [c [Hc [Hcid Hf]]]].
    + exfalso. apply in_map_iff in Hin as [c [Hcid Hc]]. exact (Hnone c Hc Hcid).
    + exists c. split; [exact Hc |]. split; [exact Hcid |].
      rewrite Hf, map_map. split; [reflexivity |].
      rewrite zsum_indicator by apply unique_sorted_NoDup.
      destruct (in_dec string_dec _ _) as [_ | Hout]; [reflexivity |].
      exfalso. apply Hout, unique_sorted_In. now apply in_map.
  - intro Hout. destruct Hflags as [[Hf _] | [c [Hc [Hcid _]]]]; [exact Hf |].
    exfalso. apply Hout. rewrite <- Hcid. now apply in_map.
Qed.

Lemma region_flags_one_hot_witness :
  Clustering.create_customer_features
    (Some Examples.four_customers) (Some Examples.twin_transactions)
    (Some Examples.one_product)
  = (Returned (Some Examples.twin_features), []) /\
  In Examples.twin_row (rows Examples.twin_features) /\
  In (CustomerID Examples.twin_row)
     (map cust_CustomerID Examples.four_customers) /\
  Pandas.zsum (region_flags Examples.twin_row) = 1.
Proof.
  assert (Hrun : Clustering.create_customer_features
                   (Some Examples.four_customers) (Some Examples.twin_transactions)
                   (Some Examples.one_product)
                 = (Returned (Some Examples.twin_features), []))
    by (vm_compute; reflexivity).
  assert (Hin : In Examples.twin_row (rows Examples.twin_features))
    by (simpl; auto).
  assert (Hcust : In (CustomerID Examples.twin_row)
                     (map cust_CustomerID Examples.four_customers))
    by (simpl; auto).
  split; [exact Hrun |]. split; [exact Hin |]. split; [exact Hcust |].
  destruct (region_flags_one_hot _ _ _ _ _ Hrun _ Hin) as [Hyes _].
  destruct (Hyes Hcust) as [c [_ [_ [_ Hsum]]]]. exact Hsum.
Defined.

(** X6: with customer identifiers unique in the customer table, the rows
    of the feature table come in ascending order of customer identifier. *)
Theorem rows_sorted_by_customer
    (customers : list Customer) (transactions : list Transaction)
    (products : list Product) (ft : feature_table) (out : list printed) :
  NoDup (map cust_CustomerID customers) ->
  Clustering.create_customer_features
    (Some customers) (Some transactions) (Some products)
  = (Returned (Some ft), out) ->
  Sorted (fun a b => String.leb a b = true) (map CustomerID (rows ft)).
Proof.
  intros Hnd Hrun. rewrite (feature_customers _ _ _ _ _ Hrun Hnd).
  unfold Pandas.unique_sorted. apply StringSort.Sorted_sort.
Qed.

Lemma rows_sorted_by_customer_witness :
  NoDup (map cust_CustomerID Examples.four_customers) /\
  Sorted (fun a b => String.leb a b = true)
         (map CustomerID (rows Examples.twin_features)).
Proof.
  assert (Hnd : NoDup (map cust_CustomerID Examples.four_customers)).
  { simpl. repeat constructor; simpl; intuition discriminate. }
  split; [exact Hnd |].
  apply (rows_sorted_by_customer
           Examples.four_customers Examples.twin_transactions
           Examples.one_product Examples.twin_features [] Hnd).
  vm_compute. reflexivity.
Defined.

(** Every customer of the transactions table has a row. *)
Lemma feature_row_exists
    (customers : list Customer) (transactions : list Transaction)
    (products : list Product) (ft : feature_table) (out : list printed)
    (cid : string) :
  Clustering.create_customer_features
    (Some customers) (Some transactions) (Some products)
  = (Returned (Some ft), out) ->
  In cid (map txn_CustomerID transactions) ->
  exists r, In r (rows ft) /\ CustomerID r = cid.
Proof.
  intros Hrun Hcid. unfold Clustering.create_customer_features in Hrun.
  destruct (reset_index _) as [e | pivot_rows] eqn:Hreset in Hrun.
  { unfold Clustering.except_handler in Hrun. discriminate Hrun. }
  injection Hrun as Hft _. subst ft. cbn [rows].
  apply unique_sorted_In in Hcid.
  rewrite <- (groupby_keys txn_CustomerID) in Hcid.
  apply in_map_iff in Hcid as [g [Hg1 Hg2]].
  match goal with
  | |- context [Pandas.merge_left ps_CustomerID fst ?j ?l ?r] =>
    destruct (merge_left_keeps ps_CustomerID fst j l r
                {| ps_CustomerID := fst g;
                   ps_TotalValue_sum := Pandas.qsum (map TotalValue (snd g));
                   ps_TotalValue_mean := Pandas.qmean (map TotalValue (snd g));
                   ps_TotalValue_count := Pandas.count (snd g);
                   ps_Quantity_sum := Pandas.int64_sum (map Quantity (snd g));
                   ps_Quantity_mean :=
                     (inject_Z (Pandas.zsum (map Quantity (snd g)))
                      / inject_Z (Pandas.count (snd g)))%Q |})
      as [o1 H1]; [apply in_map_iff; now exists g |]
  end.
  match goal with
  | |- context [Pandas.merge_left (fun x => ps_CustomerID (fst x)) fst ?j ?l ?r] =>
    destruct (merge_left_keeps (fun x => ps_CustomerID (fst x)) fst j l r _ H1)
      as [o2 H2]
  end.
  match goal with
  | |- context [Pandas.merge_left (fun x => ps_CustomerID (fst (fst x))) fst ?j ?l ?r] =>
    destruct (merge_left_keeps (fun x => ps_CustomerID (fst (fst x))) fst j l r _ H2)
      as [o3 H3]
  end.
  eexists. split; [apply in_map; exact H3 |].
  unfold fillna_0. cbn [CustomerID mr_stats fst ps_CustomerID]. exact Hg1.
Qed.

(** X7: when there are transactions, some row of the feature table has
    recency 0: the row of a customer of the latest transaction. *)
Theorem latest_customer_has_recency_zero
    (customers : list Customer) (transactions : list Transaction)
    (products : list Product) (ft : feature_table) (out : list printed) :
  transactions <> [] ->
  Clustering.create_customer_features
    (Some customers) (Some transactions) (Some products)
  = (Returned (Some ft), out) ->
  exists r, In r (rows ft) /\ recency r = 0 /\
    exists t, In t transactions /\ txn_CustomerID t = CustomerID r /\
              forall t', In t' transactions ->
                         TransactionDate t' <= TransactionDate t.
Proof.
  intros Hne Hrun.
  pose proof (max_timestamp_spec (map TransactionDate transactions)) as Hall.
  destruct (Pandas.max_timestamp (map TransactionDate transactions))
    as [latest|] eqn:E.
  2:{ destruct transactions; [congruence | discriminate Hall]. }
  destruct Hall as [Hin Hmax]. apply in_map_iff in Hin as [t [Hdate Ht]].
  destruct (feature_row_exists _ _ _ _ _ (txn_CustomerID t) Hrun)
    as [r [Hr Hid]]; [now apply in_map |].
  exists r. split; [exact Hr |].
  destruct (feature_row_origin _ _ _ _ _ Hrun r Hr) as [_ [_ Hrec]].
  split.
  - rewrite Hrec. unfold recency_days. rewrite E.
    pose proof (max_timestamp_spec
                  (map TransactionDate
                     (filter (fun t' => String.eqb (txn_CustomerID t') (CustomerID r))
                             transactions))) as Hown.
    set (own_dates := map TransactionDate
                        (filter (fun t' => String.eqb (txn_CustomerID t')
                                                      (CustomerID r))
                                transactions)) in *.
    destruct (Pandas.max_timestamp own_dates) as [own|]; [| reflexivity].
    destruct Hown as [Hown1 Hown2]. unfold own_dates in *.
    assert (Hle : own <= latest).
    { apply Hmax. apply in_map_iff in Hown1 as [t' [<- Ht']].
      apply filter_In in Ht' as [Ht' _]. now apply in_map. }
    assert (Hge : latest <= own).
    { apply Hown2. rewrite <- Hdate. apply in_map. apply filter_In.
      split; [exact Ht |]. apply String.eqb_eq. now rewrite Hid. }
    replace (latest - own) with 0 by lia. reflexivity.
  - exists t. split; [exact Ht |]. split; [now rewrite Hid |].
    intros t' Ht'. rewrite Hdate. apply Hmax. now apply in_map.
Qed.

Lemma latest_customer_has_recency_zero_witness :
  Examples.late_transactions <> [] /\
  exists r, In r (rows Examples.late_features) /\ recency r = 0 /\
    exists t, In t Examples.late_transactions /\
              txn_CustomerID t = CustomerID r /\
              forall t', In t' Examples.late_transactions ->
                         TransactionDate t' <= TransactionDate t.
Proof.
  assert (Hne : Examples.late_transactions <> []) by discriminate.
  split; [exact Hne |].
  apply (latest_customer_has_recency_zero
           Examples.four_customers Examples.late_transactions
           Examples.one_product Examples.late_features [] Hne).
  vm_compute. reflexivity.
Defined.

(** X8: when a transaction joins to a product whose category is named
    CustomerID, no feature table is built: the pivot cannot take its index
    back as a column, all three intermediate tables exist by then, and the
    call prints the error with the three column lists and returns None. *)
Theorem category_named_like_key_aborts
    (customers : list Customer) (transactions : list Transaction)
    (products : list Product) :
  (exists t p, In t transactions /\ In p products /\
               prod_ProductID p = txn_ProductID t /\
               Category p = "CustomerID") ->
  Clustering.create_customer_features
    (Some customers) (Some transactions) (Some products)
  = (Returned None,
     [Print_error "Error creating features"
        (ValueError "cannot insert CustomerID, already exists");
      Print_line (String (ascii_of_nat 10) "Debugging info:");
      Print_columns "Purchase stats columns:" purchase_stats_columns;
      Print_columns "Category pivot columns:"
        (Pandas.unique_sorted
           (map snd (Pandas.merge_inner txn_ProductID prod_ProductID
                       (fun t p => (txn_CustomerID t, Category p))
                       transactions products)));
      Print_columns "Region dummy columns:"
        ("CustomerID"
           :: map (fun v => "region" ++ "_" ++ v)
                  (Pandas.unique_sorted (map Region customers)))]).
Proof.
  intros [t [p [Ht [Hp [Hpid Hcat]]]]].
  unfold Clustering.create_customer_features, reset_index.
  destruct (in_dec string_dec _ _) as [_ | Hout]; [reflexivity |].
  exfalso. apply Hout. unfold Pandas.crosstab_normalize_index.
  cbn [Pandas.ct_columns]. apply unique_sorted_In. apply in_map_iff.
  exists (txn_CustomerID t, Category p). split; [exact Hcat |].
  apply merge_inner_In. now exists t, p.
Qed.

Lemma category_named_like_key_aborts_witness :
  (exists t p, In t MoreExamples.two_transactions /\
               In p MoreExamples.odd_products /\
               prod_ProductID p = txn_ProductID t /\
               Category p = "CustomerID") /\
  fst (Clustering.create_customer_features
         (Some Examples.four_customers) (Some MoreExamples.two_transactions)
         (Some MoreExamples.odd_products))
  = Returned None.
Proof.
  assert (H : exists t p, In t MoreExamples.two_transactions /\
                          In p MoreExamples.odd_products /\
                          prod_ProductID p = txn_ProductID t /\
                          Category p = "CustomerID").
  { exists (Examples.transaction "T1" "C0001" "P001" 0 1 10),
           (Examples.product "P001" "CustomerID").
    simpl. auto. }
  split; [exact H |].
  now rewrite (category_named_like_key_aborts Examples.four_customers _ _ H).
Defined.

Lemma flat_map_after_map {A B C : Type} (g : A -> B) (f : B -> list C) (l : list A) :
  flat_map f (map g l) = flat_map (fun x => f (g x)) l.
Proof.
  induction l as [|a l IH]; [reflexivity |]. cbn [map flat_map]. now rewrite IH.
Qed.

Lemma count_occ_flat_repeat (n : string -> nat) (keys : list string) (cid : string) :
  NoDup keys ->
  count_occ string_dec (flat_map (fun k => repeat k (n k)) keys) cid
  = if in_dec string_dec cid keys then n cid else 0%nat.
Proof.
  induction 1 as [|k keys Hk Hnd IH]; [reflexivity |].
  cbn [flat_map]. rewrite count_occ_app, IH.
  destruct (string_dec cid k) as [-> | Hne].
  - rewrite count_occ_repeat_eq by reflexivity.
    destruct (in_dec string_dec k keys); [contradiction |].
    destruct (in_dec string_dec k (k :: keys)) as [_ | Hout]; [lia |].
    exfalso. apply Hout. now left.
  - rewrite count_occ_repeat_neq by exact Hne.
    destruct (in_dec string_dec cid keys) as [Hin | Hout];
      destruct (in_dec string_dec cid (k :: keys)) as [Hin' | Hout'];
      try reflexivity.
    + exfalso. apply Hout'. now right.
    + exfalso. destruct Hin' as [<- | Hin']; [now apply Hne | contradiction].
Qed.

(** X9: a customer with transactions has as many rows in the feature
    table as the customer table lists it, and one row when the customer
    table does not list it; a customer without transactions has none. *)
Theorem rows_per_customer
    (customers : list Customer) (transactions : list Transaction)
    (products : list Product) (ft : feature_table) (out : list printed) :
  Clustering.create_customer_features
    (Some customers) (Some transactions) (Some products)
  = (Returned (Some ft), out) ->
  forall cid,
    count_occ string_dec (map CustomerID (rows ft)) cid
    = if in_dec string_dec cid (map txn_CustomerID transactions)
      then Nat.max 1 (count_occ string_dec (map cust_CustomerID customers) cid)
      else 0%nat.
Proof.
  intros Hrun cid. unfold Clustering.create_customer_features in Hrun.
  destruct (reset_index _) as [e | pivot_rows] eqn:Hreset in Hrun.
  { unfold Clustering.except_handler in Hrun. discriminate Hrun. }
  injection Hrun as Hft _. subst ft. cbn [rows].
  unfold reset_index in Hreset.
  destruct (in_dec string_dec _ _) in Hreset; [discriminate |].
  injection Hreset as <-.
  rewrite map_map.
  rewrite (merge_left_key_list _ fst _ (fun m => CustomerID (fillna_0 _ _ m)))
    by reflexivity.
  rewrite <- (flat_map_after_map (fun x : purchase_stats_row * option (list Q) * option Z =>
                              ps_CustomerID (fst (fst x)))
                           (fun k => repeat k
                              (Nat.max 1 (count_occ string_dec
                                 (map fst (Pandas.dm_rows
                                    (Pandas.get_dummies cust_CustomerID Region
                                       "region" customers))) k)))).
  rewrite (merge_left_keys _ fst _ (fun x => ps_CustomerID (fst (fst x))));
    [| rewrite map_map; cbn [fst];
       change (map (fun x : string * list Transaction => fst x)
                   (Pandas.groupby txn_CustomerID transactions))
         with (map fst (Pandas.groupby txn_CustomerID transactions));
       rewrite groupby_keys; apply unique_sorted_NoDup
     | reflexivity].
  rewrite (merge_left_keys _ fst _ (fun x => ps_CustomerID (fst x)));
    [| unfold Pandas.crosstab_normalize_index; cbn [Pandas.ct_rows];
       rewrite map_map; cbn [fst]; rewrite map_id; apply unique_sorted_NoDup
     | reflexivity].
  rewrite map_map. cbn [ps_CustomerID].
  change (map (fun x : string * list Transaction => fst x)
              (Pandas.groupby txn_CustomerID transactions))
    with (map fst (Pandas.groupby txn_CustomerID transactions)).
  rewrite groupby_keys.
  rewrite count_occ_flat_repeat by apply unique_sorted_NoDup.
  unfold Pandas.get_dummies. cbn [Pandas.dm_rows]. rewrite map_map. cbn [fst].
  destruct (in_dec string_dec cid (Pandas.unique_sorted _)) as [Hin | Hout];
    destruct (in_dec string_dec cid (map txn_CustomerID transactions))
      as [Hin' | Hout']; try reflexivity.
  - exfalso. apply Hout'. now apply unique_sorted_In.
  - exfalso. apply Hout. now apply unique_sorted_In.
Qed.

Lemma rows_per_customer_witness :
  Clustering.create_customer_features
    (Some MoreExamples.repeated_customers) (Some MoreExamples.two_transactions)
    (Some Examples.one_product)
  = (Returned (Some MoreExamples.repeated_features), []) /\
  count_occ string_dec (map CustomerID (rows MoreExamples.repeated_features)) "C0002"
  = 2%nat.
Proof.
  assert (Hrun : Clustering.create_customer_features
                   (Some MoreExamples.repeated_customers)
                   (Some MoreExamples.two_transactions)
                   (Some Examples.one_product)
                 = (Returned (Some MoreExamples.repeated_features), []))
    by (vm_compute; reflexivity).
  split; [exact Hrun |].
  rewrite (rows_per_customer _ _ _ _ _ Hrun "C0002"). reflexivity.
Defined.

(** ** More on the similarity engine *)

Lemma StronglySorted_across {A : Type} (R : A -> A -> Prop) (front back : list A) :
  StronglySorted R (front ++ back) ->
  forall x y, In x front -> In y back -> R x y.
Proof.
  induction front as [|a front IH]; intros H x y Hx Hy; [contradiction |].
  cbn [app] in H. inversion H as [|? ? Hrest Ha]; subst.
  destruct Hx as [<- | Hx].
  - rewrite Forall_forall in Ha. apply Ha. apply in_or_app. now right.
  - now apply (IH Hrest).
Qed.

Section Ranking.

Variable argsort : list Q -> list nat.
Hypothesis Hargsort : argsort_contract argsort.

(** The argsort of a non-empty row, cut as the slice cuts it: the rows
    ranked below the last four, the neighbours in ascending order, and
    the row ranked last, which the slice drops. *)
Lemma argsort_cut (scores : list Q) :
  scores <> [] ->
  exists below middle top,
    argsort scores = (below ++ middle ++ [top])%list /\
    Lookalike.similar_indices argsort scores = rev middle /\
    List.length middle = (Nat.min (List.length scores) 4 - 1)%nat.
Proof.
  intro Hne. destruct (Hargsort scores) as [Hperm _].
  assert (Hlen : List.length (argsort scores) = List.length scores).
  { rewrite (Permutation_length Hperm). apply length_seq. }
  assert (Hpos : (0 < List.length scores)%nat)
    by (destruct scores; [congruence | simpl; lia]).
  unfold Lookalike.similar_indices, Lookalike.last_n.
  set (l := argsort scores) in *.
  set (k := (List.length l - 4)%nat).
  assert (Htail : skipn k l <> []).
  { intro H. apply (f_equal (@List.length nat)) in H.
    rewrite length_skipn in H. simpl in H. lia. }
  destruct (exists_last Htail) as [middle [top Hcut]].
  exists (firstn k l), middle, top.
  rewrite <- Hcut, firstn_skipn. split; [reflexivity |].
  rewrite Hcut, removelast_last. split; [reflexivity |].
  apply (f_equal (@List.length nat)) in Hcut.
  rewrite length_skipn, length_app in Hcut. simpl in Hcut. lia.
Qed.

Lemma similar_indices_length (scores : list Q) :
  List.length (Lookalike.similar_indices argsort scores)
  = (Nat.min (List.length scores) 4 - 1)%nat.
Proof.
  destruct scores as [|s scores].
  - destruct (Hargsort []) as [Hperm _]. simpl in Hperm.
    apply Permutation_sym, Permutation_nil in Hperm.
    unfold Lookalike.similar_indices, Lookalike.last_n. now rewrite Hperm.
  - destruct (argsort_cut (s :: scores)) as [below [middle [top [_ [-> Hlen]]]]];
      [discriminate |].
    now rewrite length_rev.
Qed.

(** The rows left out rank around the neighbours: one row scores at least
    as high as every neighbour, every other row left out at most as high. *)
Lemma similar_indices_rank (scores : list Q) :
  scores <> [] ->
  exists dropped,
    (dropped < List.length scores)%nat /\
    ~ In dropped (Lookalike.similar_indices argsort scores) /\
    (forall i, In i (Lookalike.similar_indices argsort scores) ->
               (score_at scores i <= score_at scores dropped)%Q) /\
    (forall j, (j < List.length scores)%nat -> j <> dropped ->
               ~ In j (Lookalike.similar_indices argsort scores) ->
               forall i, In i (Lookalike.similar_indices argsort scores) ->
                         (score_at scores j <= score_at scores i)%Q).
Proof.
  intro Hne.
  destruct (argsort_cut scores Hne) as [below [middle [top [Hl [Hslice _]]]]].
  destruct (Hargsort scores) as [Hperm Hsorted].
  assert (Hnd : NoDup (argsort scores)).
  { eapply Permutation_NoDup; [symmetry; exact Hperm | apply seq_NoDup]. }
  rewrite Hl in Hnd, Hsorted. rewrite Hslice.
  exists top. split; [| split; [| split]].
  - assert (Hin : In top (seq 0 (List.length scores))).
    { apply (Permutation_in _ Hperm). rewrite Hl.
      apply in_or_app. right. apply in_or_app. right. now left. }
    apply in_seq in Hin. lia.
  - intro Hin. apply in_rev in Hin.
    apply NoDup_app_remove_l in Hnd. apply NoDup_remove_2 in Hnd.
    rewrite app_nil_r in Hnd. contradiction.
  - intros i Hi. apply in_rev in Hi.
    rewrite app_assoc in Hsorted.
    apply (StronglySorted_across _ _ _ Hsorted i top);
      [apply in_or_app; now right | now left].
  - intros j Hj Hne' Hout i Hi. apply in_rev in Hi.
    assert (Hin : In j (below ++ middle ++ [top])%list).
    { rewrite <- Hl. eapply Permutation_in; [symmetry; exact Hperm |].
      apply in_seq. lia. }
    apply in_app_or in Hin as [Hin | Hin].
    + apply (StronglySorted_across _ _ _ Hsorted j i Hin).
      apply in_or_app. now left.
    + exfalso. apply in_app_or in Hin as [Hin | [Hin | []]]; [| congruence].
      apply Hout. now apply -> in_rev.
Qed.

End Ranking.

(** X10: a neighbour list has 3 entries when the feature table has at
    least 4 rows, and one entry less than the table has rows otherwise. *)
Theorem neighbour_count
    (scaled_cosine_similarity : feature_table -> option (list (list Q)))
    (argsort : list Q -> list nat)
    (features : feature_table) (similarity_matrix : list (list Q))
    (target_customers : list string) (recs : recommendations) :
  argsort_contract argsort ->
  square_similarity scaled_cosine_similarity ->
  scaled_cosine_similarity features = Some similarity_matrix ->
  Lookalike.calculate_similarity scaled_cosine_similarity argsort
    (Some features) target_customers = Some recs ->
  forall target neighbours, In (target, neighbours) recs ->
    List.length neighbours
    = (Nat.min (List.length (rows features)) 4 - 1)%nat.
Proof.
  intros Hargsort Hsquare Hsim Hcalc target neighbours Hin.
  destruct (calculate_similarity_spec _ _ _ _ target_customers
              Hargsort Hsquare Hsim) as [recs' [Hcalc' [_ Hentries]]].
  rewrite Hcalc in Hcalc'. injection Hcalc' as <-.
  destruct (Hentries _ Hin) as [idx [scores [_ [Hrow Hv]]]]. cbn [snd] in Hv.
  rewrite Hv, length_map, (similar_indices_length argsort Hargsort).
  destruct (Hsquare _ _ Hsim) as [_ Hwidth]. rewrite Forall_forall in Hwidth.
  now rewrite (Hwidth scores (nth_error_In _ _ Hrow)).
Qed.

Lemma neighbour_count_witness :
  argsort_contract Examples.stable_argsort /\
  square_similarity (Examples.sklearn_gives Examples.twin_matrix) /\
  List.length [("C0004", (-1)%Q); ("C0003", (-1)%Q); ("C0002", (-1)%Q)]
  = (Nat.min (List.length (rows Examples.twin_features)) 4 - 1)%nat.
Proof.
  split; [exact stable_argsort_contract |].
  split; [exact twin_matrix_square |].
  apply (neighbour_count
           (Examples.sklearn_gives Examples.twin_matrix) Examples.stable_argsort
           Examples.twin_features Examples.twin_matrix ["C0001"]
           [("C0001", [("C0004", (-1)%Q); ("C0003", (-1)%Q); ("C0002", (-1)%Q)])]
           stable_argsort_contract twin_matrix_square)
    with (target := "C0001").
  - reflexivity.
  - vm_compute. reflexivity.
  - simpl. auto.
Defined.

(** X11: when customer identifiers are unique in the feature table and
    the score of the queried row is strictly the highest of its similarity
    row, the queried identifier is not among its neighbours. *)
Theorem own_id_excluded_when_strictly_best
    (scaled_cosine_similarity : feature_table -> option (list (list Q)))
    (argsort : list Q -> list nat)
    (features : feature_table) (similarity_matrix : list (list Q))
    (target_customers : list string) (recs : recommendations) :
  argsort_contract argsort ->
  square_similarity scaled_cosine_similarity ->
  scaled_cosine_similarity features = Some similarity_matrix ->
  NoDup (map CustomerID (rows features)) ->
  Lookalike.calculate_similarity scaled_cosine_similarity argsort
    (Some features) target_customers = Some recs ->
  forall target neighbours, In (target, neighbours) recs ->
    (forall idx scores,
       nth_error (map CustomerID (rows features)) idx = Some target ->
       nth_error similarity_matrix idx = Some scores ->
       forall j, (j < List.length scores)%nat -> j <> idx ->
                 (score_at scores j < score_at scores idx)%Q) ->
    ~ In target (map fst neighbours).
Proof.
  intros Hargsort Hsquare Hsim Hnd Hcalc target neighbours Hin Hbest Hself.
  destruct (calculate_similarity_spec _ _ _ _ target_customers
              Hargsort Hsquare Hsim) as [recs' [Hcalc' [_ Hentries]]].
  rewrite Hcalc in Hcalc'. injection Hcalc' as <-.
  destruct (Hentries _ Hin) as [idx [scores [Hid [Hrow Hv]]]]. cbn [fst snd] in *.
  destruct (Hsquare _ _ Hsim) as [_ Hwidth]. rewrite Forall_forall in Hwidth.
  pose proof (Hwidth scores (nth_error_In _ _ Hrow)) as Hlen.
  rewrite <- (length_map CustomerID) in Hlen.
  assert (Hidx : (idx < List.length scores)%nat).
  { rewrite Hlen. apply nth_error_Some. now rewrite Hid. }
  rewrite Hv, map_map in Hself. cbn [fst] in Hself.
  apply in_map_iff in Hself as [i [Hi Hslice]].
  pose proof (similar_indices_in_range argsort Hargsort scores i Hslice) as Hilt.
  assert (Heq : i = idx).
  { apply (proj1 (NoDup_nth_error (map CustomerID (rows features))) Hnd);
      [lia |].
    rewrite Hid. rewrite (nth_error_nth' _ "") by lia. now rewrite Hi. }
  subst i.
  exact (self_excluded_when_strictly_best argsort scores idx Hargsort Hidx
           (Hbest idx scores Hid Hrow) Hslice).
Qed.

Lemma own_id_excluded_when_strictly_best_witness :
  argsort_contract Examples.stable_argsort /\
  square_similarity (Examples.sklearn_gives Examples.twin_matrix) /\
  NoDup (map CustomerID (rows Examples.twin_features)) /\
  ~ In "C0001"
       (map fst [("C0004", (-1)%Q); ("C0003", (-1)%Q); ("C0002", (-1)%Q)]).
Proof.
  assert (Hnd : NoDup (map CustomerID (rows Examples.twin_features))).
  { simpl. repeat constructor; simpl; intuition discriminate. }
  split; [exact stable_argsort_contract |].
  split; [exact twin_matrix_square |]. split; [exact Hnd |].
  apply (own_id_excluded_when_strictly_best
           (Examples.sklearn_gives Examples.twin_matrix) Examples.stable_argsort
           Examples.twin_features Examples.twin_matrix ["C0001"]
           [("C0001", [("C0004", (-1)%Q); ("C0003", (-1)%Q); ("C0002", (-1)%Q)])]
           stable_argsort_contract twin_matrix_square eq_refl Hnd)
    with (target := "C0001").
  - vm_compute. reflexivity.
  - simpl. auto.
  - intros idx scores Hid Hrow j Hj Hne.
    destruct idx as [|[|[|[|idx]]]]; simpl in Hid; try discriminate Hid;
      [| destruct idx; discriminate Hid].
    injection Hrow as <-. simpl in Hj.
    do 4 (destruct j as [|j]; [try congruence; reflexivity |]). lia.
Defined.

(** The index dictionary keeps, of the rows that carry an identifier,
    the last one. *)
Lemma customer_indices_latest_from (ids : list string) :
  forall (start : nat) (d : list (string * nat)) (cid : string) (i : nat),
    Lookalike.dict_get cid
      (fold_left (fun d ic => Lookalike.dict_set (snd ic) (fst ic) d)
                 (combine (seq start (List.length ids)) ids) d) = Some i ->
    forall j, nth_error ids j = Some cid -> (start + j <= i)%nat.
Proof.
  induction ids as [|x ids IH]; intros start d cid i Hget j Hj.
  - destruct j; discriminate Hj.
  - cbn [List.length seq combine fold_left fst snd] in Hget.
    destruct j as [|j]; cbn [nth_error] in Hj.
    + injection Hj as ->.
      destruct (customer_indices_from ids (S start)
                  (Lookalike.dict_set cid start d) cid) as [Ha _].
      destruct (Ha i Hget) as [H | [H _]]; [| lia].
      rewrite dict_get_set, String.eqb_refl in H. injection H as <-. lia.
    + specialize (IH (S start) _ cid i Hget j Hj). lia.
Qed.

Lemma customer_indices_latest (ids : list string) (cid : string) (i : nat) :
  Lookalike.dict_get cid (Lookalike.customer_indices ids) = Some i ->
  forall j, nth_error ids j = Some cid -> (j <= i)%nat.
Proof.
  intros H j Hj.
  exact (customer_indices_latest_from ids 0 [] cid i H j Hj).
Qed.

Section RowRead.

Variable argsort : list Q -> list nat.
Hypothesis Hargsort : argsort_contract argsort.
Variables (ids : list string) (similarity_matrix : list (list Q)).
Hypothesis Hwidth :
  Forall (fun r => List.length r = List.length ids) similarity_matrix.

(** The entry a turn of the loop stores is made from the row of the
    matrix at the index that the dictionary gives for the target. *)
Lemma loop_body_reads (recs recs' : recommendations) (target_id : string) :
  Lookalike.loop_body argsort ids similarity_matrix
    (Lookalike.customer_indices ids) recs target_id = Some recs' ->
  recs' = recs \/
  exists target_idx scores,
    Lookalike.dict_get target_id (Lookalike.customer_indices ids)
    = Some target_idx /\
    nth_error similarity_matrix target_idx = Some scores /\
    recs' = Lookalike.dict_set target_id
              (map (fun idx => (nth idx ids "", score_at scores idx))
                   (Lookalike.similar_indices argsort scores))
              recs.
Proof.
  unfold Lookalike.loop_body.
  destruct (Lookalike.dict_get target_id (Lookalike.customer_indices ids))
    as [target_idx|] eqn:Hget; [| intros [= <-]; now left].
  destruct (nth_error similarity_matrix target_idx) as [scores|] eqn:Hrow;
    [| discriminate].
  assert (Hlen : List.length scores = List.length ids).
  { rewrite Forall_forall in Hwidth. apply Hwidth.
    eapply nth_error_In; exact Hrow. }
  rewrite (comprehension_total _
             (fun idx => (nth idx ids "", score_at scores idx))).
  - intros [= <-]. right. now exists target_idx, scores.
  - intros idx Hidx. apply (similar_indices_in_range argsort Hargsort) in Hidx.
    rewrite (nth_error_nth' ids "") by lia.
    rewrite (nth_error_nth' scores (0 : Q)) by lia. reflexivity.
Qed.

Lemma loop_reads (target_customers : list string) :
  forall recs recs' : recommendations,
    Lookalike.loop argsort ids similarity_matrix
      (Lookalike.customer_indices ids) recs target_customers = Some recs' ->
    forall e, In e recs' ->
      In e recs \/
      exists target_idx scores,
        Lookalike.dict_get (fst e) (Lookalike.customer_indices ids)
        = Some target_idx /\
        nth_error similarity_matrix target_idx = Some scores /\
        snd e = map (fun idx => (nth idx ids "", score_at scores idx))
                    (Lookalike.similar_indices argsort scores).
Proof.
  induction target_customers as [|t rest IH]; intros recs recs' Hloop e He;
    cbn [Lookalike.loop] in Hloop.
  - injection Hloop as <-. now left.
  - destruct (Lookalike.loop_body argsort ids similarity_matrix
                (Lookalike.customer_indices ids) recs t) as [recs1|] eqn:Hbody;
      [| discriminate].
    destruct (IH _ _ Hloop e He) as [H | H]; [| now right].
    destruct (loop_body_reads _ _ _ Hbody)
      as [-> | [idx [scores [Hget [Hrow ->]]]]]; [now left |].
    apply dict_set_In in H as [-> | H]; [| now left].
    right. now exists idx, scores.
Qed.

End RowRead.

(** X12: the neighbours of a target are the best scoring rows but one of
    the similarity row of the target, which is the row of the matrix at
    the last row of the table that carries the target identifier: a single
    row left out scores at least as high as every neighbour, and every
    other row left out scores at most as high as every neighbour. *)
Theorem neighbours_are_top_ranked
    (scaled_cosine_similarity : feature_table -> option (list (list Q)))
    (argsort : list Q -> list nat)
    (features : feature_table) (similarity_matrix : list (list Q))
    (target_customers : list string) (recs : recommendations) :
  argsort_contract argsort ->
  square_similarity scaled_cosine_similarity ->
  scaled_cosine_similarity features = Some similarity_matrix ->
  Lookalike.calculate_similarity scaled_cosine_similarity argsort
    (Some features) target_customers = Some recs ->
  forall target neighbours, In (target, neighbours) recs ->
    exists target_idx scores indices dropped,
      nth_error (map CustomerID (rows features)) target_idx = Some target /\
      (forall j, nth_error (map CustomerID (rows features)) j = Some target ->
                 (j <= target_idx)%nat) /\
      nth_error similarity_matrix target_idx = Some scores /\
      neighbours = map (fun idx => (nth idx (map CustomerID (rows features)) "",
                                    score_at scores idx)) indices /\
      (dropped < List.length (rows features))%nat /\
      ~ In dropped indices /\
      (forall i, In i indices ->
                 (score_at scores i <= score_at scores dropped)%Q) /\
      (forall j, (j < List.length (rows features))%nat -> j <> dropped ->
                 ~ In j indices ->
                 forall i, In i indices ->
                           (score_at scores j <= score_at scores i)%Q).
Proof.
  intros Hargsort Hsquare Hsim Hcalc target neighbours Hin.
  destruct (Hsquare _ _ Hsim) as [_ Hwidth].
  unfold Lookalike.calculate_similarity in Hcalc. rewrite Hsim in Hcalc.
  rewrite <- (length_map CustomerID) in Hwidth.
  destruct (loop_reads argsort Hargsort _ _ Hwidth _ _ _ Hcalc _ Hin)
    as [[] | [idx [scores [Hget [Hrow Hv]]]]].
  cbn [fst snd] in *.
  pose proof (customer_indices_Some _ _ _ Hget) as Hid.
  pose proof (customer_indices_latest _ _ _ Hget) as Hlast.
  rewrite Forall_forall in Hwidth.
  pose proof (Hwidth scores (nth_error_In _ _ Hrow)) as Hlen.
  assert (Hne : scores <> []).
  { intros ->. simpl in Hlen.
    assert (Hlt : (idx < List.length (map CustomerID (rows features)))%nat)
      by (apply nth_error_Some; now rewrite Hid).
    lia. }
  destruct (similar_indices_rank argsort Hargsort scores Hne)
    as [dropped [Hd1 [Hd2 [Hd3 Hd4]]]].
  exists idx, scores, (Lookalike.similar_indices argsort scores), dropped.
  rewrite <- (length_map CustomerID), <- Hlen.
  split; [exact Hid |]. split; [exact Hlast |]. split; [exact Hrow |].
  split; [exact Hv |].
  split; [exact Hd1 |]. split; [exact Hd2 |]. split; [exact Hd3 | exact Hd4].
Qed.

Lemma neighbours_are_top_ranked_witness :
  argsort_contract Examples.stable_argsort /\
  square_similarity (Examples.sklearn_gives Examples.spread_matrix) /\
  exists target_idx scores indices dropped,
    nth_error (map CustomerID (rows Examples.spread_features)) target_idx
    = Some "C0001" /\
    (forall j, nth_error (map CustomerID (rows Examples.spread_features)) j
               = Some "C0001" -> (j <= target_idx)%nat) /\
    nth_error Examples.spread_matrix target_idx = Some scores /\
    [("C0002", 120 # 169); ("C0004", - (120 # 169)); ("C0003", - (1))]%Q
    = map (fun idx => (nth idx (map CustomerID (rows Examples.spread_features)) "",
                       score_at scores idx)) indices /\
    (dropped < List.length (rows Examples.spread_features))%nat /\
    ~ In dropped indices /\
    (forall i, In i indices ->
               (score_at scores i <= score_at scores dropped)%Q) /\
    (forall j, (j < List.length (rows Examples.spread_features))%nat ->
               j <> dropped -> ~ In j indices ->
               forall i, In i indices ->
                         (score_at scores j <= score_at scores i)%Q).
Proof.
  assert (Hsq : square_similarity (Examples.sklearn_gives Examples.spread_matrix)).
  { apply sklearn_gives_square; [reflexivity | repeat constructor]. }
  split; [exact stable_argsort_contract |]. split; [exact Hsq |].
  apply (neighbours_are_top_ranked
           (Examples.sklearn_gives Examples.spread_matrix) Examples.stable_argsort
           Examples.spread_features Examples.spread_matrix ["C0001"]
           [("C0001", [("C0002", 120 # 169); ("C0004", - (120 # 169));
                       ("C0003", - (1))])]%Q
           stable_argsort_contract Hsq)
    with (target := "C0001").
  - reflexivity.
  - vm_compute. reflexivity.
  - simpl. auto.
Defined.

Lemma dict_set_key_list {V : Type} (k : string) (v : V) (d : list (string * V)) :
  map fst (Lookalike.dict_set k v d)
  = if in_dec string_dec k (map fst d) then map fst d
    else (map fst d ++ [k])%list.
Proof.
  induction d as [|[k' v'] d IH]; [reflexivity |].
  cbn [Lookalike.dict_set]. destruct (String.eqb k' k) eqn:E.
  - apply String.eqb_eq in E. subst k'. cbn [map fst].
    destruct (in_dec string_dec k (k :: map fst d)) as [_ | Hout]; [reflexivity |].
    exfalso. apply Hout. now left.
  - apply String.eqb_neq in E. cbn [map fst]. rewrite IH.
    destruct (in_dec string_dec k (map fst d)) as [Hin | Hout];
      destruct (in_dec string_dec k (k' :: map fst d)) as [Hin' | Hout'];
      try reflexivity.
    + exfalso. apply Hout'. now right.
    + exfalso. destruct Hin' as [-> | Hin']; [now apply E | contradiction].
Qed.

(** What a turn of the loop does to the mapping depends on the mapping
    only through the place where the entry goes. *)
Lemma loop_body_alone (argsort : list Q -> list nat) (ids : list string)
    (m : list (list Q)) (indices : list (string * nat))
    (recs : recommendations) (target_id : string) :
  Lookalike.loop_body argsort ids m indices recs target_id
  = match Lookalike.loop_body argsort ids m indices [] target_id with
    | None => None
    | Some [] => Some recs
    | Some ((k, v) :: _) => Some (Lookalike.dict_set k v recs)
    end.
Proof.
  unfold Lookalike.loop_body.
  destruct (Lookalike.dict_get target_id indices); [| reflexivity].
  destruct (nth_error m n); [| reflexivity].
  now destruct (Lookalike.comprehension _ _).
Qed.

Section Entries.

Variable argsort : list Q -> list nat.
Hypothesis Hargsort : argsort_contract argsort.
Variables (ids : list string) (similarity_matrix : list (list Q)).
Hypothesis Hheight : List.length similarity_matrix = List.length ids.
Hypothesis Hwidth :
  Forall (fun r => List.length r = List.length ids) similarity_matrix.

(** A turn of the loop on the empty mapping: nothing for an unknown
    target, the one entry of a known target. *)
Lemma loop_body_entry (target_id : string) :
  (~ In target_id ids /\
   Lookalike.loop_body argsort ids similarity_matrix
     (Lookalike.customer_indices ids) [] target_id = Some []) \/
  (In target_id ids /\
   exists v,
     Lookalike.loop_body argsort ids similarity_matrix
       (Lookalike.customer_indices ids) [] target_id = Some [(target_id, v)]).
Proof.
  destruct (loop_body_spec argsort Hargsort ids similarity_matrix Hheight Hwidth
              [] target_id) as [recs' [Hbody [[Hout ->] | [idx [scores [Hid [_ ->]]]]]]].
  - left. now split.
  - right. split; [eapply nth_error_In; exact Hid |]. eexists. exact Hbody.
Qed.

(** The entry of a target after the loop is the entry made for it alone;
    the other keys are as before the loop. *)
Lemma loop_entries (target_customers : list string) :
  forall recs : recommendations,
  exists recs',
    Lookalike.loop argsort ids similarity_matrix
      (Lookalike.customer_indices ids) recs target_customers = Some recs' /\
    forall target,
      Lookalike.dict_get target recs'
      = if in_dec string_dec target target_customers
        then match Lookalike.loop_body argsort ids similarity_matrix
                     (Lookalike.customer_indices ids) [] target with
             | Some ((_, v) :: _) => Some v
             | _ => Lookalike.dict_get target recs
             end
        else Lookalike.dict_get target recs.
Proof.
  induction target_customers as [|t rest IH]; intro recs; cbn [Lookalike.loop].
  - exists recs. split; [reflexivity |]. intro target.
    now destruct (in_dec string_dec target []).
  - rewrite loop_body_alone.
    destruct (loop_body_entry t) as [[Hout Ht] | [Hin [v Ht]]]; rewrite Ht.
    + destruct (IH recs) as [recs' [Hloop Hget]]. exists recs'.
      split; [exact Hloop |]. intro target. rewrite Hget.
      destruct (in_dec string_dec target rest) as [Hr | Hr];
        destruct (in_dec string_dec target (t :: rest)) as [Hr' | Hr'];
        try reflexivity.
      * exfalso. apply Hr'. now right.
      * destruct Hr' as [<- | Hr']; [| contradiction]. now rewrite Ht.
    + destruct (IH (Lookalike.dict_set t v recs)) as [recs' [Hloop Hget]].
      exists recs'. split; [exact Hloop |]. intro target. rewrite Hget.
      rewrite dict_get_set.
      destruct (String.eqb t target) eqn:E.
      * apply String.eqb_eq in E. subst target. rewrite Ht.
        destruct (in_dec string_dec t rest);
          destruct (in_dec string_dec t (t :: rest)) as [_ | Hr'];
          try reflexivity; exfalso; apply Hr'; now left.
      * apply String.eqb_neq in E.
        destruct (in_dec string_dec target rest) as [Hr | Hr];
          destruct (in_dec string_dec target (t :: rest)) as [Hr' | Hr'];
          try reflexivity.
        -- exfalso. apply Hr'. now right.
        -- destruct Hr' as [<- | Hr']; [congruence | contradiction].
Qed.

(** The keys after the loop: the keys before it, then the new targets
    found in the table, in the order of the list. *)
Lemma loop_keys (target_customers : list string) :
  forall recs : recommendations,
    NoDup target_customers ->
    (forall t, In t target_customers -> ~ In t (map fst recs)) ->
    exists recs',
      Lookalike.loop argsort ids similarity_matrix
        (Lookalike.customer_indices ids) recs target_customers = Some recs' /\
      map fst recs'
      = (map fst recs
           ++ filter (fun t => if in_dec string_dec t ids then true else false)
                     target_customers)%list.
Proof.
  induction target_customers as [|t rest IH]; intros recs Hnd Hnew;
    cbn [Lookalike.loop].
  - exists recs. split; [reflexivity |]. cbn [filter]. now rewrite app_nil_r.
  - inversion Hnd as [|? ? Ht Hrest]; subst.
    rewrite loop_body_alone. cbn [filter].
    destruct (loop_body_entry t) as [[Hout Hb] | [Hin [v Hb]]]; rewrite Hb.
    + destruct (in_dec string_dec t ids); [contradiction |].
      apply IH; [exact Hrest |]. intros x Hx. apply Hnew. now right.
    + destruct (in_dec string_dec t ids); [| contradiction].
      destruct (IH (Lookalike.dict_set t v recs) Hrest) as [recs' [Hloop Hkeys]].
      * intros x Hx Hk. apply dict_set_keys in Hk as [-> | Hk];
          [contradiction | apply (Hnew x); [now right | exact Hk]].
      * exists recs'. split; [exact Hloop |]. rewrite Hkeys, dict_set_key_list.
        destruct (in_dec string_dec t (map fst recs)) as [Hk | _];
          [exfalso; apply (Hnew t); [now left | exact Hk] |].
        now rewrite <- app_assoc.
Qed.

End Entries.

(** X13: the neighbours returned for a target do not depend on the other
    targets of the query, nor on how often the target is listed: they are
    those returned when the target is queried alone. *)
Theorem entry_independent_of_other_targets
    (scaled_cosine_similarity : feature_table -> option (list (list Q)))
    (argsort : list Q -> list nat)
    (features : feature_table) (similarity_matrix : list (list Q))
    (target_customers : list string) (target : string) :
  argsort_contract argsort ->
  square_similarity scaled_cosine_similarity ->
  scaled_cosine_similarity features = Some similarity_matrix ->
  In target target_customers ->
  exists recs alone,
    Lookalike.calculate_similarity scaled_cosine_similarity argsort
      (Some features) target_customers = Some recs /\
    Lookalike.calculate_similarity scaled_cosine_similarity argsort
      (Some features) [target] = Some alone /\
    Lookalike.dict_get target recs = Lookalike.dict_get target alone.
Proof.
  intros Hargsort Hsquare Hsim Hin.
  destruct (Hsquare _ _ Hsim) as [Hheight Hwidth].
  rewrite <- (length_map CustomerID) in Hheight.
  assert (Hwidth' : Forall (fun r => List.length r
                                     = List.length (map CustomerID (rows features)))
                           similarity_matrix)
    by now rewrite length_map.
  unfold Lookalike.calculate_similarity. rewrite Hsim.
  destruct (loop_entries argsort Hargsort _ _ Hheight Hwidth' target_customers [])
    as [recs [Hloop Hget]].
  destruct (loop_entries argsort Hargsort _ _ Hheight Hwidth' [target] [])
    as [alone [Hloop1 Hget1]].
  exists recs, alone. split; [exact Hloop |]. split; [exact Hloop1 |].
  rewrite Hget, Hget1.
  destruct (in_dec string_dec target target_customers); [| contradiction].
  destruct (in_dec string_dec target [target]) as [_ | Hout]; [reflexivity |].
  exfalso. apply Hout. now left.
Qed.

Lemma entry_independent_of_other_targets_witness :
  argsort_contract Examples.stable_argsort /\
  square_similarity (Examples.sklearn_gives Examples.twin_matrix) /\
  exists recs alone,
    Lookalike.calculate_similarity
      (Examples.sklearn_gives Examples.twin_matrix) Examples.stable_argsort
      (Some Examples.twin_features) ["C0002"; "C0001"; "C0002"] = Some recs /\
    Lookalike.calculate_similarity
      (Examples.sklearn_gives Examples.twin_matrix) Examples.stable_argsort
      (Some Examples.twin_features) ["C0001"] = Some alone /\
    Lookalike.dict_get "C0001" recs = Lookalike.dict_get "C0001" alone.
Proof.
  split; [exact stable_argsort_contract |].
  split; [exact twin_matrix_square |].
  apply (entry_independent_of_other_targets
           (Examples.sklearn_gives Examples.twin_matrix) Examples.stable_argsort
           Examples.twin_features Examples.twin_matrix
           ["C0002"; "C0001"; "C0002"] "C0001"
           stable_argsort_contract twin_matrix_square eq_refl).
  simpl. auto.
Defined.

(** X14: for targets listed without repetition, the mapping holds the
    targets found in the feature table in the order queried, each once,
    and [save_recommendations] writes one row for each, in this order. *)
Theorem found_targets_in_query_order
    (scaled_cosine_similarity : feature_table -> option (list (list Q)))
    (argsort : list Q -> list nat)
    (features : feature_table) (similarity_matrix : list (list Q))
    (target_customers : list string) :
  argsort_contract argsort ->
  square_similarity scaled_cosine_similarity ->
  scaled_cosine_similarity features = Some similarity_matrix ->
  NoDup target_customers ->
  exists recs file,
    Lookalike.calculate_similarity scaled_cosine_similarity argsort
      (Some features) target_customers = Some recs /\
    Lookalike.save_recommendations (Some recs) = Some file /\
    map fst recs
    = filter (fun t => if in_dec string_dec t (map CustomerID (rows features))
                       then true else false) target_customers /\
    map fst file = map fst recs.
Proof.
  intros Hargsort Hsquare Hsim Hnd.
  destruct (Hsquare _ _ Hsim) as [Hheight Hwidth].
  rewrite <- (length_map CustomerID) in Hheight.
  assert (Hwidth' : Forall (fun r => List.length r
                                     = List.length (map CustomerID (rows features)))
                           similarity_matrix)
    by now rewrite length_map.
  unfold Lookalike.calculate_similarity. rewrite Hsim.
  destruct (loop_keys argsort Hargsort _ _ Hheight Hwidth' target_customers []
              Hnd) as [recs [Hloop Hkeys]]; [intros t _ [] |].
  exists recs. eexists. split; [exact Hloop |]. split; [reflexivity |].
  split; [exact Hkeys |]. now rewrite map_map.
Qed.

Lemma found_targets_in_query_order_witness :
  argsort_contract Examples.stable_argsort /\
  square_similarity (Examples.sklearn_gives Examples.twin_matrix) /\
  NoDup ["C0003"; "C9999"; "C0001"] /\
  exists recs file,
    Lookalike.calculate_similarity
      (Examples.sklearn_gives Examples.twin_matrix) Examples.stable_argsort
      (Some Examples.twin_features) ["C0003"; "C9999"; "C0001"] = Some recs /\
    Lookalike.save_recommendations (Some recs) = Some file /\
    map fst recs
    = filter (fun t => if in_dec string_dec t
                            (map CustomerID (rows Examples.twin_features))
                       then true else false) ["C0003"; "C9999"; "C0001"] /\
    map fst file = map fst recs.
Proof.
  assert (Hnd : NoDup ["C0003"; "C9999"; "C0001"]).
  { repeat constructor; simpl; intuition discriminate. }
  split; [exact stable_argsort_contract |].
  split; [exact twin_matrix_square |]. split; [exact Hnd |].
  exact (found_targets_in_query_order
           (Examples.sklearn_gives Examples.twin_matrix) Examples.stable_argsort
           Examples.twin_features Examples.twin_matrix
           ["C0003"; "C9999"; "C0001"]
           stable_argsort_contract twin_matrix_square eq_refl Hnd).
Defined.

(** ** More on the recommendations file *)

(** X15: for identifiers free of commas and semicolons, two mappings that
    [save_recommendations] writes to the same file have the same
    customers and neighbours in the same order, and the same scores once
    rounded to 4 decimal places. *)
Theorem same_file_same_rounded_mapping (recs1 recs2 : recommendations) :
  (forall item, In item recs1 ->
     forall rec, In rec (snd item) -> Reload.plain_id (fst rec)) ->
  (forall item, In item recs2 ->
     forall rec, In rec (snd item) -> Reload.plain_id (fst rec)) ->
  Lookalike.save_recommendations (Some recs1)
  = Lookalike.save_recommendations (Some recs2) ->
  Reload.rounded recs1 = Reload.rounded recs2.
Proof.
  intros Hplain1 Hplain2 Hsame.
  destruct (load_saved recs1 Hplain1) as [file1 [Hsave1 Hload1]].
  destruct (load_saved recs2 Hplain2) as [file2 [Hsave2 Hload2]].
  rewrite Hsave1, Hsave2 in Hsame. injection Hsame as <-.
  rewrite Hload1 in Hload2. now injection Hload2.
Qed.

Lemma same_file_same_rounded_mapping_witness :
  Lookalike.save_recommendations (Some [("C0001", [("C0002", 120 # 169)])]%Q)
  = Lookalike.save_recommendations (Some [("C0001", [("C0002", 7101 # 10000)])]%Q) /\
  Reload.rounded [("C0001", [("C0002", 120 # 169)])]%Q
  = Reload.rounded [("C0001", [("C0002", 7101 # 10000)])]%Q.
Proof.
  assert (Hsame : Lookalike.save_recommendations
                    (Some [("C0001", [("C0002", 120 # 169)])]%Q)
                  = Lookalike.save_recommendations
                      (Some [("C0001", [("C0002", 7101 # 10000)])]%Q))
    by (vm_compute; reflexivity).
  split; [exact Hsame |].
  apply same_file_same_rounded_mapping; [| | exact Hsame];
    intros item [<- | []] rec [<- | []]; split; reflexivity.
Defined.

(** ** The targets queried *)

Lemma zeros_succ (k : nat) :
  String.concat "" (repeat "0" (S k))
  = String "0"%char (String.concat "" (repeat "0" k)).
Proof. destruct k; reflexivity. Qed.

(** Zeros in front of a numeral do not change its value. *)
Lemma parse_after_zeros (k : nat) (n : N) :
  Reload.parse_N (String.concat "" (repeat "0" k) ++ Lookalike.digits n) = Some n.
Proof.
  assert (Hval : N.of_uint (Nat.iter k Decimal.D0 (N.to_uint n)) = n).
  { induction k as [|k IH]; [apply DecimalN.Unsigned.of_to | exact IH]. }
  assert (H : NilEmpty.uint_of_string
                (String.concat "" (repeat "0" k) ++ Lookalike.digits n)
              = Some (Nat.iter k Decimal.D0 (N.to_uint n))).
  { clear Hval. induction k as [|k IH].
    - cbn [repeat String.concat append Nat.iter]. apply NilEmpty.usu.
    - rewrite zeros_succ. cbn [append NilEmpty.uint_of_string Nat.iter].
      now rewrite IH. }
  unfold Reload.parse_N.
  destruct (String.concat "" (repeat "0" k) ++ Lookalike.digits n) eqn:E.
  - exfalso. destruct k.
    + cbn [repeat String.concat append] in E. exact (digits_nonempty n E).
    + rewrite zeros_succ in E. discriminate E.
  - rewrite H. cbn [option_map]. now rewrite Hval.
Qed.

(** A numeral has no sign, so [zfill] only puts zeros in front of it. *)
Lemma zfill_digits (width : nat) (n : N) :
  LookalikeScript.zfill width (Lookalike.digits n)
  = String.concat "" (repeat "0" (width - String.length (Lookalike.digits n)))
      ++ Lookalike.digits n.
Proof.
  unfold LookalikeScript.zfill.
  pose proof (digits_nonempty n) as Hne.
  pose proof (digits_only "+" (N.to_uint n) eq_refl) as Hplus.
  pose proof (digits_only "-" (N.to_uint n) eq_refl) as Hminus.
  fold (Lookalike.digits n) in Hplus, Hminus.
  destruct (Lookalike.digits n) as [|c rest]; [congruence |].
  cbn [Reload.has_char] in Hplus, Hminus.
  apply orb_false_iff in Hplus as [Hplus _].
  apply orb_false_iff in Hminus as [Hminus _].
  now rewrite Hplus, Hminus.
Qed.

(** X16: the labels built for the targets are pairwise distinct: the
    number can be read back from the label, so different numbers give
    different labels, and the 20 targets of the notebook, C0001 to C0020,
    are distinct. *)
Theorem target_labels_distinct :
  (forall i, exists padded,
       LookalikeScript.customer_label i = String "C"%char padded /\
       Reload.parse_N padded = Some i) /\
  (forall i j, LookalikeScript.customer_label i = LookalikeScript.customer_label j ->
               i = j) /\
  NoDup LookalikeScript.target_customers /\
  hd "" LookalikeScript.target_customers = "C0001" /\
  last LookalikeScript.target_customers "" = "C0020".
Proof.
  assert (Hread : forall i, exists padded,
             LookalikeScript.customer_label i = String "C"%char padded /\
             Reload.parse_N padded = Some i).
  { intro i. exists (LookalikeScript.zfill 4 (Lookalike.digits i)).
    split; [reflexivity |]. rewrite zfill_digits. apply parse_after_zeros. }
  assert (Hinj : forall i j,
             LookalikeScript.customer_label i = LookalikeScript.customer_label j ->
             i = j).
  { intros i j Heq.
    destruct (Hread i) as [pi [Hi Hpi]]. destruct (Hread j) as [pj [Hj Hpj]].
    rewrite Hi, Hj in Heq. injection Heq as ->. congruence. }
  split; [exact Hread |]. split; [exact Hinj |].
  split; [| split; vm_compute; reflexivity].
  unfold LookalikeScript.target_customers.
  apply Finite.Injective_map_NoDup; [| apply seq_NoDup].
  intros a b Hab. apply Hinj in Hab. now apply Nat2N.inj.
Qed.

(** ** Loading *)

(** X17: when the three files are read, [load_data] returns the customer
    and product tables as read, and the transactions table with the same
    rows and as many columns, in which no column is labelled customer_id
    or product_id any more: these two labels have become CustomerID and
    ProductID, and every other label is kept in its place. *)
Theorem loaded_transactions_have_consistent_names
    (customers products transactions : Loader.frame) :
  exists renamed,
    Loader.load_data (inr customers) (inr products) (inr transactions)
    = (Returned (Some customers, Some products, Some renamed), []) /\
    Loader.fr_rows renamed = Loader.fr_rows transactions /\
    List.length (Loader.fr_columns renamed)
    = List.length (Loader.fr_columns transactions) /\
    ~ In "customer_id" (Loader.fr_columns renamed) /\
    ~ In "product_id" (Loader.fr_columns renamed) /\
    forall k label,
      nth_error (Loader.fr_columns transactions) k = Some label ->
      nth_error (Loader.fr_columns renamed) k
      = Some (if String.eqb label "customer_id" then "CustomerID"
              else if String.eqb label "product_id" then "ProductID"
              else label).
Proof.
  eexists. split; [reflexivity |]. split; [reflexivity |].
  unfold Loader.rename. cbn [Loader.fr_columns].
  split; [apply length_map |].
  assert (Hlabel : forall label,
             match Lookalike.dict_get label Loader.consistent_names with
             | Some label' => label'
             | None => label
             end
             = if String.eqb label "customer_id" then "CustomerID"
               else if String.eqb label "product_id" then "ProductID"
               else label).
  { intro label. unfold Loader.consistent_names. cbn [Lookalike.dict_get].
    rewrite (String.eqb_sym "customer_id"), (String.eqb_sym "product_id").
    destruct (String.eqb label "customer_id"); [reflexivity |].
    now destruct (String.eqb label "product_id"). }
  split; [| split].
  - intro Hin. apply in_map_iff in Hin as [label [Heq _]].
    rewrite Hlabel in Heq.
    destruct (String.eqb label "customer_id") eqn:E1; [discriminate Heq |].
    destruct (String.eqb label "product_id") eqn:E2; [discriminate Heq |].
    apply String.eqb_neq in E1. congruence.
  - intro Hin. apply in_map_iff in Hin as [label [Heq _]].
    rewrite Hlabel in Heq.
    destruct (String.eqb label "customer_id") eqn:E1; [discriminate Heq |].
    destruct (String.eqb label "product_id") eqn:E2; [discriminate Heq |].
    apply String.eqb_neq in E2. congruence.
  - intros k label Hk. rewrite nth_error_map, Hk. cbn [option_map].
    now rewrite Hlabel.
Qed.

(** X18: when one of the three files cannot be read, [load_data] returns
    three None, never a part of the tables; the cell that called it still
    prints that the data was loaded, and then fails on the shape of None. *)
Theorem failed_load_announced_as_success
    (customers_csv products_csv transactions_csv : exn + Loader.frame) :
  (exists e, customers_csv = inl e \/ products_csv = inl e
             \/ transactions_csv = inl e) ->
  exists e,
    (customers_csv = inl e \/ products_csv = inl e \/ transactions_csv = inl e) /\
    Loader.load_data customers_csv products_csv transactions_csv
    = (Returned (None, None, None), [Print_error "Error loading data" e]) /\
    Loader.loading_cell customers_csv products_csv transactions_csv
    = (Raised (AttributeError "'NoneType' object has no attribute 'shape'"),
       [Print_error "Error loading data" e;
        Print_line "Data loaded successfully"]).
Proof.
  intros [e0 H]. unfold Loader.loading_cell, Loader.load_data.
  destruct customers_csv as [e1 | c]; [exists e1; auto |].
  destruct products_csv as [e2 | p]; [exists e2; auto |].
  destruct transactions_csv as [e3 | t]; [exists e3; auto |].
  destruct H as [H | [H | H]]; discriminate H.
Qed.

Lemma failed_load_announced_as_success_witness :
  exists e,
    (@inl exn Loader.frame MoreExamples.missing_file = inl e \/
     @inr exn Loader.frame MoreExamples.csv = inl e \/
     @inr exn Loader.frame MoreExamples.csv = inl e) /\
    Loader.load_data (inl MoreExamples.missing_file) (inr MoreExamples.csv)
      (inr MoreExamples.csv)
    = (Returned (None, None, None), [Print_error "Error loading data" e]) /\
    Loader.loading_cell (inl MoreExamples.missing_file) (inr MoreExamples.csv)
      (inr MoreExamples.csv)
    = (Raised (AttributeError "'NoneType' object has no attribute 'shape'"),
       [Print_error "Error loading data" e;
        Print_line "Data loaded successfully"]).
Proof.
  apply (failed_load_announced_as_success
           (inl MoreExamples.missing_file) (inr MoreExamples.csv)
           (inr MoreExamples.csv)).
  exists MoreExamples.missing_file. now left.
Defined.

(** ** Plotting *)

(** The category labels of a table are categories of the product table. *)
Lemma category_label_of_product
    (customers : list Customer) (transactions : list Transaction)
    (products : list Product) (ft : feature_table) (out : list printed)
    (label : string) :
  Clustering.create_customer_features
    (Some customers) (Some transactions) (Some products)
  = (Returned (Some ft), out) ->
  In label (category_columns ft) ->
  exists p, In p products /\ Category p = label.
Proof.
  intros Hrun Hin.
  destruct (feature_labels _ _ _ _ _ Hrun) as [Hcat _].
  rewrite Hcat in Hin. apply (proj1 (unique_sorted_In _ _)) in Hin.
  apply in_map_iff in Hin as [[c k] [Hk Hin]]. cbn [snd] in Hk. subst k.
  unfold Pandas.merge_inner in Hin.
  apply in_flat_map in Hin as [t [_ Hin]].
  apply in_map_iff in Hin as [p [Heq Hin]].
  apply filter_In in Hin as [Hp _].
  injection Heq as _ Heq. now exists p.
Qed.

(** X19: [visualize_clusters] never draws a plot of the feature table:
    unless a product category is itself named total_spend_sum, the table
    made by [create_customer_features] has no column of that name, with
    or without the Cluster column, so the first scatter plot raises, the
    error is printed, and the second plot is not attempted.  The same
    happens when the table is None. *)
Theorem spend_plot_never_drawn
    (customers : list Customer) (transactions : list Transaction)
    (products : list Product) (ft : feature_table) (out : list printed)
    (wording : string -> string -> string) (added : list string) :
  Clustering.create_customer_features
    (Some customers) (Some transactions) (Some products)
  = (Returned (Some ft), out) ->
  (forall p, In p products -> Category p <> "total_spend_sum") ->
  added = [] \/ added = ["Cluster"] ->
  let failed :=
    ([ClusteringScript.Figure 12 6],
     [Print_error "Error visualizing clusters"
        (ValueError (wording "total_spend_sum" "x"))]) in
  ClusteringScript.visualize_clusters wording
    (Some (ClusteringScript.frame_columns ft ++ added)%list) = failed /\
  ClusteringScript.visualize_clusters wording None = failed.
Proof.
  intros Hrun Hcat Hadded failed. split; [| reflexivity].
  assert (Hnot : ~ In "total_spend_sum"
                     (ClusteringScript.frame_columns ft ++ added)%list).
  { intro Hin. apply in_app_or in Hin as [Hin | Hin].
    - unfold ClusteringScript.frame_columns in Hin.
      apply in_app_or in Hin as [Hin | Hin].
      { unfold purchase_stats_columns in Hin. simpl in Hin.
        intuition discriminate. }
      apply in_app_or in Hin as [Hin | Hin].
      { destruct (category_label_of_product _ _ _ _ _ _ Hrun Hin)
          as [p [Hp Heq]].
        exact (Hcat p Hp Heq). }
      apply in_app_or in Hin as [Hin | Hin].
      { simpl in Hin. intuition discriminate. }
      destruct (feature_labels _ _ _ _ _ Hrun) as [_ Hreg].
      rewrite Hreg in Hin. apply in_map_iff in Hin as [v [Heq _]].
      discriminate Heq.
    - destruct Hadded as [-> | ->]; simpl in Hin; intuition discriminate. }
  unfold ClusteringScript.visualize_clusters, ClusteringScript.scatterplot.
  destruct (in_dec string_dec "total_spend_sum" _) as [Hin | _];
    [contradiction | reflexivity].
Qed.

Lemma spend_plot_never_drawn_witness :
  Clustering.create_customer_features
    (Some Examples.four_customers) (Some Examples.twin_transactions)
    (Some Examples.one_product)
  = (Returned (Some Examples.twin_features), []) /\
  (forall p, In p Examples.one_product -> Category p <> "total_spend_sum") /\
  ClusteringScript.visualize_clusters MoreExamples.cannot_interpret
    (Some (ClusteringScript.frame_columns Examples.twin_features ++ ["Cluster"])%list)
  = ([ClusteringScript.Figure 12 6],
     [Print_error "Error visualizing clusters"
        (ValueError
           "Could not interpret value `total_spend_sum` for parameter `x`")]).
Proof.
  assert (Hrun : Clustering.create_customer_features
                   (Some Examples.four_customers) (Some Examples.twin_transactions)
                   (Some Examples.one_product)
                 = (Returned (Some Examples.twin_features), []))
    by (vm_compute; reflexivity).
  assert (Hcat : forall p, In p Examples.one_product ->
                           Category p <> "total_spend_sum").
  { intros p [<- | []]. discriminate. }
  split; [exact Hrun |]. split; [exact Hcat |].
  exact (proj1 (spend_plot_never_drawn _ _ _ _ _ MoreExamples.cannot_interpret
                  ["Cluster"] Hrun Hcat (or_intror eq_refl))).
Defined.

(** ** The cell that builds the features *)

(** X20: the cell that calls [create_customer_features] announces success
    after a failure: when a transaction joins to a product whose category
    is named CustomerID, the error and the column lists are printed, then
    the line that the features were created, and the cell fails on the
    shape of None.  When a table is missing instead, the exception leaves
    the call and that line is not printed. *)
Theorem failed_features_announced_as_success
    (customers : list Customer) (transactions : list Transaction)
    (products : list Product) :
  (exists t p, In t transactions /\ In p products /\
               prod_ProductID p = txn_ProductID t /\
               Category p = "CustomerID") ->
  let created :=
    Print_line (String (ascii_of_nat 10) "Features created successfully") in
  (exists c1 c2 c3,
    ClusteringScript.features_cell
      (Some customers) (Some transactions) (Some products)
    = (Raised (AttributeError "'NoneType' object has no attribute 'shape'"),
       [Print_error "Error creating features"
          (ValueError "cannot insert CustomerID, already exists");
        Print_line (String (ascii_of_nat 10) "Debugging info:");
        Print_columns "Purchase stats columns:" c1;
        Print_columns "Category pivot columns:" c2;
        Print_columns "Region dummy columns:" c3;
        created])) /\
  (forall out e,
     ClusteringScript.features_cell None (Some transactions) (Some products)
     = (e, out) ->
     ~ In created out /\ exists var, e = Raised (UnboundLocalError var)).
Proof.
  intros [t [p [Ht [Hp [Hpid Hcat]]]]] created. split.
  - unfold ClusteringScript.features_cell, Clustering.create_customer_features,
      reset_index.
    destruct (in_dec string_dec _ _) as [_ | Hout];
      [eexists _, _, _; reflexivity |].
    exfalso. apply Hout. unfold Pandas.crosstab_normalize_index.
    cbn [Pandas.ct_columns]. apply unique_sorted_In. apply in_map_iff.
    exists (txn_CustomerID t, Category p). split; [exact Hcat |].
    apply merge_inner_In. now exists t, p.
  - intros out e Hcell.
    destruct (missing_table_escapes None (Some transactions) (Some products))
      as [var [out0 Hrun]]; [now left |].
    unfold ClusteringScript.features_cell in Hcell. rewrite Hrun in Hcell.
    injection Hcell as <- <-. split; [| now exists var].
    unfold Clustering.create_customer_features in Hrun.
    injection Hrun as _ <-. unfold created. simpl. intuition discriminate.
Qed.

Lemma failed_features_announced_as_success_witness :
  (exists t p, In t MoreExamples.two_transactions /\
               In p MoreExamples.odd_products /\
               prod_ProductID p = txn_ProductID t /\
               Category p = "CustomerID") /\
  exists c1 c2 c3,
    ClusteringScript.features_cell
      (Some Examples.four_customers) (Some MoreExamples.two_transactions)
      (Some MoreExamples.odd_products)
    = (Raised (AttributeError "'NoneType' object has no attribute 'shape'"),
       [Print_error "Error creating features"
          (ValueError "cannot insert CustomerID, already exists");
        Print_line (String (ascii_of_nat 10) "Debugging info:");
        Print_columns "Purchase stats columns:" c1;
        Print_columns "Category pivot columns:" c2;
        Print_columns "Region dummy columns:" c3;
        Print_line (String (ascii_of_nat 10) "Features created successfully")]).
Proof.
  assert (H : exists t p, In t MoreExamples.two_transactions /\
                          In p MoreExamples.odd_products /\
                          prod_ProductID p = txn_ProductID t /\
                          Category p = "CustomerID").
  { exists (Examples.transaction "T1" "C0001" "P001" 0 1 10),
           (Examples.product "P001" "CustomerID").
    repeat split; simpl; auto. }
  split; [exact H |].
  exact (proj1 (failed_features_announced_as_success
                  Examples.four_customers MoreExamples.two_transactions
                  MoreExamples.odd_products H)).
Defined.
